(** * EcoRoute: route metrics, eco-scoring and route selection

    A shallow embedding of the calculators ([calculators/]), the route
    processor ([utils/route_processor.py]) and the two route services
    ([api/route_service.py] and [app.py]), followed by the properties the
    specification states about them.

    Numbers.  Python [float] and [int] values are embedded as rationals [Q]:
    every arithmetic operation is the exact one.  Python's exceptions are
    embedded in the error monad [py]; in particular a division whose divisor
    is a run-time value goes through [truediv], which raises
    [ZeroDivisionError] on a zero divisor. *)

From Stdlib Require Import QArith Qminmax Qround Qabs ZArith Lia Lqa.
From Stdlib Require Import String Ascii List Bool DecimalString Sorted.
From Stdlib Require Import Permutation.
Import ListNotations.
Open Scope string_scope.
Open Scope Q_scope.

(** ** Python values and exceptions *)

Module Py.

Inductive exn : Type :=
| ZeroDivisionError
| AttributeError
| ValueError
| TypeError
| KeyError
| IndexError.

(** A computation that either raises or returns. *)
Definition py (A : Type) : Type := (exn + A)%type.

Definition ret {A} (a : A) : py A := inr a.
Definition raise {A} (e : exn) : py A := inl e.
Definition bind {A B} (c : py A) (k : A -> py B) : py B :=
  match c with
  | inl e => inl e
  | inr a => k a
  end.

(** [try: c  except Exception: h] *)
Definition try_except {A} (c : py A) (h : exn -> py A) : py A :=
  match c with
  | inl e => h e
  | inr a => inr a
  end.

Fixpoint mapM {A B} (f : A -> py B) (l : list A) : py (list B) :=
  match l with
  | [] => ret []
  | a :: l' =>
      bind (f a) (fun b => bind (mapM f l') (fun bs => ret (b :: bs)))
  end.

(** Comparisons of numbers, as booleans. *)
Definition leb (a b : Q) : bool := Qle_bool a b.
Definition ltb (a b : Q) : bool := negb (Qle_bool b a).
Definition gtb (a b : Q) : bool := ltb b a.
Definition geb (a b : Q) : bool := leb b a.

(** [a / b] *)
Definition truediv (a b : Q) : py Q :=
  if Qeq_bool b 0 then raise ZeroDivisionError else ret (a / b).

(** [min(a, b)] and [max(a, b)]: the first argument wins a tie. *)
Definition min (a b : Q) : Q := if ltb b a then b else a.
Definition max (a b : Q) : Q := if gtb b a then b else a.

(** [math.ceil] *)
Definition ceil (x : Q) : Z := Qceiling x.

(** Rounding to the nearest integer, ties to even. *)
Definition round_half_even (x : Q) : Z :=
  let f := Qfloor x in
  let r := x - inject_Z f in
  if ltb r (1 # 2) then f
  else if gtb r (1 # 2) then (f + 1)%Z
  else if Z.even f then f else (f + 1)%Z.

(** [round(x, ndigits)] *)
Definition round (x : Q) (ndigits : nat) : Q :=
  let s := inject_Z (10 ^ Z.of_nat ndigits) in
  inject_Z (round_half_even (x * s)) / s.

Definition string_of_Z (z : Z) : string := NilZero.string_of_int (Z.to_int z).

Fixpoint zeros (n : nat) : string :=
  match n with
  | O => EmptyString
  | S n' => "0" ++ zeros n'
  end.

(** [format(x, '.<digits>f')] *)
Definition format_f (digits : nat) (x : Q) : string :=
  let s := (10 ^ Z.of_nat digits)%Z in
  let n := round_half_even (Qabs x * inject_Z s) in
  let int_part := string_of_Z (n / s) in
  let frac := string_of_Z (n mod s) in
  let sign := if ltb x 0 then "-" else EmptyString in
  match digits with
  | O => sign ++ int_part
  | _ => sign ++ int_part ++ "." ++ zeros (digits - String.length frac) ++ frac
  end.

(** [d[key]] on a dict with string keys, kept in insertion order. *)
Fixpoint getitem {V} (d : list (string * V)) (key : string) : py V :=
  match d with
  | [] => raise KeyError
  | (k, v) :: d' => if String.eqb k key then ret v else getitem d' key
  end.

(** [d.get(key, default)] *)
Fixpoint get {V} (d : list (string * V)) (key : string) (default : V) : V :=
  match d with
  | [] => default
  | (k, v) :: d' => if String.eqb k key then v else get d' key default
  end.

(** [key in l] for a list of strings. *)
Definition str_in (key : string) (l : list string) : bool :=
  existsb (String.eqb key) l.

(** Truth value of an optional string ([None] and [''] are falsy). *)
Definition truthy_str (s : option string) : bool :=
  match s with
  | None => false
  | Some s => negb (String.eqb s EmptyString)
  end.

(** [a == b] on optional strings. *)
Definition opt_str_eqb (a b : option string) : bool :=
  match a, b with
  | None, None => true
  | Some x, Some y => String.eqb x y
  | _, _ => false
  end.

(** [o if present else default] for an optional string. *)
Definition opt_default_str (o : option string) (default : string) : string :=
  match o with
  | Some s => s
  | None => default
  end.

(** Binding the keyword arguments of a call against the parameter names of
    the callee: a keyword that names no parameter raises [TypeError]. *)
Definition bind_keywords (params keywords : list string) : py unit :=
  if forallb (fun k => str_in k params) keywords then ret tt
  else raise TypeError.

(** [d[k] = v] on a dict kept in insertion order: an existing key keeps its
    place and takes the new value. *)
Fixpoint setitem {V} (d : list (string * V)) (k : string) (v : V)
    : list (string * V) :=
  match d with
  | [] => [(k, v)]
  | (k', v') :: d' =>
      if String.eqb k' k then (k', v) :: d' else (k', v') :: setitem d' k v
  end.

(** [l.append(a)] *)
Definition append {A} (l : list A) (a : A) : list A := (l ++ [a])%list.

(** [max(first :: rest, key=key)]: the first of the greatest elements. *)
Fixpoint max_by {A} (key : A -> Q) (best : A) (rest : list A) : A :=
  match rest with
  | [] => best
  | a :: rest' => max_by key (if gtb (key a) (key best) then a else best) rest'
  end.

(** [min(first :: rest, key=key)]: the first of the least elements. *)
Fixpoint min_by {A} (key : A -> Q) (best : A) (rest : list A) : A :=
  match rest with
  | [] => best
  | a :: rest' => min_by key (if ltb (key a) (key best) then a else best) rest'
  end.

End Py.

Import Py.

Declare Scope py_scope.
Delimit Scope py_scope with py.
Notation "x <- c ;; k" := (bind c (fun x => k))
  (at level 61, c at next level, right associativity) : py_scope.
Open Scope py_scope.

(** ** utils/constants.py *)

Module Constants.

Inductive TransportMode : Type := CAR | METRO | BUS | BIKE | WALK.

(** [mode.value] *)
Definition value (m : TransportMode) : string :=
  match m with
  | CAR => "car"
  | METRO => "metro"
  | BUS => "bus"
  | BIKE => "bike"
  | WALK => "walk"
  end.

(** [TransportMode(s)]: lookup of a member by value. *)
Definition TransportMode_of_value (s : string) : py TransportMode :=
  if String.eqb s "car" then ret CAR
  else if String.eqb s "metro" then ret METRO
  else if String.eqb s "bus" then ret BUS
  else if String.eqb s "bike" then ret BIKE
  else if String.eqb s "walk" then ret WALK
  else raise ValueError.

(** [TransportMode.<NAME>]: lookup of a member by attribute name. *)
Definition TransportMode_attr (name : string) : py TransportMode :=
  if String.eqb name "CAR" then ret CAR
  else if String.eqb name "METRO" then ret METRO
  else if String.eqb name "BUS" then ret BUS
  else if String.eqb name "BIKE" then ret BIKE
  else if String.eqb name "WALK" then ret WALK
  else raise AttributeError.

Definition mode_eqb (a b : TransportMode) : bool :=
  match a, b with
  | CAR, CAR | METRO, METRO | BUS, BUS | BIKE, BIKE | WALK, WALK => true
  | _, _ => false
  end.

Inductive RoutePriority : Type :=
| ECO_FRIENDLY | FASTEST | CHEAPEST | BALANCED | COMFORT.

Definition priority_value (p : RoutePriority) : string :=
  match p with
  | ECO_FRIENDLY => "Most Eco-Friendly"
  | FASTEST => "Fastest"
  | CHEAPEST => "Cheapest"
  | BALANCED => "Balanced"
  | COMFORT => "Most Comfortable"
  end.

Inductive EcoScoreCategory : Type :=
| EXCELLENT | GOOD | MODERATE | POOR | VERY_POOR.

Definition ECO_SCORE_THRESHOLDS (c : EcoScoreCategory) : Q :=
  match c with
  | EXCELLENT => 80
  | GOOD => 60
  | MODERATE => 40
  | POOR => 20
  | VERY_POOR => 0
  end.

Definition ECO_SCORE_COLORS (c : EcoScoreCategory) : string :=
  match c with
  | EXCELLENT => "#2E7D32"
  | GOOD => "#43A047"
  | MODERATE => "#FB8C00"
  | POOR => "#E53935"
  | VERY_POOR => "#B71C1C"
  end.

End Constants.

Import Constants.

(** ** config/settings.py *)

Module Settings.

Record TransportModeConfig : Type := {
  name : string;
  google_mode : string;
  eco_weight : Q;
  color : string;
  transit_type : option (list string)
}.

Definition TRANSPORT_MODES : list (string * TransportModeConfig) :=
  [ ("car",   {| name := "Car"; google_mode := "driving"; eco_weight := 0.3;
                 color := "#1E88E5"; transit_type := None |});
    ("metro", {| name := "Metro"; google_mode := "transit"; eco_weight := 0.9;
                 color := "#8E24AA"; transit_type := Some ["subway"] |});
    ("bus",   {| name := "Bus"; google_mode := "transit"; eco_weight := 0.7;
                 color := "#FB8C00"; transit_type := Some ["bus"] |});
    ("bike",  {| name := "Bike"; google_mode := "bicycling"; eco_weight := 1.0;
                 color := "#43A047"; transit_type := None |});
    ("walk",  {| name := "Walk"; google_mode := "walking"; eco_weight := 1.0;
                 color := "#757575"; transit_type := None |}) ].

Definition ECO_SCORE_WEIGHTS : list (string * Q) :=
  [ ("co2_emissions", 0.40);
    ("cost_efficiency", 0.25);
    ("time_efficiency", 0.20);
    ("mode_sustainability", 0.15) ].

Definition CAR_COST_PER_KM : Q := 10.0.
Definition METRO_BASE_FARE : Q := 10.
Definition METRO_PER_KM_FARE : Q := 2.5.
Definition BUS_BASE_FARE : Q := 5.
Definition BUS_PER_KM_FARE : Q := 1.0.

Definition CAR_EMISSIONS_PER_KM : Q := 0.12.
Definition BUS_EMISSIONS_PER_KM : Q := 0.08.
Definition METRO_EMISSIONS_PER_KM : Q := 0.02.
Definition BIKE_EMISSIONS_PER_KM : Q := 0.0.
Definition WALK_EMISSIONS_PER_KM : Q := 0.0.

End Settings.

(** ** calculators/emission_calculator.py *)

Module EmissionCalculator.

(** [EmissionFactors]: kg CO2 per unit of fuel or energy. *)
Record EmissionFactors : Type := {
  petrol : Q;
  diesel : Q;
  cng : Q;
  electricity : Q;
  hybrid : Q
}.

Definition default_factors : EmissionFactors :=
  {| petrol := 2.31; diesel := 2.68; cng := 2.75;
     electricity := 0.82; hybrid := 1.55 |}.

(** The instance: [self.factors] ([self.settings] is the class above). *)
Record t : Type := { factors : EmissionFactors }.

Definition init : t := {| factors := default_factors |}.

(** The dictionaries the sub-models return: the two keys every sub-model
    has, the [method] tag, and the informational keys in order. *)
Record EmissionData : Type := {
  co2_kg : Q;
  co2_per_km : Q;
  method : string;
  extra : list (string * Q)
}.

Definition vehicle_is (vehicle_type : option string) (s : string) : bool :=
  opt_str_eqb vehicle_type (Some s).

Definition _calculate_car_emissions (self : t) (distance_km : Q)
    (vehicle_type : option string) : EmissionData :=
  let combustion (fuel_efficiency co2_per_liter : Q) :=
    let fuel_consumed := distance_km / fuel_efficiency in
    let emissions := fuel_consumed * co2_per_liter in
    {| co2_kg := emissions;
       co2_per_km := co2_per_liter / fuel_efficiency;
       method := match vehicle_type with
                 | Some s => if String.eqb s EmptyString then "petrol" else s
                 | None => "petrol"
                 end;
       extra := [("fuel_liters", fuel_consumed);
                 ("fuel_efficiency", fuel_efficiency)] |} in
  if vehicle_is vehicle_type "diesel" then
    combustion 18 (diesel (factors self))
  else if vehicle_is vehicle_type "cng" then
    combustion 20 (cng (factors self))
  else if vehicle_is vehicle_type "electric" then
    let energy_efficiency := 0.15 in
    let co2_per_kwh := electricity (factors self) in
    let emissions := distance_km * energy_efficiency * co2_per_kwh in
    {| co2_kg := emissions;
       co2_per_km := energy_efficiency * co2_per_kwh;
       method := "electric";
       extra := [("energy_kwh", distance_km * energy_efficiency)] |}
  else if vehicle_is vehicle_type "hybrid" then
    combustion 22 (hybrid (factors self))
  else
    combustion 15 (petrol (factors self)).

Definition _calculate_metro_emissions (self : t) (distance_km : Q)
    : EmissionData :=
  let energy_per_km := 0.15 in
  let co2_per_kwh := electricity (factors self) in
  let energy_consumed := distance_km * energy_per_km in
  let emissions := energy_consumed * co2_per_kwh in
  {| co2_kg := emissions;
     co2_per_km := energy_per_km * co2_per_kwh;
     method := "electric_metro";
     extra := [("energy_kwh", energy_consumed)] |}.

Definition _calculate_bus_emissions (self : t) (distance_km : Q)
    : EmissionData :=
  let fuel_efficiency := 4 in
  let average_occupancy := 40 in
  let co2_per_liter := diesel (factors self) in
  let fuel_per_passenger_km := 1 / (fuel_efficiency * average_occupancy) in
  let emissions := distance_km * fuel_per_passenger_km * co2_per_liter in
  {| co2_kg := emissions;
     co2_per_km := fuel_per_passenger_km * co2_per_liter;
     method := "diesel_bus";
     extra := [("fuel_per_passenger_liter",
                distance_km * fuel_per_passenger_km)] |}.

Definition _calculate_bike_emissions (self : t) (distance_km : Q)
    : EmissionData :=
  let calories_per_km := 35 in
  let food_emissions_per_calorie := 0.001 in
  let emissions := distance_km * calories_per_km * food_emissions_per_calorie in
  {| co2_kg := emissions;
     co2_per_km := calories_per_km * food_emissions_per_calorie;
     method := "human_power";
     extra := [("calories_burned", distance_km * calories_per_km)] |}.

Definition _calculate_walk_emissions (self : t) (distance_km : Q)
    : EmissionData :=
  let calories_per_km := 70 in
  let food_emissions_per_calorie := 0.001 in
  let emissions := distance_km * calories_per_km * food_emissions_per_calorie in
  {| co2_kg := emissions;
     co2_per_km := calories_per_km * food_emissions_per_calorie;
     method := "human_power";
     extra := [("calories_burned", distance_km * calories_per_km)] |}.

(** The five tests of the dispatch cover every member of [TransportMode];
    the final [else] of the source is not reachable for a member. *)
Definition calculate_co2_emissions (self : t) (mode : TransportMode)
    (distance_km : Q) (vehicle_type : option string) : EmissionData :=
  match mode with
  | CAR => _calculate_car_emissions self distance_km vehicle_type
  | METRO => _calculate_metro_emissions self distance_km
  | BUS => _calculate_bus_emissions self distance_km
  | BIKE => _calculate_bike_emissions self distance_km
  | WALK => _calculate_walk_emissions self distance_km
  end.

Record Equivalents : Type := {
  tree_months : string;
  smartphone_charges : string;
  km_driven : string;
  lightbulb_hours : string;
  water_bottles : string
}.

Definition calculate_equivalent_impact (self : t) (co2 : Q) : Equivalents :=
  {| tree_months :=
       "A tree absorbs this much CO2 in " ++ format_f 1 (co2 / 21) ++ " months";
     smartphone_charges :=
       "Equivalent to " ++ format_f 0 (co2 * 1000) ++ " smartphone charges";
     km_driven :=
       "Same as driving a car for " ++ format_f 1 (co2 * 8.33) ++ " km";
     lightbulb_hours :=
       "Powering a LED bulb for " ++ format_f 0 (co2 * 12) ++ " hours";
     water_bottles :=
       "Manufacturing " ++ format_f 0 (co2 * 20) ++ " plastic water bottles" |}.

Record HealthBenefits : Type := {
  calories_burned : Q;
  health_score : Q;
  cardiovascular_benefit : string;
  air_pollution_exposure : string
}.

Definition is_active (mode : TransportMode) : bool :=
  mode_eqb mode BIKE || mode_eqb mode WALK.

Definition calculate_health_benefits (self : t) (mode : TransportMode)
    (distance_km : Q) : HealthBenefits :=
  let '(calories, score) :=
    if mode_eqb mode BIKE then (distance_km * 35, distance_km * 10)
    else if mode_eqb mode WALK then (distance_km * 70, distance_km * 15)
    else (0, 0) in
  {| calories_burned := calories;
     health_score := score;
     cardiovascular_benefit := if is_active mode then "High" else "Low";
     air_pollution_exposure := if is_active mode then "Low" else "High" |}.

(** The table of [Settings], read by the default branch of the dispatch. *)
Definition _get_emission_factor (mode : TransportMode) : Q :=
  match mode with
  | CAR => Settings.CAR_EMISSIONS_PER_KM
  | BUS => Settings.BUS_EMISSIONS_PER_KM
  | METRO => Settings.METRO_EMISSIONS_PER_KM
  | BIKE => Settings.BIKE_EMISSIONS_PER_KM
  | WALK => Settings.WALK_EMISSIONS_PER_KM
  end.

(** The members of [TransportMode], in the order of iteration. *)
Definition all_modes : list TransportMode := [CAR; METRO; BUS; BIKE; WALK].

(** An entry of the dict [get_emission_comparison] returns. *)
Record ComparisonEntry : Type := {
  ce_co2_kg : Q;
  ce_co2_per_km : Q;
  ce_method : string
}.

Definition get_emission_comparison (self : t) (distance_km : Q)
    : list (string * ComparisonEntry) :=
  fold_left
    (fun comparison mode =>
       let emissions_data := calculate_co2_emissions self mode distance_km None in
       setitem comparison (value mode)
         {| ce_co2_kg := co2_kg emissions_data;
            ce_co2_per_km := co2_per_km emissions_data;
            ce_method := method emissions_data |})
    all_modes [].

End EmissionCalculator.

(** ** calculators/cost_calculator.py *)

Module CostCalculator.

(** The dictionaries the sub-models return: the keys every sub-model has,
    the [method] tag, and the other components in order. *)
Record CostData : Type := {
  total_cost : Q;
  cost_per_km : Q;
  method : string;
  breakdown : list (string * Q)
}.

(** [total / distance_km if distance_km > 0 else 0] *)
Definition per_km (total distance_km : Q) : py Q :=
  if gtb distance_km 0 then truediv total distance_km else ret 0.

Definition _estimate_parking_cost (duration_min : Q)
    (time_of_day : option string) : Q :=
  let rate_per_hour :=
    match time_of_day with
    | None => 30
    | Some s => if String.eqb s "peak" then 30 else 20
    end in
  let duration_hours := Z.max 1 (ceil (duration_min / 60)) in
  inject_Z duration_hours * rate_per_hour.

Definition _estimate_toll_charges (distance_km : Q) : Q :=
  if gtb distance_km 20 then 50 else 0.

Definition _calculate_car_cost (distance_km duration_min : Q)
    (time_of_day : option string) : py CostData :=
  let fuel_efficiency := 15 in
  let fuel_price := 100 in
  let fuel_cost := (distance_km / fuel_efficiency) * fuel_price in
  let maintenance_cost_per_km := 3.0 in
  let maintenance_cost := distance_km * maintenance_cost_per_km in
  let parking_cost := _estimate_parking_cost duration_min time_of_day in
  let toll_cost := _estimate_toll_charges distance_km in
  let depreciation_per_km := 2.0 in
  let depreciation_cost := distance_km * depreciation_per_km in
  let total :=
    fuel_cost + maintenance_cost + parking_cost + toll_cost
    + depreciation_cost in
  c <- per_km total distance_km ;;
  ret {| total_cost := total;
         cost_per_km := c;
         method := "detailed_car";
         breakdown := [("fuel_cost", fuel_cost);
                       ("maintenance_cost", maintenance_cost);
                       ("parking_cost", parking_cost);
                       ("toll_cost", toll_cost);
                       ("depreciation_cost", depreciation_cost)] |}.

Definition _calculate_metro_cost (distance_km : Q) : py CostData :=
  let base_fare := Settings.METRO_BASE_FARE in
  let per_km_fare := Settings.METRO_PER_KM_FARE in
  let fare := base_fare + (distance_km * per_km_fare) in
  let max_fare := 60 in
  let fare := min fare max_fare in
  c <- per_km fare distance_km ;;
  ret {| total_cost := fare;
         cost_per_km := c;
         method := "metro_fare";
         breakdown := [("base_fare", base_fare);
                       ("distance_fare", distance_km * per_km_fare)] |}.

Definition _calculate_bus_cost (distance_km : Q) : py CostData :=
  let fare :=
    if leb distance_km 2 then 5
    else if leb distance_km 4 then 10
    else if leb distance_km 6 then 15
    else if leb distance_km 10 then 25
    else if leb distance_km 15 then 30
    else 35 in
  let ac_surcharge := 10 in
  let total_fare := fare + ac_surcharge in
  c <- per_km total_fare distance_km ;;
  ret {| total_cost := total_fare;
         cost_per_km := c;
         method := "bus_fare";
         breakdown := [("base_fare", fare);
                       ("ac_surcharge", ac_surcharge)] |}.

Definition _calculate_bike_cost (distance_km duration_min : Q)
    : py CostData :=
  let maintenance_per_km := 0.5 in
  let maintenance_cost := distance_km * maintenance_per_km in
  let rental_rate_per_min := 1.0 in
  let rental_cost := duration_min * rental_rate_per_min in
  let total := min maintenance_cost rental_cost in
  let method := if ltb rental_cost maintenance_cost
                then "rental" else "personal" in
  c <- per_km total distance_km ;;
  ret {| total_cost := total;
         cost_per_km := c;
         method := "bike_" ++ method;
         breakdown := [("maintenance_cost", maintenance_cost);
                       ("rental_cost", rental_cost)] |}.

Definition _calculate_walk_cost (distance_km : Q) : py CostData :=
  let shoe_wear_per_km := 0.1 in
  let shoe_cost := distance_km * shoe_wear_per_km in
  ret {| total_cost := shoe_cost;
         cost_per_km := shoe_wear_per_km;
         method := "walking";
         breakdown := [("shoe_wear_cost", shoe_cost)] |}.

(** As for the emissions, the five tests cover every member. *)
Definition calculate_cost (mode : TransportMode) (distance_km duration_min : Q)
    (time_of_day : option string) : py CostData :=
  match mode with
  | CAR => _calculate_car_cost distance_km duration_min time_of_day
  | METRO => _calculate_metro_cost distance_km
  | BUS => _calculate_bus_cost distance_km
  | BIKE => _calculate_bike_cost distance_km duration_min
  | WALK => _calculate_walk_cost distance_km
  end.

Definition _get_cost_per_km (mode : TransportMode) : Q :=
  match mode with
  | CAR => Settings.CAR_COST_PER_KM
  | METRO => Settings.METRO_PER_KM_FARE
  | BUS => Settings.BUS_PER_KM_FARE
  | _ => 0.0
  end.

Definition calculate_time_value (duration_min income_per_hour : Q) : Q :=
  let duration_hours := duration_min / 60 in
  duration_hours * income_per_hour * 0.5.

(** The dicts of the ownership functions: the three keys they all have and
    the other components in order. *)
Record OwnershipCost : Type := {
  monthly_cost : Q;
  annual_cost : Q;
  own_cost_per_km : Q;
  own_breakdown : list (string * Q)
}.

Definition _get_car_ownership_cost (monthly_distance_km : Q)
    : py OwnershipCost :=
  let car_price := 800000 in
  let loan_interest_rate := 0.08 in
  let loan_years := 5%Z in
  let insurance_per_year := 20000 in
  let maintenance_per_year := 15000 in
  let road_tax_per_year := 5000 in
  let monthly_interest := loan_interest_rate / 12 in
  let num_payments := (loan_years * 12)%Z in
  let emi :=
    (car_price * monthly_interest * (1 + monthly_interest) ^ num_payments)
    / ((1 + monthly_interest) ^ num_payments - 1) in
  let monthly_fixed :=
    (insurance_per_year + maintenance_per_year + road_tax_per_year) / 12 in
  c <- calculate_cost CAR monthly_distance_km 0 None ;;
  let monthly_variable := total_cost c in
  let total_monthly := emi + monthly_fixed + monthly_variable in
  k <- per_km total_monthly monthly_distance_km ;;
  ret {| monthly_cost := total_monthly;
         annual_cost := total_monthly * 12;
         own_cost_per_km := k;
         own_breakdown := [("loan_emi", emi);
                           ("fixed_costs", monthly_fixed);
                           ("variable_costs", monthly_variable)] |}.

Definition _get_bike_ownership_cost (monthly_distance_km : Q)
    : py OwnershipCost :=
  let bike_price := 20000 in
  let maintenance_per_year := 3000 in
  let insurance_per_year := 1000 in
  let monthly_depreciation := bike_price / (5 * 12) in
  let monthly_fixed := (maintenance_per_year + insurance_per_year) / 12 in
  c <- calculate_cost BIKE monthly_distance_km 0 None ;;
  let monthly_variable := total_cost c in
  let total_monthly :=
    monthly_depreciation + monthly_fixed + monthly_variable in
  k <- per_km total_monthly monthly_distance_km ;;
  ret {| monthly_cost := total_monthly;
         annual_cost := total_monthly * 12;
         own_cost_per_km := k;
         own_breakdown := [("depreciation", monthly_depreciation);
                           ("fixed_costs", monthly_fixed);
                           ("variable_costs", monthly_variable)] |}.

Definition get_total_cost_of_ownership (mode : TransportMode)
    (monthly_distance_km : Q) : py OwnershipCost :=
  match mode with
  | CAR => _get_car_ownership_cost monthly_distance_km
  | BIKE => _get_bike_ownership_cost monthly_distance_km
  | _ =>
      c <- calculate_cost mode monthly_distance_km 0 None ;;
      let monthly := total_cost c in
      k <- per_km monthly monthly_distance_km ;;
      ret {| monthly_cost := monthly;
             annual_cost := monthly * 12;
             own_cost_per_km := k;
             own_breakdown := [] |}
  end.

(** An entry of the dict [compare_costs] returns. *)
Record ComparisonEntry : Type := {
  ce_total_cost : Q;
  ce_cost_per_km : Q;
  ce_method : string
}.

(** The loop of [compare_costs] over the members of [TransportMode]. *)
Fixpoint compare_costs_loop (modes : list TransportMode)
    (distance_km duration_min : Q)
    (comparison : list (string * ComparisonEntry))
    : py (list (string * ComparisonEntry)) :=
  match modes with
  | [] => ret comparison
  | mode :: modes' =>
      cost_data <- calculate_cost mode distance_km duration_min None ;;
      compare_costs_loop modes' distance_km duration_min
        (setitem comparison (value mode)
           {| ce_total_cost := total_cost cost_data;
              ce_cost_per_km := cost_per_km cost_data;
              ce_method := method cost_data |})
  end.

Definition compare_costs (distance_km duration_min : Q)
    : py (list (string * ComparisonEntry)) :=
  compare_costs_loop [CAR; METRO; BUS; BIKE; WALK] distance_km duration_min [].

End CostCalculator.

(** ** calculators/eco_scorer.py *)

Module EcoScorer.

Record EcoScoreComponents : Type := {
  co2_score : Q;
  cost_score : Q;
  time_score : Q;
  mode_score : Q;
  health_score : Q;
  congestion_score : Q
}.

(** The instance: [self.settings] is the [Settings] class, whose two tables
    the scorer reads; the two calculators are its own. *)
Record t : Type := {
  settings_TRANSPORT_MODES : list (string * Settings.TransportModeConfig);
  settings_ECO_SCORE_WEIGHTS : list (string * Q);
  emission_calculator : EmissionCalculator.t
}.

Definition init : t :=
  {| settings_TRANSPORT_MODES := Settings.TRANSPORT_MODES;
     settings_ECO_SCORE_WEIGHTS := Settings.ECO_SCORE_WEIGHTS;
     emission_calculator := EmissionCalculator.init |}.

Record Details : Type := {
  details_distance_km : Q;
  details_duration_min : Q;
  details_mode : string
}.

Record EcoScore : Type := {
  score : Q;
  category : EcoScoreCategory;
  color : string;
  components : EcoScoreComponents;
  co2_kg : Q;
  cost_inr : Q;
  equivalents : EmissionCalculator.Equivalents;
  health_benefits : EmissionCalculator.HealthBenefits;
  details : Details
}.

Definition _calculate_co2_score (co2 distance_km : Q) : py Q :=
  co2_per_km <- (if gtb distance_km 0 then truediv co2 distance_km
                 else ret 0) ;;
  ret (if leb co2_per_km 0.02 then 100
       else if leb co2_per_km 0.05 then 90
       else if leb co2_per_km 0.08 then 75
       else if leb co2_per_km 0.12 then 50
       else if leb co2_per_km 0.15 then 25
       else 10).

Definition _calculate_cost_score (cost distance_km : Q) : py Q :=
  cost_per_km <- (if gtb distance_km 0 then truediv cost distance_km
                  else ret 0) ;;
  ret (if leb cost_per_km 1 then 100
       else if leb cost_per_km 3 then 85
       else if leb cost_per_km 5 then 70
       else if leb cost_per_km 10 then 50
       else if leb cost_per_km 15 then 30
       else 15).

Definition _calculate_time_score (duration_min distance_km : Q) : py Q :=
  speed_kmh <- (if gtb duration_min 0
                then truediv distance_km (duration_min / 60)
                else ret 0) ;;
  ret (if leb 15 speed_kmh && leb speed_kmh 25 then 80
       else if ltb 25 speed_kmh && leb speed_kmh 40 then 60
       else if gtb speed_kmh 40 then 40
       else if leb 5 speed_kmh && ltb speed_kmh 15 then 70
       else 90).

Definition _calculate_mode_score (self : t) (mode : TransportMode) : py Q :=
  mode_config <- getitem (settings_TRANSPORT_MODES self) (value mode) ;;
  ret (Settings.eco_weight mode_config * 100).

Definition _calculate_health_score (mode : TransportMode) (distance_km : Q)
    : Q :=
  match mode with
  | WALK => min 100 (distance_km * 20)
  | BIKE => min 100 (distance_km * 15)
  | METRO =>
      let walking_distance := min 2 (distance_km * 0.2) in
      min 50 (walking_distance * 20)
  | BUS =>
      let walking_distance := min 1 (distance_km * 0.1) in
      min 30 (walking_distance * 20)
  | CAR => 0
  end.

Definition _calculate_congestion_score (mode : TransportMode)
    (duration_min : Q) : Q :=
  match mode with
  | CAR => min 100 (duration_min * 0.5)
  | BUS => min 50 (duration_min * 0.2)
  | METRO => 0
  | BIKE | WALK => -20
  end.

Definition _get_eco_score_category (s : Q) : EcoScoreCategory :=
  if geb s (ECO_SCORE_THRESHOLDS EXCELLENT) then EXCELLENT
  else if geb s (ECO_SCORE_THRESHOLDS GOOD) then GOOD
  else if geb s (ECO_SCORE_THRESHOLDS MODERATE) then MODERATE
  else if geb s (ECO_SCORE_THRESHOLDS POOR) then POOR
  else VERY_POOR.

(** The names of the parameters of [calculate_eco_score] after [self]. *)
Definition calculate_eco_score_params : list string :=
  ["mode"; "distance_km"; "duration_min"; "route_details"].

(** [route_details] is whatever the caller passes; the body never reads
    it. *)
Definition calculate_eco_score {RouteDetails : Type} (self : t)
    (mode : TransportMode) (distance_km duration_min : Q)
    (route_details : option RouteDetails) : py EcoScore :=
  let co2_data :=
    EmissionCalculator.calculate_co2_emissions (emission_calculator self)
      mode distance_km None in
  cost_data <- CostCalculator.calculate_cost mode distance_km duration_min
                 None ;;
  co2_score <- _calculate_co2_score (EmissionCalculator.co2_kg co2_data)
                 distance_km ;;
  cost_score <- _calculate_cost_score (CostCalculator.total_cost cost_data)
                  distance_km ;;
  time_score <- _calculate_time_score duration_min distance_km ;;
  mode_score <- _calculate_mode_score self mode ;;
  let health_score := _calculate_health_score mode distance_km in
  let congestion_score := _calculate_congestion_score mode duration_min in
  let weights := settings_ECO_SCORE_WEIGHTS self in
  w_co2 <- getitem weights "co2_emissions" ;;
  w_cost <- getitem weights "cost_efficiency" ;;
  w_time <- getitem weights "time_efficiency" ;;
  w_mode <- getitem weights "mode_sustainability" ;;
  let weighted_score :=
    co2_score * w_co2 + cost_score * w_cost + time_score * w_time
    + mode_score * w_mode in
  let weighted_score :=
    if EmissionCalculator.is_active mode
    then weighted_score + health_score * 0.1
    else weighted_score in
  let weighted_score := weighted_score - congestion_score * 0.05 in
  let final_score := max 0 (min 100 weighted_score) in
  let category := _get_eco_score_category final_score in
  let color := ECO_SCORE_COLORS category in
  let equivalents :=
    EmissionCalculator.calculate_equivalent_impact (emission_calculator self)
      (EmissionCalculator.co2_kg co2_data) in
  let health_benefits :=
    EmissionCalculator.calculate_health_benefits (emission_calculator self)
      mode distance_km in
  ret {| score := final_score;
         category := category;
         color := color;
         components :=
           {| co2_score := co2_score;
              cost_score := cost_score;
              time_score := time_score;
              mode_score := mode_score;
              health_score := health_score;
              congestion_score := congestion_score |};
         co2_kg := EmissionCalculator.co2_kg co2_data;
         cost_inr := CostCalculator.total_cost cost_data;
         equivalents := equivalents;
         health_benefits := health_benefits;
         details := {| details_distance_km := distance_km;
                       details_duration_min := duration_min;
                       details_mode := value mode |} |}.

Definition _get_better_mode (current_mode : TransportMode) : string :=
  match current_mode with
  | CAR => "metro or bus"
  | BUS => "metro for faster travel"
  | METRO => "walking or cycling for short distances"
  | _ => "continue your current mode"
  end.

Definition _get_best_alternative (current_mode : TransportMode) : string :=
  match current_mode with
  | CAR => "Taking metro or bus"
  | BUS | METRO => "Walking or cycling for portions of your journey"
  | _ => "Your current mode is already excellent"
  end.

Definition get_recommendations (s : Q) (mode : TransportMode)
    (co2 cost : Q) : list string :=
  let recommendations :=
    if geb s 80 then
      ["🎉 Excellent choice! You're making a significant positive impact.";
       "Consider sharing this route with friends to spread eco-awareness."]
    else if geb s 60 then
      ["👍 Good choice! You're being environmentally conscious.";
       "For even better scores, try combining with walking for short distances."]
    else if geb s 40 then
      ["💡 There's room for improvement.";
       "Consider " ++ _get_better_mode mode ++ " for a better eco-score."]
    else
      ["🌍 Consider more eco-friendly alternatives.";
       _get_best_alternative mode
       ++ " would significantly reduce your environmental impact."] in
  let recommendations :=
    if gtb co2 5 then
      append recommendations
        ("🌳 Your trip emits " ++ format_f 1 co2
         ++ "kg CO2. That's equivalent to what a tree absorbs in "
         ++ format_f 1 (co2 / 21) ++ " months.")
    else recommendations in
  let recommendations :=
    if gtb cost 200 && mode_eqb mode CAR then
      append recommendations
        ("💰 You could save ₹" ++ format_f 0 (cost * 0.7)
         ++ " by using public transport for this trip.")
    else recommendations in
  match mode with
  | CAR =>
      append recommendations
        "🚗💨 Consider carpooling to reduce emissions and costs."
  | METRO =>
      append recommendations
        "🚇👍 Metro is one of the most efficient ways to travel in Bangalore."
  | BUS =>
      append recommendations
        "🚌 BMTC buses are affordable and reduce road congestion."
  | _ => recommendations
  end.

(** An entry of the dict [compare_modes] returns. *)
Record ModeEntry : Type := {
  me_score : Q;
  me_category : EcoScoreCategory;
  me_co2_kg : Q;
  me_cost_inr : Q;
  me_color : string
}.

(** The loop of [compare_modes] over the items of [duration_by_mode]. *)
Fixpoint compare_modes_loop (self : t) (distance_km : Q)
    (items : list (TransportMode * Q)) (comparison : list (string * ModeEntry))
    : py (list (string * ModeEntry)) :=
  match items with
  | [] => ret comparison
  | (mode, duration_min) :: items' =>
      eco_data <- @calculate_eco_score unit self mode distance_km duration_min
                    None ;;
      compare_modes_loop self distance_km items'
        (setitem comparison (value mode)
           {| me_score := score eco_data;
              me_category := category eco_data;
              me_co2_kg := co2_kg eco_data;
              me_cost_inr := cost_inr eco_data;
              me_color := color eco_data |})
  end.

(** A stable sort by descending key, as [sorted(..., reverse=True)]: an
    element goes after the elements already placed whose key is not less. *)
Fixpoint insert_desc {A} (key : A -> Q) (a : A) (l : list A) : list A :=
  match l with
  | [] => [a]
  | b :: l' =>
      if ltb (key b) (key a) then a :: l else b :: insert_desc key a l'
  end.

Definition sorted_desc {A} (key : A -> Q) (l : list A) : list A :=
  fold_left (fun acc a => insert_desc key a acc) l [].

(** [dict(pairs)] *)
Definition dict {V} (pairs : list (string * V)) : list (string * V) :=
  fold_left (fun d kv => setitem d (fst kv) (snd kv)) pairs [].

Definition compare_modes (self : t) (distance_km : Q)
    (duration_by_mode : list (TransportMode * Q))
    : py (list (string * ModeEntry)) :=
  comparison <- compare_modes_loop self distance_km duration_by_mode [] ;;
  ret (dict (sorted_desc (fun x => me_score (snd x)) comparison)).

(** A trip of [calculate_aggregate_impact]: the three keys it reads. *)
Record Trip : Type := {
  trip_mode : string;
  trip_distance : Q;
  trip_duration : Q
}.

Definition _get_most_common_mode (mode_counts : list (string * Z))
    : py TransportMode :=
  match mode_counts with
  | [] => ret WALK
  | first :: rest =>
      let most_common :=
        fst (max_by (fun x => inject_Z (snd x)) first rest) in
      TransportMode_of_value most_common
  end.

(** The running totals of [calculate_aggregate_impact]. *)
Record Totals : Type := {
  total_co2 : Q;
  total_cost : Q;
  total_distance : Q;
  total_duration : Q;
  mode_counts : list (string * Z)
}.

Definition no_totals : Totals :=
  {| total_co2 := 0; total_cost := 0; total_distance := 0;
     total_duration := 0; mode_counts := [] |}.

(** The loop of [calculate_aggregate_impact] over the trips. *)
Fixpoint aggregate_loop (self : t) (trips : list Trip) (acc : Totals)
    : py Totals :=
  match trips with
  | [] => ret acc
  | trip :: trips' =>
      mode <- TransportMode_of_value (trip_mode trip) ;;
      let distance := trip_distance trip in
      let duration := trip_duration trip in
      eco_data <- @calculate_eco_score unit self mode distance duration None ;;
      aggregate_loop self trips'
        {| total_co2 := total_co2 acc + co2_kg eco_data;
           total_cost := total_cost acc + cost_inr eco_data;
           total_distance := total_distance acc + distance;
           total_duration := total_duration acc + duration;
           mode_counts :=
             setitem (mode_counts acc) (value mode)
               (get (mode_counts acc) (value mode) 0 + 1)%Z |}
  end.

Record AggregateImpact : Type := {
  ai_total_co2_kg : Q;
  ai_total_cost_inr : Q;
  ai_total_distance_km : Q;
  ai_total_duration_min : Q;
  ai_avg_co2_per_km : Q;
  ai_avg_cost_per_km : Q;
  ai_avg_speed_kmh : Q;
  ai_overall_eco_score : Q;
  ai_mode_distribution : list (string * Z);
  ai_equivalents : EmissionCalculator.Equivalents
}.

Definition calculate_aggregate_impact (self : t) (trips : list Trip)
    : py AggregateImpact :=
  totals <- aggregate_loop self trips no_totals ;;
  avg_co2_per_km <-
    (if gtb (total_distance totals) 0
     then truediv (total_co2 totals) (total_distance totals) else ret 0) ;;
  avg_cost_per_km <-
    (if gtb (total_distance totals) 0
     then truediv (total_cost totals) (total_distance totals) else ret 0) ;;
  avg_speed <-
    (if gtb (total_duration totals) 0
     then truediv (total_distance totals) (total_duration totals / 60)
     else ret 0) ;;
  common <- _get_most_common_mode (mode_counts totals) ;;
  overall <- @calculate_eco_score unit self common (total_distance totals)
               (total_duration totals) None ;;
  ret {| ai_total_co2_kg := total_co2 totals;
         ai_total_cost_inr := total_cost totals;
         ai_total_distance_km := total_distance totals;
         ai_total_duration_min := total_duration totals;
         ai_avg_co2_per_km := avg_co2_per_km;
         ai_avg_cost_per_km := avg_cost_per_km;
         ai_avg_speed_kmh := avg_speed;
         ai_overall_eco_score := score overall;
         ai_mode_distribution := mode_counts totals;
         ai_equivalents :=
           EmissionCalculator.calculate_equivalent_impact
             (emission_calculator self) (total_co2 totals) |}.

End EcoScorer.

(** ** utils/route_processor.py *)

Module RouteProcessor.

(** A segment of a route: the two keys the processor reads, [None] when the
    key is absent. *)
Record segment : Type := {
  seg_mode : option string;
  seg_distance : option string
}.

(** A candidate route: the keys the processor reads, [None] when the key is
    absent, and whether the mapping holds any other key. *)
Record route : Type := {
  segments : option (list segment);
  actual_mode : option string;
  duration_min : option Q;
  distance_km : option Q;
  other_keys : bool
}.

(** Truth value of an entry of [routes_dict]: [None] and the empty mapping
    are falsy. *)
Definition truthy_route (r : option route) : bool :=
  match r with
  | None => false
  | Some r =>
      match segments r, actual_mode r, duration_min r, distance_km r with
      | None, None, None, None => other_keys r
      | _, _, _, _ => true
      end
  end.

Record criteria : Type := {
  max_walk_distance : Q;
  max_transfers : Z;
  min_metro_priority : bool;
  weights : list (string * Q)
}.

Definition fastest_criteria : criteria :=
  {| max_walk_distance := 1.0; max_transfers := 2;
     min_metro_priority := true;
     weights := [("time_weight", 0.7); ("convenience_weight", 0.3)] |}.

Definition cheapest_criteria : criteria :=
  {| max_walk_distance := 1.5; max_transfers := 3;
     min_metro_priority := false;
     weights := [("cost_weight", 0.8); ("time_weight", 0.2)] |}.

Definition greenest_criteria : criteria :=
  {| max_walk_distance := 2.0; max_transfers := 2;
     min_metro_priority := true;
     weights := [("emission_weight", 0.9); ("time_weight", 0.1)] |}.

Definition balanced_criteria : criteria :=
  {| max_walk_distance := 1.2; max_transfers := 2;
     min_metro_priority := true;
     weights := [("balanced_weight", 0.5); ("convenience_weight", 0.5)] |}.

(** The dict [criteria] of [get_practical_routes]. *)
Definition criteria_table : list (string * criteria) :=
  [ ("fastest", fastest_criteria);
    ("cheapest", cheapest_criteria);
    ("greenest", greenest_criteria);
    ("balanced", balanced_criteria) ].

(** [s.replace(' km', '')] *)
Fixpoint remove_km (s : string) : string :=
  match s with
  | String " "%char (String "k"%char (String "m"%char rest)) => remove_km rest
  | String c rest => String c (remove_km rest)
  | EmptyString => EmptyString
  end.

(** A stable sort by ascending key, as [list.sort(key=...)]: an element goes
    after the elements already placed whose key is not greater. *)
Fixpoint insert_by_key {A} (k : Q) (a : A) (l : list (Q * A))
    : list (Q * A) :=
  match l with
  | [] => [(k, a)]
  | (k', a') :: l' =>
      if ltb k k' then (k, a) :: l else (k', a') :: insert_by_key k a l'
  end.

Definition sort_keyed {A} (l : list (Q * A)) : list (Q * A) :=
  fold_left (fun acc ka => insert_by_key (fst ka) (snd ka) acc) l [].

(** The order of two keyed elements. *)
Definition key_le {A} (p q : Q * A) : Prop := fst p <= fst q.

(** [l.sort(key=f)]: the keys are computed first, in order. *)
Definition sort_by {A} (f : A -> py Q) (l : list A) : py (list A) :=
  keyed <- mapM (fun a => k <- f a ;; ret (k, a)) l ;;
  ret (map snd (sort_keyed keyed)).

(** [d[k] = v] on a dict kept in insertion order. *)
Fixpoint dict_set {V} (d : list (string * V)) (k : string) (v : V)
    : list (string * V) :=
  match d with
  | [] => [(k, v)]
  | (k', v') :: d' =>
      if String.eqb k' k then (k', v) :: d' else (k', v') :: dict_set d' k v
  end.

(** [{k: v for k, v in pairs}] *)
Definition dict_of_pairs {V} (pairs : list (string * V))
    : list (string * V) :=
  fold_left (fun d kv => dict_set d (fst kv) (snd kv)) pairs [].

Section WithFloat.

(** [float(s)] on a string: [None] when it raises [ValueError]. *)
Variable py_float : string -> option Q.

(** The loop over the segments that sums the walking distances; a segment
    whose distance is missing or does not parse is passed over. *)
Definition walk_distance (segs : list segment) : Q :=
  fold_left
    (fun total seg =>
       if opt_str_eqb (seg_mode seg) (Some "walk") then
         match seg_distance seg with
         | Some text =>
             match py_float (remove_km text) with
             | Some walk_dist => total + walk_dist
             | None => total
             end
         | None => total
         end
       else total)
    segs 0.

(** The loop of [_count_transfers]: the state is [(transfers, prev_mode)]. *)
Definition count_step (st : Z * option string) (seg : segment)
    : Z * option string :=
  let '(transfers, prev_mode) := st in
  let current_mode := seg_mode seg in
  let transfers :=
    if truthy_str prev_mode
       && negb (opt_str_eqb prev_mode current_mode)
       && match current_mode with
          | Some m => str_in m ["metro"; "bus"]
          | None => false
          end
    then (transfers + 1)%Z else transfers in
  (transfers, current_mode).

Definition _count_transfers (r : route) : Z :=
  match segments r with
  | None => 0%Z
  | Some segs =>
      let transfers := fst (fold_left count_step segs (0%Z, None)) in
      Z.max 0 (transfers - 1)
  end.

Definition mode_in (m : option string) (l : list string) : bool :=
  match m with
  | Some s => str_in s l
  | None => false
  end.

Definition _is_practical_route (r : route) (c : criteria) : bool :=
  let total_walk_distance :=
    match segments r with
    | Some segs => walk_distance segs
    | None => 0
    end in
  if gtb total_walk_distance (max_walk_distance c) then false
  else if mode_in (actual_mode r) ["metro"; "bus"]
          && (max_transfers c <? _count_transfers r)%Z then false
  else if min_metro_priority c && opt_str_eqb (actual_mode r) (Some "bus")
  then ltb (match duration_min r with Some d => d | None => 999 end) 30
  else true.

Definition opt_default {A} (o : option A) (d : A) : A :=
  match o with
  | Some a => a
  | None => d
  end.

Definition _estimate_cost (r : route) : Q :=
  let distance := opt_default (distance_km r) 0 in
  let mode := opt_default (actual_mode r) EmptyString in
  let costs_per_km :=
    [("driving", 10); ("metro", 5); ("bus", 2); ("bicycling", 0);
     ("walking", 0)] in
  distance * get costs_per_km mode 5.

Definition _estimate_emissions (r : route) : Q :=
  let distance := opt_default (distance_km r) 0 in
  let mode := opt_default (actual_mode r) EmptyString in
  let emissions_per_km :=
    [("driving", 0.192); ("metro", 0.096); ("bus", 0.089);
     ("bicycling", 0.0); ("walking", 0.0)] in
  distance * get emissions_per_km mode 0.1.

Definition count_walk (segs : list segment) : Z :=
  Z.of_nat
    (List.length
       (filter (fun s => opt_str_eqb (seg_mode s) (Some "walk")) segs)).

Definition _calculate_balance_score (r : route) : py Q :=
  time_score <- truediv 1 (opt_default (duration_min r) 1 + 1) ;;
  cost_score <- truediv 1 (_estimate_cost r + 1) ;;
  emission_score <- truediv 1 (_estimate_emissions r + 0.1) ;;
  convenience_score <-
    match segments r with
    | Some segs =>
        let transfers := _count_transfers r in
        a <- truediv 1 (inject_Z (transfers + 1)) ;;
        b <- truediv 1 (inject_Z (count_walk segs + 1)) ;;
        ret (1 * a * b)
    | None => ret 1
    end ;;
  ret (time_score * 0.4 + cost_score * 0.3 + emission_score * 0.2
       + convenience_score * 0.1).

(** The loop that keeps the practical routes, in the order of the dict. *)
Definition practical (routes_dict : list (string * option route))
    (c : criteria) : list (string * route) :=
  flat_map
    (fun entry =>
       match snd entry with
       | Some r =>
           if truthy_route (Some r) && _is_practical_route r c
           then [(fst entry, r)] else []
       | None => []
       end)
    routes_dict.

Definition sort_key (preference : string) (x : string * route) : py Q :=
  if String.eqb preference "fastest" then
    match duration_min (snd x) with
    | Some d => ret d
    | None => raise KeyError
    end
  else if String.eqb preference "cheapest" then ret (_estimate_cost (snd x))
  else if String.eqb preference "greenest" then
    ret (_estimate_emissions (snd x))
  else _calculate_balance_score (snd x).

Definition get_practical_routes (routes_dict : list (string * option route))
    (preference : string) : py (list (string * route)) :=
  let criteria_config := get criteria_table preference balanced_criteria in
  let practical_routes := practical routes_dict criteria_config in
  sorted <- sort_by (sort_key preference) practical_routes ;;
  ret (dict_of_pairs sorted).

End WithFloat.

End RouteProcessor.

(** ** The response of the directions provider *)

Module Provider.

Definition coords : Type := (Q * Q)%type.

Record TransitDetails : Type := {
  line_name : option string;
  line_vehicle_type : option string;
  departure_stop_name : option string;
  arrival_stop_name : option string;
  num_stops : option Z;
  headsign : option string
}.

Record Step : Type := {
  html_instructions : string;
  step_distance_text : string;
  step_duration_text : string;
  travel_mode : string;
  step_start_location : coords;
  step_end_location : coords;
  step_polyline : option string;
  transit_details : option TransitDetails
}.

Record Leg : Type := {
  steps : list Step;
  start_address : string;
  end_address : string;
  start_location : coords;
  end_location : coords;
  distance_value : Q;
  duration_value : Q
}.

Record RouteData : Type := {
  legs : list Leg;
  overview_polyline : option string;
  warnings : option (list string);
  summary : option string
}.

End Provider.

(** ** api/route_service.py *)

Module RouteService.

Import Provider.

(** [self.gmaps.directions(origin, destination, mode, transit_mode)]: what
    the provider answers, or the exception the client raises. *)
Definition Client : Type :=
  coords -> coords -> string -> option (list string) -> py (list RouteData).

Record t : Type := {
  gmaps : option Client;
  eco_scorer : EcoScorer.t;
  emission_calc : EmissionCalculator.t;
  mode_mapping : list (TransportMode * string)
}.

(** A dict display whose keys are attributes of [TransportMode]: the keys
    are evaluated in order, and the first that is no member raises. *)
Definition mode_table {V} (entries : list (string * V))
    : py (list (TransportMode * V)) :=
  mapM (fun e => m <- TransportMode_attr (fst e) ;; ret (m, snd e)) entries.

(** [table.get(mode, default)] *)
Fixpoint mode_get {V} (table : list (TransportMode * V)) (mode : TransportMode)
    (default : V) : V :=
  match table with
  | [] => default
  | (m, v) :: table' =>
      if mode_eqb m mode then v else mode_get table' mode default
  end.

(** [__init__]: [client] is what [googlemaps.Client(key=api_key)] gives. *)
Definition init (api_key : option string) (client : string -> py Client)
    : py t :=
  g <- match api_key with
       | Some k => if String.eqb k EmptyString then ret None
                   else c <- client k ;; ret (Some c)
       | None => ret None
       end ;;
  mm <- mode_table [("CAR", "driving"); ("METRO", "transit");
                    ("BUS", "transit"); ("WALKING", "walking");
                    ("BICYCLE", "bicycling")] ;;
  ret {| gmaps := g;
         eco_scorer := EcoScorer.init;
         emission_calc := EmissionCalculator.init;
         mode_mapping := mm |}.

Record Transit : Type := {
  transit_line : string;
  transit_vehicle : string;
  transit_departure : string;
  transit_arrival : string;
  transit_stops : Z;
  transit_headsign : string
}.

Record StepInfo : Type := {
  si_step : Z;
  si_instruction : string;
  si_distance : string;
  si_duration : string;
  si_mode : string;
  si_start_location : option coords;
  si_end_location : option coords;
  si_polyline : option string;
  si_decoded_path : option (list coords);
  si_transit : option Transit
}.

(** The dict [_extract_route_info] returns. *)
Record RouteSummary : Type := {
  rs_mode : string;
  rs_start_address : string;
  rs_end_address : string;
  rs_start_location : coords;
  rs_end_location : coords;
  rs_total_distance_meters : Q;
  rs_total_duration_seconds : Q;
  rs_polyline : string;
  rs_decoded_path : list coords;
  rs_steps : list StepInfo;
  rs_transit_segments : option (list Transit);
  rs_warnings : list string;
  rs_summary : string;
  rs_is_realistic : bool
}.

(** The keys [_calculate_route_metrics] adds to it. *)
Record Metrics : Type := {
  m_total_distance_km : Q;
  m_total_duration_min : Q;
  m_cost_inr : Q;
  m_co2_emissions_kg : Q;
  m_eco_score : EcoScorer.EcoScore;
  m_emission_details : EmissionCalculator.EmissionData;
  m_cost_details : CostCalculator.CostData;
  m_priority : string
}.

(** The dict [_create_basic_route] returns. *)
Record BasicRoute : Type := {
  br_mode : string;
  br_start_address : string;
  br_end_address : string;
  br_start_location : coords;
  br_end_location : coords;
  br_total_distance_km : Q;
  br_total_duration_min : Q;
  br_cost_inr : Q;
  br_co2_emissions_kg : Q;
  br_eco_score : Q;
  br_polyline : option string;
  br_decoded_path : list coords;
  br_steps : list StepInfo;
  br_is_realistic : bool;
  br_warning : string
}.

(** What [calculate_route] returns when it returns a route. *)
Inductive Route : Type :=
| FromProvider (summary : RouteSummary) (metrics : Metrics)
| Estimated (basic : BasicRoute).

Definition is_realistic (r : Route) : bool :=
  match r with
  | FromProvider s _ => rs_is_realistic s
  | Estimated b => br_is_realistic b
  end.

Definition lower_ascii (c : ascii) : ascii :=
  let n := nat_of_ascii c in
  if (Nat.leb 65 n && Nat.leb n 90)%bool then ascii_of_nat (n + 32) else c.

(** [s.lower()] on ASCII text. *)
Fixpoint lower (s : string) : string :=
  match s with
  | EmptyString => EmptyString
  | String c s' => String (lower_ascii c) (lower s')
  end.

Section WithEnvironment.

(** [polyline.decode], which may raise on a malformed string. *)
Variable polyline_decode : string -> py (list coords).

(** The central angle [2 * atan2(sqrt(a), sqrt(1 - a))] of the Haversine
    formula between two points given in degrees. *)
Variable central_angle : coords -> coords -> Q.

(** The text of a pair of floats inside an f-string. *)
Variable repr_coords : coords -> string.

Definition _decode_polyline (encoded_polyline : string) : list coords :=
  match polyline_decode encoded_polyline with
  | inr decoded => decoded
  | inl _ => []
  end.

Definition extract_transit (td : TransitDetails) : Transit :=
  {| transit_line := opt_default_str (line_name td) "Unknown";
     transit_vehicle := opt_default_str (line_vehicle_type td) EmptyString;
     transit_departure := opt_default_str (departure_stop_name td) EmptyString;
     transit_arrival := opt_default_str (arrival_stop_name td) EmptyString;
     transit_stops := match num_stops td with Some n => n | None => 0%Z end;
     transit_headsign := opt_default_str (headsign td) EmptyString |}.

(** The body of the loop over the steps of the leg; [i] counts from 0. *)
Definition extract_step (i : nat) (step : Step) : StepInfo :=
  {| si_step := Z.of_nat i + 1;
     si_instruction := html_instructions step;
     si_distance := step_distance_text step;
     si_duration := step_duration_text step;
     si_mode := lower (travel_mode step);
     si_start_location := Some (step_start_location step);
     si_end_location := Some (step_end_location step);
     si_polyline := step_polyline step;
     si_decoded_path := option_map _decode_polyline (step_polyline step);
     si_transit :=
       if String.eqb (travel_mode step) "TRANSIT"
       then option_map extract_transit (transit_details step)
       else None |}.

Fixpoint extract_steps (i : nat) (l : list Step) : list StepInfo :=
  match l with
  | [] => []
  | step :: l' => extract_step i step :: extract_steps (S i) l'
  end.

Definition collect_transit (l : list StepInfo) : list Transit :=
  flat_map (fun si => match si_transit si with
                      | Some tr => [tr]
                      | None => []
                      end) l.

Definition _extract_route_info (route_data : RouteData) (mode : TransportMode)
    : py RouteSummary :=
  leg <- match legs route_data with
         | leg :: _ => ret leg
         | [] => raise IndexError
         end ;;
  let steps := extract_steps 0 (Provider.steps leg) in
  let transit_segments := collect_transit steps in
  let overall_polyline :=
    opt_default_str (overview_polyline route_data) EmptyString in
  let decoded_path :=
    if String.eqb overall_polyline EmptyString then []
    else _decode_polyline overall_polyline in
  ret {| rs_mode := value mode;
         rs_start_address := start_address leg;
         rs_end_address := end_address leg;
         rs_start_location := start_location leg;
         rs_end_location := end_location leg;
         rs_total_distance_meters := distance_value leg;
         rs_total_duration_seconds := duration_value leg;
         rs_polyline := overall_polyline;
         rs_decoded_path := decoded_path;
         rs_steps := steps;
         rs_transit_segments :=
           match transit_segments with
           | [] => None
           | _ => Some transit_segments
           end;
         rs_warnings := match warnings route_data with
                        | Some w => w
                        | None => []
                        end;
         rs_summary := opt_default_str (summary route_data) "Route";
         rs_is_realistic := true |}.

(** The call [self.eco_scorer.calculate_eco_score(mode=..., distance_km=...,
    duration_min=..., cost_inr=..., co2_kg=..., priority=...)]: the keywords
    are bound to the parameters before the body runs. *)
Definition call_calculate_eco_score (self : t) (mode : TransportMode)
    (distance_km duration_min cost_inr co2_kg : Q) (priority : RoutePriority)
    : py EcoScorer.EcoScore :=
  _ <- bind_keywords EcoScorer.calculate_eco_score_params
         ["mode"; "distance_km"; "duration_min"; "cost_inr"; "co2_kg";
          "priority"] ;;
  @EcoScorer.calculate_eco_score unit (eco_scorer self) mode distance_km
    duration_min None.

Definition _calculate_route_metrics (self : t) (route_summary : RouteSummary)
    (mode : TransportMode) (priority : RoutePriority)
    : py (RouteSummary * Metrics) :=
  let distance_km := rs_total_distance_meters route_summary / 1000 in
  let duration_min := rs_total_duration_seconds route_summary / 60 in
  let emissions :=
    EmissionCalculator.calculate_co2_emissions (emission_calc self) mode
      distance_km None in
  cost <- CostCalculator.calculate_cost mode distance_km duration_min None ;;
  eco_score <- call_calculate_eco_score self mode distance_km duration_min
                 (CostCalculator.total_cost cost)
                 (EmissionCalculator.co2_kg emissions) priority ;;
  ret (route_summary,
       {| m_total_distance_km := distance_km;
          m_total_duration_min := duration_min;
          m_cost_inr := CostCalculator.total_cost cost;
          m_co2_emissions_kg := EmissionCalculator.co2_kg emissions;
          m_eco_score := eco_score;
          m_emission_details := emissions;
          m_cost_details := cost;
          m_priority := priority_value priority |}).

Definition _create_basic_route (self : t) (start_coords end_coords : coords)
    (mode : TransportMode) : py BasicRoute :=
  let c := central_angle start_coords end_coords in
  let distance_km := 6371 * c in
  speeds <- mode_table [("CAR", 40); ("METRO", 30); ("BUS", 20);
                        ("WALKING", 5); ("BICYCLE", 15)] ;;
  let speed_kmh := mode_get speeds mode 20 in
  q <- truediv distance_km speed_kmh ;;
  let duration_min := q * 60 in
  let emissions :=
    EmissionCalculator.calculate_co2_emissions (emission_calc self) mode
      distance_km None in
  cost <- CostCalculator.calculate_cost mode distance_km duration_min None ;;
  let eco_score :=
    max 0 (min 100
      ((100 - EmissionCalculator.co2_kg emissions * 10) * 0.7
       + (100 - duration_min) * 0.2
       + (100 - CostCalculator.total_cost cost) * 0.1)) in
  ret {| br_mode := value mode;
         br_start_address := "Location at " ++ repr_coords start_coords;
         br_end_address := "Location at " ++ repr_coords end_coords;
         br_start_location := start_coords;
         br_end_location := end_coords;
         br_total_distance_km := distance_km;
         br_total_duration_min := duration_min;
         br_cost_inr := CostCalculator.total_cost cost;
         br_co2_emissions_kg := EmissionCalculator.co2_kg emissions;
         br_eco_score := eco_score;
         br_polyline := None;
         br_decoded_path := [start_coords; end_coords];
         br_steps :=
           [ {| si_step := 1;
                si_instruction :=
                  "Travel from start to destination via " ++ value mode;
                si_distance := format_f 1 distance_km ++ " km";
                si_duration := format_f 0 duration_min ++ " min";
                si_mode := value mode;
                si_start_location := None;
                si_end_location := None;
                si_polyline := None;
                si_decoded_path := None;
                si_transit := None |} ];
         br_is_realistic := false;
         br_warning :=
           "Using estimated route (Google Maps API not available)" |}.

(** The body of the [try] of [calculate_route]. *)
Definition calculate_route_body (self : t) (start_coords end_coords : coords)
    (mode : string) (priority : RoutePriority) : py (option Route) :=
  transport_mode <- TransportMode_of_value mode ;;
  let google_mode := mode_get (mode_mapping self) transport_mode "driving" in
  match gmaps self with
  | Some client =>
      directions <-
        client start_coords end_coords google_mode
          (if mode_eqb transport_mode METRO || mode_eqb transport_mode BUS
           then Some ["bus"; "subway"] else None) ;;
      match directions with
      | [] => ret None
      | route_data :: _ =>
          route_summary <- _extract_route_info route_data transport_mode ;;
          r <- _calculate_route_metrics self route_summary transport_mode
                 priority ;;
          ret (Some (FromProvider (fst r) (snd r)))
      end
  | None =>
      b <- _create_basic_route self start_coords end_coords transport_mode ;;
      ret (Some (Estimated b))
  end.

(** [calculate_route]: any exception of the body is caught, printed, and
    turned into [None]. *)
Definition calculate_route (self : t) (start_coords end_coords : coords)
    (mode : string) (priority : RoutePriority) : py (option Route) :=
  try_except (calculate_route_body self start_coords end_coords mode priority)
    (fun _ => ret None).

End WithEnvironment.

(** [get_detailed_breakdown]: both kinds of route carry the key [steps]. *)
Definition get_detailed_breakdown (route : Route) : list StepInfo :=
  match route with
  | FromProvider s _ => rs_steps s
  | Estimated b => br_steps b
  end.

Record TransitSummary : Type := {
  total_transit_segments : Z;
  transit_segments : list Transit;
  transfers : Z
}.

(** [get_transit_summary]: [None] stands for the empty dict it returns when
    the route has no transit segment. *)
Definition get_transit_summary (route : Route) : option TransitSummary :=
  let segments :=
    match route with
    | FromProvider s _ =>
        match rs_transit_segments s with
        | Some l => l
        | None => []
        end
    | Estimated _ => []
    end in
  match segments with
  | [] => None
  | _ =>
      Some {| total_transit_segments := Z.of_nat (List.length segments);
              transit_segments := segments;
              transfers := Z.max 0 (Z.of_nat (List.length segments) - 1) |}
  end.

(** A route as [compare_routes] reads it: the five keys it looks up. *)
Record Totals : Type := {
  total_distance_km : Q;
  total_duration_min : Q;
  cost_inr : Q;
  co2_emissions_kg : Q;
  eco_score : Q
}.

(** An entry of the comparison table. *)
Record Compared : Type := {
  cmp_distance_km : Q;
  cmp_duration_min : Q;
  cmp_cost_inr : Q;
  cmp_co2_kg : Q;
  cmp_eco_score : Q
}.

Record Comparison : Type := {
  comparison : list (string * Compared);
  best_eco : string * Q;
  fastest : string * Q;
  cheapest : string * Q
}.

Definition comparison_table (routes : list (string * Totals))
    : list (string * Compared) :=
  fold_left
    (fun table item =>
       let route := snd item in
       setitem table (fst item)
         {| cmp_distance_km := total_distance_km route;
            cmp_duration_min := total_duration_min route;
            cmp_cost_inr := cost_inr route;
            cmp_co2_kg := co2_emissions_kg route;
            cmp_eco_score := eco_score route |})
    routes [].

(** [compare_routes]: [None] stands for the empty dict it returns when
    there is no route. *)
Definition compare_routes (routes : list (string * Totals))
    : option Comparison :=
  match routes with
  | [] => None
  | first :: rest =>
      let best := max_by (fun x => eco_score (snd x)) first rest in
      let fast := min_by (fun x => total_duration_min (snd x)) first rest in
      let cheap := min_by (fun x => cost_inr (snd x)) first rest in
      Some {| comparison := comparison_table routes;
              best_eco := (fst best, eco_score (snd best));
              fastest := (fst fast, total_duration_min (snd fast));
              cheapest := (fst cheap, cost_inr (snd cheap)) |}
  end.

End RouteService.

(** ** app.py

    The application file carries its own [Settings] and [RouteService];
    transport modes are plain strings there ([TransportMode.WALKING] is
    ["walking"], [TransportMode.BICYCLE] is ["bicycle"]). *)

Module App.

Import Provider.

(** An entry of [Settings.TRANSPORT_MODES] (the icon is left out). *)
Record ModeConfig : Type := {
  name : string;
  color : string;
  speed_kmh : Q;
  cost_per_km : Q;
  co2_per_km : Q
}.

Definition car_config : ModeConfig :=
  {| name := "Car"; color := "#FF0000"; speed_kmh := 40; cost_per_km := 8;
     co2_per_km := 0.192 |}.

Definition TRANSPORT_MODES : list (string * ModeConfig) :=
  [ ("car", car_config);
    ("metro", {| name := "Metro"; color := "#800080"; speed_kmh := 35;
                 cost_per_km := 2; co2_per_km := 0.035 |});
    ("bus", {| name := "Bus"; color := "#0000FF"; speed_kmh := 20;
               cost_per_km := 1.5; co2_per_km := 0.089 |});
    ("walking", {| name := "Walking"; color := "#FFA500"; speed_kmh := 5;
                   cost_per_km := 0; co2_per_km := 0 |});
    ("bicycle", {| name := "Bicycle"; color := "#00CED1"; speed_kmh := 15;
                   cost_per_km := 0; co2_per_km := 0 |}) ].

(** [Settings.TRANSPORT_MODES.get(mode, Settings.TRANSPORT_MODES['car'])] *)
Definition mode_config_of (mode : string) : py ModeConfig :=
  car <- getitem TRANSPORT_MODES "car" ;;
  ret (get TRANSPORT_MODES mode car).

Definition base_scores : list (string * Q) :=
  [ ("walking", 95); ("bicycle", 90); ("metro", 85); ("bus", 75);
    ("car", 40) ].

Definition _calculate_eco_score (mode : string)
    (distance_km duration_min co2_kg cost_inr : Q) (priority : string) : Q :=
  let base_score := get base_scores mode 50 in
  let distance_factor :=
    if ltb distance_km 2 then 1.2
    else if gtb distance_km 20 then 0.8
    else 1.0 in
  let co2_factor := max 0.5 (1.0 - (co2_kg / 10)) in
  let priority_factors :=
    [ ("eco_friendly", 1.3); ("fastest", 0.9); ("cheapest", 1.1);
      ("balanced", 1.0) ] in
  let priority_factor := get priority_factors priority 1.0 in
  let final_score :=
    base_score * distance_factor * co2_factor * priority_factor in
  min 100 final_score.

(** The keys of the processed route that [_calculate_metrics] reads. *)
Record Processed : Type := {
  total_distance_m : Q;
  total_duration_s : Q
}.

(** The keys [_calculate_metrics] adds to the route. *)
Record Metrics : Type := {
  m_total_distance_km : Q;
  m_total_duration_min : Q;
  m_cost_inr : Q;
  m_co2_emissions_kg : Q;
  m_eco_score : Q;
  m_mode_config : ModeConfig;
  m_priority : string
}.

(** The emissions [_calculate_metrics] computes, before they are rounded. *)
Definition metrics_co2 (cfg : ModeConfig) (distance_km : Q) : Q :=
  distance_km * co2_per_km cfg.

Definition _calculate_metrics (route : Processed) (mode priority : string)
    : py Metrics :=
  let distance_km := total_distance_m route / 1000 in
  let duration_min := total_duration_s route / 60 in
  mode_config <- mode_config_of mode ;;
  let co2_emissions_kg := metrics_co2 mode_config distance_km in
  let base_cost := distance_km * cost_per_km mode_config in
  let base_cost :=
    if String.eqb mode "car" then base_cost + (duration_min / 60) * 50
    else base_cost in
  let eco_score :=
    _calculate_eco_score mode distance_km duration_min co2_emissions_kg
      base_cost priority in
  ret {| m_total_distance_km := round distance_km 2;
         m_total_duration_min := round duration_min 1;
         m_cost_inr := round base_cost 2;
         m_co2_emissions_kg := round co2_emissions_kg 3;
         m_eco_score := round eco_score 1;
         m_mode_config := mode_config;
         m_priority := priority |}.

Record BasicStep : Type := {
  bs_step : Z;
  bs_instruction : string;
  bs_distance : string;
  bs_distance_m : Q;
  bs_duration : string;
  bs_duration_s : Q;
  bs_mode : string;
  bs_start_location : coords;
  bs_end_location : coords
}.

(** The dict [_create_basic_route] returns. *)
Record Route : Type := {
  r_mode : string;
  r_start_address : string;
  r_end_address : string;
  r_start_location : coords;
  r_end_location : coords;
  r_total_distance_km : Q;
  r_total_duration_min : Q;
  r_cost_inr : Q;
  r_co2_emissions_kg : Q;
  r_eco_score : Q;
  r_polyline : option string;
  r_decoded_path : list coords;
  r_steps : list BasicStep;
  r_transit_segments : option (list string);
  r_warnings : list string;
  r_summary : string;
  r_is_realistic : bool;
  r_mode_config : ModeConfig
}.

Definition upper_ascii (c : ascii) : ascii :=
  let n := nat_of_ascii c in
  if (Nat.leb 97 n && Nat.leb n 122)%bool then ascii_of_nat (n - 32) else c.

(** [s.capitalize()] on ASCII text. *)
Definition capitalize (s : string) : string :=
  match s with
  | EmptyString => EmptyString
  | String c s' => String (upper_ascii c) (RouteService.lower s')
  end.

Section WithEnvironment.

(** The central angle of the Haversine formula,
    [2 * atan2(sqrt(a), sqrt(1 - a))]: its trigonometry is not rational
    arithmetic, so it is a parameter.  It is a computation that may raise:
    [sqrt(1 - a)] raises [ValueError] when rounding has pushed [a] above 1,
    which happens between nearly antipodal points. *)
Variable central_angle : coords -> coords -> py Q.

Definition address (p : coords) : string :=
  "Location at " ++ format_f 4 (fst p) ++ ", " ++ format_f 4 (snd p).

Definition _create_basic_route (start_coords end_coords : coords)
    (mode : string) : py Route :=
  c <- central_angle start_coords end_coords ;;
  let distance_km := 6371 * c in
  mode_config <- mode_config_of mode ;;
  q <- truediv distance_km (speed_kmh mode_config) ;;
  let duration_min := q * 60 in
  let co2_emissions_kg := distance_km * co2_per_km mode_config in
  let cost_inr := distance_km * cost_per_km mode_config in
  let eco_score := get base_scores mode 50 in
  let steps :=
    [ {| bs_step := 1;
         bs_instruction := "Travel from start to destination via " ++ mode;
         bs_distance := format_f 1 distance_km ++ " km";
         bs_distance_m := distance_km * 1000;
         bs_duration := format_f 0 duration_min ++ " min";
         bs_duration_s := duration_min * 60;
         bs_mode := mode;
         bs_start_location := start_coords;
         bs_end_location := end_coords |} ] in
  ret {| r_mode := mode;
         r_start_address := address start_coords;
         r_end_address := address end_coords;
         r_start_location := start_coords;
         r_end_location := end_coords;
         r_total_distance_km := round distance_km 2;
         r_total_duration_min := round duration_min 1;
         r_cost_inr := round cost_inr 2;
         r_co2_emissions_kg := round co2_emissions_kg 3;
         r_eco_score := round eco_score 1;
         r_polyline := None;
         r_decoded_path := [start_coords; end_coords];
         r_steps := steps;
         r_transit_segments := None;
         r_warnings :=
           ["Using estimated route (Google Maps API not available)"];
         r_summary := capitalize mode ++ " Route";
         r_is_realistic := false;
         r_mode_config := mode_config |}.

(** [calculate_route] on a service built without a client: its first
    statement returns the basic route, outside any handler, so an exception
    of [_create_basic_route] is the caller's. *)
Definition calculate_route_without_client (start_coords end_coords : coords)
    (mode priority : string) : py (option Route) :=
  b <- _create_basic_route start_coords end_coords mode ;;
  ret (Some b).

End WithEnvironment.

(** [EcoScorer.calculate_eco_score] of app.py, the simplified score. *)
Definition simple_eco_score (mode : string)
    (distance_km duration_min cost_inr co2_kg : Q) (priority : string) : Q :=
  let score := get base_scores mode 50 in
  let score :=
    if ltb co2_kg 0.1 then score + 10
    else if gtb co2_kg 2.0 then score - 20
    else score in
  let score := if ltb distance_km 5 then score + 5 else score in
  min 100 (max 0 score).

(** The dict of [EmissionCalculator.calculate_co2_emissions] of app.py. *)
Record Emissions : Type := {
  e_co2_kg : Q;
  e_co2_per_km : Q;
  e_distance_km : Q
}.

Definition calculate_co2_emissions (mode : string) (distance_km : Q)
    : py Emissions :=
  mode_config <- mode_config_of mode ;;
  let per_km := co2_per_km mode_config in
  let co2 := distance_km * per_km in
  ret {| e_co2_kg := round co2 3;
         e_co2_per_km := per_km;
         e_distance_km := distance_km |}.

(** The dict of [CostCalculator.calculate_cost] of app.py. *)
Record Cost : Type := {
  c_total_cost : Q;
  c_base_cost : Q;
  c_additional_costs : Q;
  c_cost_per_km : Q
}.

Definition calculate_cost (mode : string) (distance_km duration_min : Q)
    : py Cost :=
  mode_config <- mode_config_of mode ;;
  let base_cost := distance_km * cost_per_km mode_config in
  let additional_costs :=
    if String.eqb mode "car" then (duration_min / 60) * 20 else 0 in
  let total_cost := base_cost + additional_costs in
  ret {| c_total_cost := round total_cost 2;
         c_base_cost := round base_cost 2;
         c_additional_costs := round additional_costs 2;
         c_cost_per_km := cost_per_km mode_config |}.

End App.

(** ** api/route.py *)

Module RouteRecord.

Import Provider.

Section WithTypes.

(** The entries of [steps], the value of [transit_details] and the time
    stamps are carried along and never inspected. *)
Context {Step Details Time : Type}.

(** [datetime.now()] at the time the route is built. *)
Variable now : Time.

(** [googlemaps.convert.decode_polyline], which may raise. *)
Variable decode_polyline : string -> py (list coords).

Record Route : Type := {
  mode : TransportMode;
  start_address : string;
  end_address : string;
  start_location : coords;
  end_location : coords;
  total_distance_km : Q;
  total_duration_min : Q;
  cost_inr : Q;
  co2_emissions_kg : Q;
  eco_score : Q;
  polyline : option string;
  decoded_path : list coords;
  steps : list Step;
  transit_details : option Details;
  warnings : list string;
  calculation_time : Time;
  is_realistic : bool
}.

(** [__post_init__]: a route with a polyline and no decoded path gets the
    decoded polyline, or the straight line when decoding fails. *)
Definition __post_init__ (self : Route) : Route :=
  match decoded_path self with
  | [] =>
      if truthy_str (polyline self) then
        let path :=
          match decode_polyline (opt_default_str (polyline self) EmptyString)
          with
          | inr decoded => decoded
          | inl _ => [start_location self; end_location self]
          end in
        {| mode := mode self;
           start_address := start_address self;
           end_address := end_address self;
           start_location := start_location self;
           end_location := end_location self;
           total_distance_km := total_distance_km self;
           total_duration_min := total_duration_min self;
           cost_inr := cost_inr self;
           co2_emissions_kg := co2_emissions_kg self;
           eco_score := eco_score self;
           polyline := polyline self;
           decoded_path := path;
           steps := steps self;
           transit_details := transit_details self;
           warnings := warnings self;
           calculation_time := calculation_time self;
           is_realistic := is_realistic self |}
      else self
  | _ => self
  end.

(** The dict [to_dict] returns and [from_dict] reads: [steps] and
    [warnings] may be absent when it is read. *)
Record RouteDict : Type := {
  d_mode : string;
  d_start_address : string;
  d_end_address : string;
  d_start_location : coords;
  d_end_location : coords;
  d_distance_km : Q;
  d_duration_min : Q;
  d_cost_inr : Q;
  d_co2_kg : Q;
  d_eco_score : Q;
  d_steps : option (list Step);
  d_warnings : option (list string)
}.

Definition to_dict (self : Route) : RouteDict :=
  {| d_mode := value (mode self);
     d_start_address := start_address self;
     d_end_address := end_address self;
     d_start_location := start_location self;
     d_end_location := end_location self;
     d_distance_km := total_distance_km self;
     d_duration_min := total_duration_min self;
     d_cost_inr := cost_inr self;
     d_co2_kg := co2_emissions_kg self;
     d_eco_score := eco_score self;
     d_steps := Some (steps self);
     d_warnings := Some (warnings self) |}.

(** [from_dict]: the fields the dict does not carry take their defaults. *)
Definition from_dict (data : RouteDict) : py Route :=
  m <- TransportMode_of_value (d_mode data) ;;
  ret (__post_init__
         {| mode := m;
            start_address := d_start_address data;
            end_address := d_end_address data;
            start_location := d_start_location data;
            end_location := d_end_location data;
            total_distance_km := d_distance_km data;
            total_duration_min := d_duration_min data;
            cost_inr := d_cost_inr data;
            co2_emissions_kg := d_co2_kg data;
            eco_score := d_eco_score data;
            polyline := None;
            decoded_path := [];
            steps := match d_steps data with Some l => l | None => [] end;
            transit_details := None;
            warnings := match d_warnings data with
                        | Some l => l
                        | None => []
                        end;
            calculation_time := now;
            is_realistic := false |}).

End WithTypes.

End RouteRecord.

(** ** Sample inputs *)

Module Samples.

Import RouteProcessor.

(** A reading of [float] that accepts no string; the sample routes carry no
    segments, so it is never consulted. *)
Definition no_float (s : string) : option Q := None.

(** A reading of [float] that knows the texts of the sample segments. *)
Definition sample_float (s : string) : option Q :=
  if String.eqb s "0.3" then Some 0.3
  else if String.eqb s "0.2" then Some 0.2
  else None.

Definition car_route : route :=
  {| segments := None; actual_mode := Some "driving";
     duration_min := Some 60; distance_km := Some 20; other_keys := false |}.

Definition walking_route : route :=
  {| segments := None; actual_mode := Some "walking";
     duration_min := Some 10; distance_km := Some 1; other_keys := false |}.

(** A 45 minute bus ride with 0.5 km of walking and no transfer. *)
Definition bus_route_45 : route :=
  {| segments :=
       Some [ {| seg_mode := Some "walk"; seg_distance := Some "0.3 km" |};
              {| seg_mode := Some "bus"; seg_distance := Some "11.0 km" |};
              {| seg_mode := Some "walk"; seg_distance := Some "0.2 km" |} ];
     actual_mode := Some "bus";
     duration_min := Some 45; distance_km := Some 11.5;
     other_keys := false |}.

(** The same ride in 20 minutes. *)
Definition bus_route_20 : route :=
  {| segments := segments bus_route_45;
     actual_mode := Some "bus";
     duration_min := Some 20; distance_km := Some 11.5;
     other_keys := false |}.

(** A provider client that answers every query with one route of one leg. *)
Definition one_route : Provider.RouteData :=
  {| Provider.legs :=
       [ {| Provider.steps := [];
            Provider.start_address := "MG Road";
            Provider.end_address := "Indiranagar";
            Provider.start_location := (12.9716, 77.5946);
            Provider.end_location := (12.9784, 77.6408);
            Provider.distance_value := 6200;
            Provider.duration_value := 1260 |} ];
     Provider.overview_polyline := None;
     Provider.warnings := None;
     Provider.summary := None |}.

Definition sample_client : RouteService.Client :=
  fun _ _ _ _ => inr [one_route].

End Samples.

(** ** The score of the specification

    The composite of section 4.3, written from the specification's words, to
    be compared with what [EcoScorer.calculate_eco_score] computes. *)

Module Spec.

Definition clamp (x : Q) : Q := Qmax 0 (Qmin 100 x).

Definition weighted (mode : TransportMode) (c : EcoScorer.EcoScoreComponents)
    : Q :=
  EcoScorer.co2_score c * 0.40 + EcoScorer.cost_score c * 0.25
  + EcoScorer.time_score c * 0.20 + EcoScorer.mode_score c * 0.15
  + match mode with
    | BIKE | WALK => EcoScorer.health_score c * 0.10
    | _ => 0
    end
  - EcoScorer.congestion_score c * 0.05.

End Spec.

(** * Properties *)

(** ** Comparisons, [min] and [max] *)

Lemma leb_true (a b : Q) : leb a b = true <-> a <= b.
Proof. apply Qle_bool_iff. Qed.

Lemma leb_false (a b : Q) : leb a b = false <-> b < a.
Proof.
  unfold leb. split; intro H.
  - apply Qnot_le_lt. intro Hle. apply Qle_bool_iff in Hle. congruence.
  - destruct (Qle_bool a b) eqn:E; [| reflexivity].
    apply Qle_bool_iff in E. lra.
Qed.

Lemma ltb_true (a b : Q) : ltb a b = true <-> a < b.
Proof.
  unfold ltb. rewrite negb_true_iff. apply (leb_false b a).
Qed.

Lemma ltb_false (a b : Q) : ltb a b = false <-> b <= a.
Proof.
  unfold ltb. rewrite negb_false_iff. apply (leb_true b a).
Qed.

Lemma gtb_true (a b : Q) : gtb a b = true <-> b < a.
Proof. apply ltb_true. Qed.

Lemma gtb_false (a b : Q) : gtb a b = false <-> a <= b.
Proof. apply ltb_false. Qed.

(** Case analysis on every comparison of the goal, each turned into the
    order fact it decides. *)
Ltac cmp_name H :=
  first [ apply leb_true in H | apply leb_false in H
        | apply ltb_true in H | apply ltb_false in H
        | apply gtb_true in H | apply gtb_false in H ].

Ltac cmp_cases :=
  repeat match goal with
  | |- context [leb ?a ?b] =>
      let H := fresh "C" in destruct (leb a b) eqn:H; cmp_name H
  | |- context [ltb ?a ?b] =>
      let H := fresh "C" in destruct (ltb a b) eqn:H; cmp_name H
  | |- context [gtb ?a ?b] =>
      let H := fresh "C" in destruct (gtb a b) eqn:H; cmp_name H
  end.

(** [lra] does not read a division: the divisions by a literal are turned
    into multiplications by the inverse literal. *)
Ltac literal c :=
  match c with
  | Qmake _ _ => idtac
  | Qmult ?a ?b => literal a; literal b
  | Qplus ?a ?b => literal a; literal b
  end.

Ltac inv_literals :=
  unfold Qdiv;
  repeat match goal with
  | |- context [Qinv ?c] =>
      literal c;
      let v := eval cbv in (Qinv c) in
      change (Qinv c) with v
  end.

Ltac qarith := inv_literals; lra.

Lemma min_Qmin (a b : Q) : min a b == Qmin a b.
Proof.
  unfold min. destruct (ltb b a) eqn:E.
  - apply ltb_true in E. rewrite Q.min_r; lra.
  - apply ltb_false in E. rewrite Q.min_l; lra.
Qed.

Lemma max_Qmax (a b : Q) : max a b == Qmax a b.
Proof.
  unfold max, gtb. destruct (ltb a b) eqn:E.
  - apply ltb_true in E. rewrite Q.max_r; lra.
  - apply ltb_false in E. rewrite Q.max_l; lra.
Qed.

Lemma min_mono_r (c a b : Q) : a <= b -> min c a <= min c b.
Proof. intro H. unfold min. cmp_cases; lra. Qed.

Lemma min_mono_l (c a b : Q) : a <= b -> min a c <= min b c.
Proof. intro H. unfold min. cmp_cases; lra. Qed.

Lemma clamp_bounds (x : Q) : 0 <= max 0 (min 100 x) <= 100.
Proof. unfold max, min. cmp_cases; lra. Qed.

(** ** The guarded divisions never raise *)

Lemma truediv_nonzero (a b : Q) : ~ b == 0 -> truediv a b = inr (a / b).
Proof.
  intro H. unfold truediv. destruct (Qeq_bool b 0) eqn:E; [| reflexivity].
  apply Qeq_bool_iff in E. contradiction.
Qed.

Lemma guarded_div (a d : Q) :
  (if gtb d 0 then truediv a d else ret 0)
  = inr (if gtb d 0 then a / d else 0).
Proof.
  destruct (gtb d 0) eqn:E; [| reflexivity].
  apply gtb_true in E. apply truediv_nonzero. lra.
Qed.

Lemma per_km_total (total d : Q) :
  CostCalculator.per_km total d = inr (if gtb d 0 then total / d else 0).
Proof. apply guarded_div. Qed.

(** ** The cost model *)

(** [calculate_cost] returns for every mode, distance and duration. *)
Lemma calculate_cost_returns (m : TransportMode) (d t : Q)
    (tod : option string) :
  exists c, CostCalculator.calculate_cost m d t tod = inr c.
Proof.
  destruct m; unfold CostCalculator.calculate_cost,
    CostCalculator._calculate_car_cost, CostCalculator._calculate_metro_cost,
    CostCalculator._calculate_bus_cost, CostCalculator._calculate_bike_cost,
    CostCalculator._calculate_walk_cost;
  try rewrite per_km_total; simpl; eexists; reflexivity.
Qed.

Lemma parking_at_least_one_hour (t : Q) (tod : option string) :
  20 <= CostCalculator._estimate_parking_cost t tod.
Proof.
  unfold CostCalculator._estimate_parking_cost.
  assert (H : (1 <= Z.max 1 (ceil (t / 60)))%Z) by lia.
  generalize dependent (Z.max 1 (ceil (t / 60))). intros z H.
  assert (Hz : 1 <= inject_Z z).
  { change 1 with (inject_Z 1). rewrite <- Zle_Qle. exact H. }
  destruct tod as [s |]; [destruct (String.eqb s "peak") |]; nra.
Qed.

(** C6: the metro fare is [min(10 + 2.5 * distance_km, 60)] for every
    distance_km >= 0 (and every duration and time of day, which the metro
    sub-model does not read); 10 km costs 35 and 25 km costs the cap, 60. *)
Theorem metro_cost_capped (d t : Q) (tod : option string) :
  0 <= d ->
  (exists c, CostCalculator.calculate_cost METRO d t tod = inr c
             /\ CostCalculator.total_cost c == Qmin (10 + d * 2.5) 60)
  /\ (exists c, CostCalculator.calculate_cost METRO 10 t tod = inr c
                /\ CostCalculator.total_cost c == 35)
  /\ (exists c, CostCalculator.calculate_cost METRO 25 t tod = inr c
                /\ CostCalculator.total_cost c == 60).
Proof.
  intros _.
  unfold CostCalculator.calculate_cost, CostCalculator._calculate_metro_cost.
  repeat split; rewrite per_km_total; eexists; (split; [reflexivity |]);
    cbn [CostCalculator.total_cost].
  - rewrite min_Qmin. unfold Settings.METRO_BASE_FARE,
      Settings.METRO_PER_KM_FARE. reflexivity.
  - reflexivity.
  - reflexivity.
Qed.

Lemma metro_cost_capped_witness :
  0 <= 12
  /\ (exists c, CostCalculator.calculate_cost METRO 12 20 None = inr c
                /\ CostCalculator.total_cost c == Qmin (10 + 12 * 2.5) 60).
Proof.
  split; [lra |].
  apply (metro_cost_capped 12 20 None). lra.
Defined.

(** C3, as stated, fails for walking: at distance 0 the walking sub-model
    reports its constant rate, 0.1, as [cost_per_km]. *)
Lemma walk_cost_per_km_not_zero :
  ~ (exists c, CostCalculator.calculate_cost WALK 0 0 None = inr c
               /\ CostCalculator.cost_per_km c == 0).
Proof.
  intros [c [H Hc]]. cbv in H. injection H as <-.
  cbn in Hc. discriminate Hc.
Qed.

(** C3, amended: for every mode and every duration_min >= 0, [calculate_cost]
    at distance 0 returns (no exception); [cost_per_km] is 0 for car, metro,
    bus and bike, and the constant shoe-wear rate 0.1 for walk; for car the
    total is the parking charge alone, which is at least the charge for one
    hour, and the toll is 0. *)
Theorem cost_at_zero_distance (m : TransportMode) (t : Q)
    (tod : option string) :
  0 <= t ->
  exists c, CostCalculator.calculate_cost m 0 t tod = inr c
    /\ (m <> WALK -> CostCalculator.cost_per_km c == 0)
    /\ (m = WALK -> CostCalculator.cost_per_km c == 0.1)
    /\ (m = CAR ->
        CostCalculator.total_cost c
          == CostCalculator._estimate_parking_cost t tod
        /\ CostCalculator._estimate_parking_cost 60 tod
           <= CostCalculator._estimate_parking_cost t tod
        /\ In ("parking_cost", CostCalculator._estimate_parking_cost t tod)
              (CostCalculator.breakdown c)
        /\ In ("toll_cost", 0) (CostCalculator.breakdown c)).
Proof.
  intros _.
  destruct m; unfold CostCalculator.calculate_cost,
    CostCalculator._calculate_car_cost, CostCalculator._calculate_metro_cost,
    CostCalculator._calculate_bus_cost, CostCalculator._calculate_bike_cost,
    CostCalculator._calculate_walk_cost;
  try rewrite per_km_total; eexists; (split; [reflexivity |]);
  cbn [CostCalculator.cost_per_km CostCalculator.total_cost
       CostCalculator.breakdown];
  (split; [intros NE; try reflexivity; congruence |]);
  (split; [intros E; try discriminate E; reflexivity |]);
  intros E; try discriminate E.
  repeat split.
  - change (CostCalculator._estimate_toll_charges 0) with 0.
    generalize (CostCalculator._estimate_parking_cost t tod). intro p.
    field.
  - unfold CostCalculator._estimate_parking_cost.
    change (ceil (60 / 60)) with 1%Z. change (Z.max 1 1) with 1%Z.
    assert (H : (1 <= Z.max 1 (ceil (t / 60)))%Z) by lia.
    generalize dependent (Z.max 1 (ceil (t / 60))). intros z H.
    assert (Hz : 1 <= inject_Z z).
    { change 1 with (inject_Z 1). rewrite <- Zle_Qle. exact H. }
    change (inject_Z 1) with 1.
    destruct tod as [s |]; [destruct (String.eqb s "peak") |]; nra.
  - simpl. auto.
  - simpl. auto 6.
Qed.

Lemma cost_at_zero_distance_witness :
  0 <= 45
  /\ exists c, CostCalculator.calculate_cost CAR 0 45 None = inr c
       /\ CostCalculator.total_cost c == 30.
Proof.
  split; [lra |].
  destruct (cost_at_zero_distance CAR 45 None) as [c [H [_ [_ Hcar]]]];
    [lra |].
  exists c. split; [exact H |].
  destruct (Hcar eq_refl) as [Ht _]. rewrite Ht. reflexivity.
Defined.

(** ** Monotonicity in the distance *)

Lemma co2_monotone (m : TransportMode) (vt : option string) (d1 d2 : Q) :
  d1 <= d2 ->
  EmissionCalculator.co2_kg
    (EmissionCalculator.calculate_co2_emissions EmissionCalculator.init m d1 vt)
  <= EmissionCalculator.co2_kg
       (EmissionCalculator.calculate_co2_emissions EmissionCalculator.init m
          d2 vt).
Proof.
  intro H.
  destruct m; cbn [EmissionCalculator.calculate_co2_emissions].
  - unfold EmissionCalculator._calculate_car_emissions.
    repeat match goal with
    | |- context [EmissionCalculator.vehicle_is ?v ?s] =>
        destruct (EmissionCalculator.vehicle_is v s)
    end; cbn; qarith.
  - cbn; qarith.
  - cbn; qarith.
  - cbn; qarith.
  - cbn; qarith.
Qed.

Lemma toll_monotone (d1 d2 : Q) :
  d1 <= d2 ->
  CostCalculator._estimate_toll_charges d1
  <= CostCalculator._estimate_toll_charges d2.
Proof.
  intro H. unfold CostCalculator._estimate_toll_charges. cmp_cases; lra.
Qed.

Lemma total_cost_monotone (m : TransportMode) (t : Q) (tod : option string)
    (d1 d2 : Q) :
  d1 <= d2 ->
  exists c1 c2,
    CostCalculator.calculate_cost m d1 t tod = inr c1
    /\ CostCalculator.calculate_cost m d2 t tod = inr c2
    /\ CostCalculator.total_cost c1 <= CostCalculator.total_cost c2.
Proof.
  intro H.
  destruct m; unfold CostCalculator.calculate_cost,
    CostCalculator._calculate_car_cost, CostCalculator._calculate_metro_cost,
    CostCalculator._calculate_bus_cost, CostCalculator._calculate_bike_cost,
    CostCalculator._calculate_walk_cost;
  try rewrite !per_km_total; do 2 eexists;
  (split; [reflexivity |]); (split; [reflexivity |]);
  cbn [CostCalculator.total_cost].
  - pose proof (toll_monotone d1 d2 H) as Ht.
    generalize dependent (CostCalculator._estimate_toll_charges d1).
    generalize dependent (CostCalculator._estimate_toll_charges d2).
    generalize (CostCalculator._estimate_parking_cost t tod).
    intros p t2 t1 Ht. qarith.
  - apply min_mono_l. unfold Settings.METRO_BASE_FARE,
      Settings.METRO_PER_KM_FARE. lra.
  - cmp_cases; lra.
  - apply min_mono_l. lra.
  - lra.
Qed.

(** C8: for every mode (all of them have positive per-km constants), every
    vehicle type, and a fixed duration, [co2_kg] and [total_cost] do not
    decrease when the distance grows from d1 to d2 with 0 <= d1 <= d2; car
    emissions at 20 km are at least those at 10 km. *)
Theorem co2_and_cost_monotone_in_distance (m : TransportMode)
    (vt : option string) (t : Q) (tod : option string) (d1 d2 : Q) :
  0 <= d1 -> d1 <= d2 ->
  EmissionCalculator.co2_kg
    (EmissionCalculator.calculate_co2_emissions EmissionCalculator.init m d1 vt)
  <= EmissionCalculator.co2_kg
       (EmissionCalculator.calculate_co2_emissions EmissionCalculator.init m
          d2 vt)
  /\ (exists c1 c2,
        CostCalculator.calculate_cost m d1 t tod = inr c1
        /\ CostCalculator.calculate_cost m d2 t tod = inr c2
        /\ CostCalculator.total_cost c1 <= CostCalculator.total_cost c2)
  /\ EmissionCalculator.co2_kg
       (EmissionCalculator.calculate_co2_emissions EmissionCalculator.init
          CAR 10 None)
     <= EmissionCalculator.co2_kg
          (EmissionCalculator.calculate_co2_emissions EmissionCalculator.init
             CAR 20 None).
Proof.
  intros _ H. split; [| split].
  - apply co2_monotone; exact H.
  - apply total_cost_monotone; exact H.
  - apply co2_monotone. lra.
Qed.

Lemma co2_and_cost_monotone_in_distance_witness :
  (0 <= 3 /\ 3 <= 18)
  /\ exists c1 c2,
       CostCalculator.calculate_cost BUS 3 25 None = inr c1
       /\ CostCalculator.calculate_cost BUS 18 25 None = inr c2
       /\ CostCalculator.total_cost c1 <= CostCalculator.total_cost c2.
Proof.
  split; [split; lra |].
  apply (co2_and_cost_monotone_in_distance BUS None 25 None 3 18); lra.
Defined.

(** ** The eco-score *)

Lemma co2_score_returns (co2 d : Q) :
  exists s, EcoScorer._calculate_co2_score co2 d = inr s.
Proof.
  unfold EcoScorer._calculate_co2_score. rewrite guarded_div.
  eexists; reflexivity.
Qed.

Lemma cost_score_returns (cost d : Q) :
  exists s, EcoScorer._calculate_cost_score cost d = inr s.
Proof.
  unfold EcoScorer._calculate_cost_score. rewrite guarded_div.
  eexists; reflexivity.
Qed.

Lemma time_score_returns (t d : Q) :
  exists s, EcoScorer._calculate_time_score t d = inr s.
Proof.
  unfold EcoScorer._calculate_time_score.
  destruct (gtb t 0) eqn:E.
  - apply gtb_true in E. rewrite truediv_nonzero.
    + eexists; reflexivity.
    + intro Hz. assert (t == 0) by (revert Hz; inv_literals; lra). lra.
  - eexists; reflexivity.
Qed.

Lemma mode_score_returns (m : TransportMode) :
  exists s, EcoScorer._calculate_mode_score EcoScorer.init m = inr s.
Proof. destruct m; eexists; reflexivity. Qed.

(** [calculate_eco_score] returns for every mode, distance and duration. *)
Lemma calculate_eco_score_returns {RD : Type} (m : TransportMode) (d t : Q)
    (rd : option RD) :
  exists r,
    EcoScorer.calculate_eco_score EcoScorer.init m d t rd = inr r
    /\ EcoScorer.score r
       = max 0 (min 100
           (let c := EcoScorer.components r in
            let w :=
              EcoScorer.co2_score c * 0.40 + EcoScorer.cost_score c * 0.25
              + EcoScorer.time_score c * 0.20
              + EcoScorer.mode_score c * 0.15 in
            (if EmissionCalculator.is_active m
             then w + EcoScorer.health_score c * 0.1 else w)
            - EcoScorer.congestion_score c * 0.05)).
Proof.
  unfold EcoScorer.calculate_eco_score.
  destruct (calculate_cost_returns m d t None) as [c ->].
  cbn [bind].
  destruct (co2_score_returns
              (EmissionCalculator.co2_kg
                 (EmissionCalculator.calculate_co2_emissions
                    (EcoScorer.emission_calculator EcoScorer.init) m d None))
              d) as [s1 ->].
  destruct (cost_score_returns (CostCalculator.total_cost c) d) as [s2 ->].
  destruct (time_score_returns t d) as [s3 ->].
  destruct (mode_score_returns m) as [s4 ->].
  cbn [bind].
  change (getitem (EcoScorer.settings_ECO_SCORE_WEIGHTS EcoScorer.init)
            "co2_emissions") with (@inr exn Q 0.40).
  change (getitem (EcoScorer.settings_ECO_SCORE_WEIGHTS EcoScorer.init)
            "cost_efficiency") with (@inr exn Q 0.25).
  change (getitem (EcoScorer.settings_ECO_SCORE_WEIGHTS EcoScorer.init)
            "time_efficiency") with (@inr exn Q 0.20).
  change (getitem (EcoScorer.settings_ECO_SCORE_WEIGHTS EcoScorer.init)
            "mode_sustainability") with (@inr exn Q 0.15).
  cbn [bind].
  eexists. split; reflexivity.
Qed.

(** What [calculate_eco_score] returns, field by field. *)
Lemma calculate_eco_score_shape (m : TransportMode) (d t : Q) :
  exists r c,
    @EcoScorer.calculate_eco_score unit EcoScorer.init m d t None = inr r
    /\ CostCalculator.calculate_cost m d t None = inr c
    /\ EcoScorer.cost_inr r = CostCalculator.total_cost c
    /\ EcoScorer.co2_kg r
       = EmissionCalculator.co2_kg
           (EmissionCalculator.calculate_co2_emissions EmissionCalculator.init
              m d None)
    /\ EcoScorer._calculate_co2_score (EcoScorer.co2_kg r) d
       = inr (EcoScorer.co2_score (EcoScorer.components r))
    /\ EcoScorer._calculate_cost_score (EcoScorer.cost_inr r) d
       = inr (EcoScorer.cost_score (EcoScorer.components r))
    /\ EcoScorer._calculate_time_score t d
       = inr (EcoScorer.time_score (EcoScorer.components r))
    /\ EcoScorer.mode_score (EcoScorer.components r)
       = Settings.eco_weight
           (get Settings.TRANSPORT_MODES (value m)
              {| Settings.name := EmptyString;
                 Settings.google_mode := EmptyString;
                 Settings.eco_weight := 0; Settings.color := EmptyString;
                 Settings.transit_type := None |}) * 100
    /\ EcoScorer.health_score (EcoScorer.components r)
       = EcoScorer._calculate_health_score m d
    /\ EcoScorer.congestion_score (EcoScorer.components r)
       = EcoScorer._calculate_congestion_score m t
    /\ EcoScorer.category r
       = EcoScorer._get_eco_score_category (EcoScorer.score r)
    /\ EcoScorer.color r = ECO_SCORE_COLORS (EcoScorer.category r)
    /\ EcoScorer.score r
       = max 0 (min 100
           (let k := EcoScorer.components r in
            let w :=
              EcoScorer.co2_score k * 0.40 + EcoScorer.cost_score k * 0.25
              + EcoScorer.time_score k * 0.20
              + EcoScorer.mode_score k * 0.15 in
            (if EmissionCalculator.is_active m
             then w + EcoScorer.health_score k * 0.1 else w)
            - EcoScorer.congestion_score k * 0.05)).
Proof.
  unfold EcoScorer.calculate_eco_score.
  destruct (calculate_cost_returns m d t None) as [c Hc]. rewrite Hc.
  cbn [bind].
  destruct (co2_score_returns
              (EmissionCalculator.co2_kg
                 (EmissionCalculator.calculate_co2_emissions
                    (EcoScorer.emission_calculator EcoScorer.init) m d None))
              d) as [s1 H1]. rewrite H1.
  destruct (cost_score_returns (CostCalculator.total_cost c) d) as [s2 H2].
  rewrite H2.
  destruct (time_score_returns t d) as [s3 H3]. rewrite H3.
  assert (H4 : EcoScorer._calculate_mode_score EcoScorer.init m
               = inr (Settings.eco_weight
                        (get Settings.TRANSPORT_MODES (value m)
                           {| Settings.name := EmptyString;
                              Settings.google_mode := EmptyString;
                              Settings.eco_weight := 0;
                              Settings.color := EmptyString;
                              Settings.transit_type := None |}) * 100))
    by (destruct m; reflexivity).
  rewrite H4. cbn [bind].
  change (getitem (EcoScorer.settings_ECO_SCORE_WEIGHTS EcoScorer.init)
            "co2_emissions") with (@inr exn Q 0.40).
  change (getitem (EcoScorer.settings_ECO_SCORE_WEIGHTS EcoScorer.init)
            "cost_efficiency") with (@inr exn Q 0.25).
  change (getitem (EcoScorer.settings_ECO_SCORE_WEIGHTS EcoScorer.init)
            "time_efficiency") with (@inr exn Q 0.20).
  change (getitem (EcoScorer.settings_ECO_SCORE_WEIGHTS EcoScorer.init)
            "mode_sustainability") with (@inr exn Q 0.15).
  cbn [bind].
  eexists. exists c. split; [reflexivity |].
  cbn [EcoScorer.cost_inr EcoScorer.co2_kg EcoScorer.components
       EcoScorer.co2_score EcoScorer.cost_score EcoScorer.time_score
       EcoScorer.mode_score EcoScorer.health_score EcoScorer.congestion_score
       EcoScorer.category EcoScorer.color EcoScorer.score].
  repeat split; try reflexivity; assumption.
Qed.

(** C2: for every mode and all distance_km >= 0 and duration_min >= 0,
    [calculate_eco_score] returns; the components of its result are the
    scores that [_calculate_co2_score], [_calculate_cost_score],
    [_calculate_time_score], [_calculate_mode_score],
    [_calculate_health_score] and [_calculate_congestion_score] give on the
    emissions and the cost of the two calculators for this mode, distance and
    duration (the mode score being 30 for car, 90 for metro, 70 for bus and
    100 for bike and walk); its score is the weighted combination of these
    six (0.40, 0.25, 0.20, 0.15, plus a tenth of the health score for bike
    and walk only, minus a twentieth of the congestion score) clamped to
    [0, 100], and so lies in [0, 100]. *)
Theorem eco_score_weighted_and_clamped (m : TransportMode) (d t : Q) :
  0 <= d -> 0 <= t ->
  exists r cost_data co2_score cost_score time_score mode_score,
    @EcoScorer.calculate_eco_score unit EcoScorer.init m d t None = inr r
    /\ CostCalculator.calculate_cost m d t None = inr cost_data
    /\ EcoScorer._calculate_co2_score
         (EmissionCalculator.co2_kg
            (EmissionCalculator.calculate_co2_emissions
               EmissionCalculator.init m d None)) d = inr co2_score
    /\ EcoScorer._calculate_cost_score
         (CostCalculator.total_cost cost_data) d = inr cost_score
    /\ EcoScorer._calculate_time_score t d = inr time_score
    /\ EcoScorer._calculate_mode_score EcoScorer.init m = inr mode_score
    /\ mode_score == match m with
                     | CAR => 30
                     | METRO => 90
                     | BUS => 70
                     | BIKE | WALK => 100
                     end
    /\ EcoScorer.components r
       = {| EcoScorer.co2_score := co2_score;
            EcoScorer.cost_score := cost_score;
            EcoScorer.time_score := time_score;
            EcoScorer.mode_score := mode_score;
            EcoScorer.health_score := EcoScorer._calculate_health_score m d;
            EcoScorer.congestion_score :=
              EcoScorer._calculate_congestion_score m t |}
    /\ EcoScorer.score r
       == Spec.clamp
            (Spec.weighted m
               {| EcoScorer.co2_score := co2_score;
                  EcoScorer.cost_score := cost_score;
                  EcoScorer.time_score := time_score;
                  EcoScorer.mode_score := mode_score;
                  EcoScorer.health_score :=
                    EcoScorer._calculate_health_score m d;
                  EcoScorer.congestion_score :=
                    EcoScorer._calculate_congestion_score m t |})
    /\ EcoScorer.score r
       == Spec.clamp (Spec.weighted m (EcoScorer.components r))
    /\ 0 <= EcoScorer.score r <= 100.
Proof.
  intros _ _.
  destruct (calculate_eco_score_shape m d t)
    as [r [c [Hr [Hc [Hcost [Hco2 [H1 [H2 [H3 [H4 [H5 [H6 [_ [_ Hs]]]]]]]]]]]]]].
  rewrite Hco2 in H1. rewrite Hcost in H2.
  assert (Hk : EcoScorer.components r
               = {| EcoScorer.co2_score :=
                      EcoScorer.co2_score (EcoScorer.components r);
                    EcoScorer.cost_score :=
                      EcoScorer.cost_score (EcoScorer.components r);
                    EcoScorer.time_score :=
                      EcoScorer.time_score (EcoScorer.components r);
                    EcoScorer.mode_score :=
                      EcoScorer.mode_score (EcoScorer.components r);
                    EcoScorer.health_score :=
                      EcoScorer._calculate_health_score m d;
                    EcoScorer.congestion_score :=
                      EcoScorer._calculate_congestion_score m t |}).
  { rewrite <- H5, <- H6. destruct (EcoScorer.components r); reflexivity. }
  assert (Hw : EcoScorer.score r
               == Spec.clamp (Spec.weighted m (EcoScorer.components r))).
  { rewrite Hs. unfold Spec.clamp, Spec.weighted.
    rewrite max_Qmax, min_Qmin. cbv zeta.
    apply Q.max_compat; [reflexivity |].
    apply Q.min_compat; [reflexivity |].
    destruct m; cbn [EmissionCalculator.is_active mode_eqb orb]; lra. }
  exists r, c, (EcoScorer.co2_score (EcoScorer.components r)),
    (EcoScorer.cost_score (EcoScorer.components r)),
    (EcoScorer.time_score (EcoScorer.components r)),
    (EcoScorer.mode_score (EcoScorer.components r)).
  split; [exact Hr |]. split; [exact Hc |]. split; [exact H1 |].
  split; [exact H2 |]. split; [exact H3 |].
  split; [rewrite H4; destruct m; reflexivity |].
  split; [rewrite H4; destruct m; reflexivity |].
  split; [exact Hk |].
  split; [rewrite <- Hk; exact Hw |].
  split; [exact Hw |].
  rewrite Hs. apply clamp_bounds.
Qed.

Lemma eco_score_weighted_and_clamped_witness :
  (0 <= 10 /\ 0 <= 30)
  /\ exists r,
       @EcoScorer.calculate_eco_score unit EcoScorer.init CAR 10 30 None
       = inr r
       /\ EcoScorer.components r
          = {| EcoScorer.co2_score := 10;
               EcoScorer.cost_score := 30;
               EcoScorer.time_score := 80;
               EcoScorer.mode_score := 0.3 * 100;
               EcoScorer.health_score := 0;
               EcoScorer.congestion_score := min 100 (30 * 0.5) |}
       /\ EcoScorer.score r == 31.25
       /\ 0 <= EcoScorer.score r <= 100.
Proof.
  split; [split; lra |].
  destruct (eco_score_weighted_and_clamped CAR 10 30)
    as [r [c [s1 [s2 [s3 [s4
         [Hr [Hc [H1 [H2 [H3 [H4 [_ [Hk [Hs [_ Hb]]]]]]]]]]]]]]]];
    [lra | lra |].
  injection Hc as <-.
  injection H1 as <-. injection H2 as <-. injection H3 as <-.
  injection H4 as <-.
  exists r. split; [exact Hr |].
  split; [exact Hk |].
  split; [rewrite Hs; reflexivity | exact Hb].
Defined.

(** ** The two metro emission models *)

(** Rounding to the nearest integer moves a number by at most one half. *)
Lemma round_half_even_close (x : Q) :
  x - (1 # 2) <= inject_Z (round_half_even x) <= x + (1 # 2).
Proof.
  unfold round_half_even.
  pose proof (Qfloor_le x) as Hlo. pose proof (Qlt_floor x) as Hhi.
  rewrite inject_Z_plus in Hhi. change (inject_Z 1) with 1 in Hhi.
  set (f := Qfloor x) in *.
  destruct (ltb (x - inject_Z f) (1 # 2)) eqn:E1.
  - apply ltb_true in E1. lra.
  - apply ltb_false in E1.
    destruct (gtb (x - inject_Z f) (1 # 2)) eqn:E2.
    + rewrite inject_Z_plus. change (inject_Z 1) with 1. lra.
    + apply gtb_false in E2.
      destruct (Z.even f).
      * lra.
      * rewrite inject_Z_plus. change (inject_Z 1) with 1. lra.
Qed.

Lemma round_3_close (x : Q) :
  x * 1000 - (1 # 2) <= round x 3 * 1000 <= x * 1000 + (1 # 2).
Proof.
  unfold round. change (inject_Z (10 ^ Z.of_nat 3)) with 1000.
  pose proof (round_half_even_close (x * 1000)) as H.
  set (n := inject_Z (round_half_even (x * 1000))) in *.
  qarith.
Qed.

(** A rounded value that is a whole number of thousandths: its thousandfold
    is an integer. *)
Lemma round_3_integer (x : Q) :
  exists n : Z, round x 3 * 1000 == inject_Z n.
Proof.
  exists (round_half_even (x * 1000)).
  unfold round. change (inject_Z (10 ^ Z.of_nat 3)) with 1000.
  set (n := inject_Z (round_half_even (x * 1000))). qarith.
Qed.

(** C7: for every distance_km > 0 the metro emissions of the application's
    metric path (the flat 0.035 kg/km of its settings) differ from those of
    [EmissionCalculator] (0.15 kWh/km times 0.82 kg/kWh), both before the
    metric path rounds its value and after. *)
Theorem metro_emission_paths_differ (d s : Q) (priority : string) :
  0 < d ->
  let calculator :=
    EmissionCalculator.co2_kg
      (EmissionCalculator.calculate_co2_emissions EmissionCalculator.init
         METRO d None) in
  exists cfg metrics,
    App.mode_config_of "metro" = inr cfg
    /\ App.co2_per_km cfg = 0.035
    /\ App._calculate_metrics
         {| App.total_distance_m := d * 1000; App.total_duration_s := s |}
         "metro" priority = inr metrics
    /\ ~ App.metrics_co2 cfg d == calculator
    /\ ~ App.m_co2_emissions_kg metrics == calculator.
Proof.
  intros Hd calculator.
  eexists. eexists.
  split; [reflexivity |]. split; [reflexivity |]. split; [reflexivity |].
  subst calculator.
  cbn [EmissionCalculator.calculate_co2_emissions
       EmissionCalculator._calculate_metro_emissions
       EmissionCalculator.co2_kg EmissionCalculator.init
       EmissionCalculator.factors EmissionCalculator.electricity
       EmissionCalculator.default_factors
       App.m_co2_emissions_kg App.total_distance_m].
  unfold App.metrics_co2.
  change (App.co2_per_km (get App.TRANSPORT_MODES "metro" App.car_config))
    with 0.035.
  split.
  - lra.
  - set (x := d * 1000 / 1000 * 0.035).
    assert (Hx : x == d * 0.035) by (subst x; qarith).
    pose proof (round_3_close x) as [Hlo Hhi].
    destruct (round_3_integer x) as [n Hn].
    intro Heq.
    rewrite Hn in Hlo, Hhi.
    assert (Hn' : inject_Z n == d * 123) by (rewrite <- Hn, Heq; lra).
    assert (Hlt : (n < 1)%Z).
    { rewrite Zlt_Qlt. change (inject_Z 1) with 1. lra. }
    assert (Hgt : (-1 < n)%Z).
    { rewrite Zlt_Qlt. change (inject_Z (-1)) with (-1). lra. }
    assert (n = 0%Z) by lia. subst n.
    change (inject_Z 0) with 0 in Hn'. lra.
Qed.

Lemma metro_emission_paths_differ_witness :
  0 < 10
  /\ ~ App.metrics_co2
         {| App.name := "Metro"; App.color := "#800080"; App.speed_kmh := 35;
            App.cost_per_km := 2; App.co2_per_km := 0.035 |} 10
       == EmissionCalculator.co2_kg
            (EmissionCalculator.calculate_co2_emissions
               EmissionCalculator.init METRO 10 None).
Proof.
  split; [lra |].
  destruct (metro_emission_paths_differ 10 1200 "balanced")
    as [cfg [metrics [Hcfg [_ [_ [Hne _]]]]]]; [lra |].
  injection Hcfg as <-. exact Hne.
Defined.

(** ** The practicality filter *)

Section Filter.

Import RouteProcessor.

Variable py_float : string -> option Q.

Lemma dict_set_in {V} (d : list (string * V)) (k : string) (v : V)
    (kv : string * V) :
  In kv (dict_set d k v) -> In kv d \/ kv = (k, v).
Proof.
  induction d as [| [k' v'] d IH]; simpl.
  - intros [H | []]. right. symmetry. exact H.
  - destruct (String.eqb k' k) eqn:E.
    + apply String.eqb_eq in E. subst k'.
      intros [H | H]; [right; symmetry; exact H | left; right; exact H].
    + intros [H | H]; [left; left; exact H |].
      destruct (IH H) as [H' | H']; [left; right; exact H' | right; exact H'].
Qed.

Lemma dict_of_pairs_in {V} (l : list (string * V)) (kv : string * V) :
  In kv (dict_of_pairs l) -> In kv l.
Proof.
  unfold dict_of_pairs.
  assert (G : forall acc, In kv (fold_left
                (fun d p => dict_set d (fst p) (snd p)) l acc) ->
              In kv acc \/ In kv l).
  { induction l as [| [k v] l IH]; simpl; intros acc H.
    - left. exact H.
    - destruct (IH _ H) as [H' | H'].
      + destruct (dict_set_in _ _ _ _ H') as [H'' | H''].
        * left. exact H''.
        * right. left. symmetry. exact H''.
      + right. right. exact H'. }
  intro H. destruct (G [] H) as [[] | H']. exact H'.
Qed.

Lemma insert_by_key_in {A} (k : Q) (a : A) (l : list (Q * A))
    (p : Q * A) :
  In p (insert_by_key k a l) <-> p = (k, a) \/ In p l.
Proof.
  induction l as [| [k' a'] l IH]; simpl.
  - intuition congruence.
  - destruct (ltb k k'); simpl; [intuition congruence |].
    rewrite IH. intuition congruence.
Qed.

Lemma sort_keyed_in {A} (l : list (Q * A)) (p : Q * A) :
  In p (sort_keyed l) <-> In p l.
Proof.
  unfold sort_keyed.
  assert (G : forall acc,
            In p (fold_left
                    (fun acc ka => insert_by_key (fst ka) (snd ka) acc) l acc)
            <-> In p acc \/ In p l).
  { induction l as [| [k a] l IH]; simpl; intro acc.
    - intuition.
    - rewrite IH, insert_by_key_in. simpl. intuition congruence. }
  rewrite G. simpl. intuition.
Qed.

Lemma mapM_keyed_in {A} (f : A -> py Q) (l : list A)
    (keyed : list (Q * A)) (p : Q * A) :
  mapM (fun a => k <- f a ;; ret (k, a)) l = inr keyed ->
  In p keyed -> In (snd p) l /\ f (snd p) = inr (fst p).
Proof.
  revert keyed. induction l as [| a l IH]; simpl; intros keyed H Hin.
  - injection H as <-. destruct Hin.
  - destruct (f a) as [e | k] eqn:Ef; [discriminate H |]. simpl in H.
    destruct (mapM _ l) as [e | ks] eqn:El; [discriminate H |]. simpl in H.
    injection H as <-. destruct Hin as [<- | Hin].
    + simpl. split; [left; reflexivity | exact Ef].
    + destruct (IH ks eq_refl Hin) as [H1 H2]. split; [right |]; assumption.
Qed.

Lemma sort_by_in {A} (f : A -> py Q) (l l' : list A) (a : A) :
  sort_by f l = inr l' -> In a l' -> In a l.
Proof.
  unfold sort_by. intros H Hin.
  destruct (mapM _ l) as [e | keyed] eqn:El; [discriminate H |].
  simpl in H. injection H as <-.
  apply in_map_iff in Hin. destruct Hin as [p [<- Hp]].
  apply (proj1 (sort_keyed_in keyed p)) in Hp.
  apply (mapM_keyed_in f l keyed p El Hp).
Qed.

Lemma practical_in (routes_dict : list (string * option route))
    (c : criteria) (mode : string) (r : route) :
  In (mode, r) (practical py_float routes_dict c) ->
  In (mode, Some r) routes_dict /\ _is_practical_route py_float r c = true.
Proof.
  unfold practical. rewrite in_flat_map.
  intros [[k [r' |]] [Hin H]]; cbn [snd fst] in H; [| destruct H].
  destruct (truthy_route (Some r') && _is_practical_route py_float r' c)
    eqn:E; [| destruct H].
  destruct H as [H | []]. injection H as -> ->.
  apply andb_true_iff in E. split; [exact Hin | apply E].
Qed.

(** A bus route passes [_is_practical_route] under a configuration that
    gives metro the priority only with a duration under 30 minutes. *)
Lemma practical_bus_is_short (r : route) (c : criteria) :
  min_metro_priority c = true ->
  actual_mode r = Some "bus" ->
  _is_practical_route py_float r c = true ->
  exists d, duration_min r = Some d /\ d < 30.
Proof.
  intros Hp Hm. unfold _is_practical_route. rewrite Hp, Hm.
  destruct (gtb _ (max_walk_distance c)); [discriminate |].
  destruct (mode_in (Some "bus") ["metro"; "bus"]
            && (max_transfers c <? _count_transfers r)%Z);
    [discriminate |].
  cbn [andb opt_str_eqb]. rewrite String.eqb_refl.
  destruct (duration_min r) as [d |].
  - intro H. apply ltb_true in H. exists d. split; [reflexivity | exact H].
  - intro H. apply ltb_true in H. exfalso. lra.
Qed.

End Filter.

(** C5: under fastest, greenest and balanced, a route whose actual mode is
    bus is among the routes [get_practical_routes] returns only if it has a
    duration and that duration is under 30 minutes; a bus route of 45 minutes
    fails [_is_practical_route] under fastest whatever its segments are, and
    the sample ride (0.5 km of walking, no transfer) is left out. *)
Theorem bus_route_retained_only_if_short (py_float : string -> option Q) :
  (forall routes_dict preference out mode r,
     In preference ["fastest"; "greenest"; "balanced"] ->
     RouteProcessor.get_practical_routes py_float routes_dict preference
     = inr out ->
     In (mode, r) out ->
     RouteProcessor.actual_mode r = Some "bus" ->
     exists d, RouteProcessor.duration_min r = Some d /\ d < 30)
  /\ (forall r,
        RouteProcessor.actual_mode r = Some "bus" ->
        RouteProcessor.duration_min r = Some 45 ->
        RouteProcessor._is_practical_route py_float r
          RouteProcessor.fastest_criteria = false
        /\ forall key,
             RouteProcessor.get_practical_routes py_float [(key, Some r)]
               "fastest" = inr [])
  /\ (RouteProcessor.walk_distance Samples.sample_float
        [ {| RouteProcessor.seg_mode := Some "walk";
             RouteProcessor.seg_distance := Some "0.3 km" |};
          {| RouteProcessor.seg_mode := Some "bus";
             RouteProcessor.seg_distance := Some "11.0 km" |};
          {| RouteProcessor.seg_mode := Some "walk";
             RouteProcessor.seg_distance := Some "0.2 km" |} ] == 0.5
      /\ RouteProcessor._count_transfers Samples.bus_route_45 = 0%Z
      /\ RouteProcessor.get_practical_routes Samples.sample_float
           [("bus", Some Samples.bus_route_45)] "fastest" = inr []).
Proof.
  split; [| split].
  - intros routes_dict preference out mode r Hpref Hout Hin Hbus.
    unfold RouteProcessor.get_practical_routes in Hout.
    destruct (RouteProcessor.sort_by _ _) as [e | sorted] eqn:Es;
      [discriminate Hout |].
    cbn [bind] in Hout. injection Hout as <-.
    apply dict_of_pairs_in in Hin.
    apply (sort_by_in _ _ _ _ Es) in Hin.
    apply practical_in in Hin. destruct Hin as [_ Hp].
    apply (practical_bus_is_short py_float r _) in Hp;
      [exact Hp | | exact Hbus].
    destruct Hpref as [<- | [<- | [<- | []]]]; reflexivity.
  - intros r Hbus Hdur.
    assert (Hnot : RouteProcessor._is_practical_route py_float r
                     RouteProcessor.fastest_criteria = false).
    { unfold RouteProcessor._is_practical_route. rewrite Hbus, Hdur.
      destruct (gtb _ _); [reflexivity |].
      destruct (_ && _); reflexivity. }
    split; [exact Hnot |].
    intro key. unfold RouteProcessor.get_practical_routes.
    change (get RouteProcessor.criteria_table "fastest"
              RouteProcessor.balanced_criteria)
      with RouteProcessor.fastest_criteria.
    unfold RouteProcessor.practical. cbn [flat_map snd fst].
    rewrite Hnot, andb_false_r. reflexivity.
  - split; [reflexivity | split; reflexivity].
Qed.

Lemma bus_route_retained_only_if_short_witness :
  exists d, RouteProcessor.duration_min Samples.bus_route_20 = Some d
            /\ d < 30.
Proof.
  apply (proj1 (bus_route_retained_only_if_short Samples.sample_float)
           [("car", Some Samples.car_route);
            ("bus", Some Samples.bus_route_20)]
           "fastest"
           [("bus", Samples.bus_route_20); ("car", Samples.car_route)]
           "bus" Samples.bus_route_20).
  - simpl. auto.
  - reflexivity.
  - simpl. auto.
  - reflexivity.
Defined.

(** ** The order of the routes returned *)

Lemma insert_by_key_sorted {A} (k : Q) (a : A) (l : list (Q * A)) :
  StronglySorted RouteProcessor.key_le l ->
  StronglySorted RouteProcessor.key_le (RouteProcessor.insert_by_key k a l).
Proof.
  induction 1 as [| [k' a'] l Hs IH Hall]; simpl.
  - constructor; constructor.
  - destruct (ltb k k') eqn:E.
    + apply ltb_true in E. constructor.
      * constructor; assumption.
      * constructor; [unfold RouteProcessor.key_le; simpl; lra |].
        eapply Forall_impl; [| exact Hall].
        intros [k2 a2]; unfold RouteProcessor.key_le; simpl; lra.
    + apply ltb_false in E. constructor; [exact IH |].
      apply Forall_forall. intros p Hp.
      apply insert_by_key_in in Hp. destruct Hp as [-> | Hp].
      * exact E.
      * rewrite Forall_forall in Hall. apply Hall. exact Hp.
Qed.

Lemma sort_keyed_sorted {A} (l : list (Q * A)) :
  StronglySorted RouteProcessor.key_le (RouteProcessor.sort_keyed l).
Proof.
  unfold RouteProcessor.sort_keyed.
  assert (G : forall acc, StronglySorted RouteProcessor.key_le acc ->
            StronglySorted RouteProcessor.key_le
              (fold_left
                 (fun acc ka =>
                    RouteProcessor.insert_by_key (fst ka) (snd ka) acc)
                 l acc)).
  { induction l as [| p l IH]; simpl; intros acc Hacc; [exact Hacc |].
    apply IH. apply insert_by_key_sorted. exact Hacc. }
  apply G. constructor.
Qed.

(** Whatever the key, [sort_by] returns the elements in ascending order of
    their keys: the balance scores of the routes returned under "balanced"
    go from the lowest to the highest. *)
Lemma sort_by_ascending {A} (f : A -> py Q) (l l' : list A) :
  RouteProcessor.sort_by f l = inr l' ->
  exists keyed,
    map snd keyed = l'
    /\ StronglySorted RouteProcessor.key_le keyed
    /\ Forall (fun p => f (snd p) = inr (fst p)) keyed.
Proof.
  unfold RouteProcessor.sort_by. intro H.
  destruct (mapM _ l) as [e | keyed] eqn:El; [discriminate H |].
  cbn [bind] in H. injection H as <-.
  exists (RouteProcessor.sort_keyed keyed).
  split; [reflexivity |]. split; [apply sort_keyed_sorted |].
  apply Forall_forall. intros p Hp.
  apply (proj1 (sort_keyed_in keyed p)) in Hp.
  apply (mapM_keyed_in f l keyed p El Hp).
Qed.

(** C4 fails on the code: under "balanced" the routes are sorted by ascending
    balance score.  Given the walking route (balance score above 2) before
    the car route (balance score below 1), the car route comes back
    first. *)
Theorem balanced_returns_lowest_score_first :
  RouteProcessor.get_practical_routes Samples.no_float
    [("walking", Some Samples.walking_route); ("car", Some Samples.car_route)]
    "balanced"
  = inr [("car", Samples.car_route); ("walking", Samples.walking_route)]
  /\ exists b_car b_walking,
       RouteProcessor._calculate_balance_score Samples.car_route = inr b_car
       /\ RouteProcessor._calculate_balance_score Samples.walking_route
          = inr b_walking
       /\ b_car < 1 /\ 2 < b_walking.
Proof.
  split; [reflexivity |].
  eexists. eexists. split; [reflexivity |]. split; [reflexivity |].
  split; reflexivity.
Qed.

(** ** The route service of api/route_service.py *)

Section Service.

Import Provider.

Variable polyline_decode : string -> py (list coords).
Variable central_angle : coords -> coords -> Q.
Variable repr_coords : coords -> string.

(** The speed table of [_create_basic_route] names two members the
    enumeration does not have: building it raises. *)
Lemma speed_table_raises :
  RouteService.mode_table
    [("CAR", 40); ("METRO", 30); ("BUS", 20); ("WALKING", 5); ("BICYCLE", 15)]
  = inl AttributeError.
Proof. reflexivity. Qed.

Lemma create_basic_route_raises (self : RouteService.t) (s e : coords)
    (m : TransportMode) :
  RouteService._create_basic_route central_angle repr_coords self s e m
  = inl AttributeError.
Proof.
  unfold RouteService._create_basic_route. rewrite speed_table_raises.
  reflexivity.
Qed.

(** The call of the scorer with the keywords [cost_inr], [co2_kg] and
    [priority] raises before the body of the scorer runs. *)
Lemma calculate_route_metrics_raises (self : RouteService.t)
    (rs : RouteService.RouteSummary) (m : TransportMode)
    (p : RoutePriority) :
  RouteService._calculate_route_metrics self rs m p = inl TypeError.
Proof.
  unfold RouteService._calculate_route_metrics.
  destruct (calculate_cost_returns m
              (RouteService.rs_total_distance_meters rs / 1000)
              (RouteService.rs_total_duration_seconds rs / 60) None)
    as [c ->].
  reflexivity.
Qed.

(** [calculate_route] never raises: its handler turns every exception into
    [None]. *)
Lemma calculate_route_never_raises (self : RouteService.t) (s e : coords)
    (mode : string) (p : RoutePriority) :
  exists r,
    RouteService.calculate_route polyline_decode central_angle repr_coords
      self s e mode p = inr r.
Proof.
  unfold RouteService.calculate_route.
  destruct (RouteService.calculate_route_body _ _ _ _ _ _ _ _) as [x | r];
    eexists; reflexivity.
Qed.

End Service.

(** C1 fails on api/route_service.py: the constructor raises for every key,
    since its mode mapping names [TransportMode.WALKING], and on any service
    without a client [calculate_route] returns [None] for every pair of
    coordinates, every mode and every priority, since the speed table of
    [_create_basic_route] names the same missing members. *)
Theorem route_service_fallback_returns_None
    (polyline_decode : string -> py (list Provider.coords))
    (central_angle : Provider.coords -> Provider.coords -> Q)
    (repr_coords : Provider.coords -> string) :
  (forall api_key client, exists e, RouteService.init api_key client = inl e)
  /\ (forall scorer calc mapping start_coords end_coords mode priority,
        RouteService.calculate_route polyline_decode central_angle
          repr_coords
          {| RouteService.gmaps := None;
             RouteService.eco_scorer := scorer;
             RouteService.emission_calc := calc;
             RouteService.mode_mapping := mapping |}
          start_coords end_coords mode priority
        = inr None).
Proof.
  split.
  - intros api_key client. unfold RouteService.init.
    destruct api_key as [k |]; [| eexists; reflexivity].
    destruct (String.eqb k EmptyString); [eexists; reflexivity |].
    destruct (client k) as [e | c]; eexists; reflexivity.
  - intros scorer calc mapping s e mode priority.
    unfold RouteService.calculate_route, RouteService.calculate_route_body.
    destruct (TransportMode_of_value mode) as [x | tm]; [reflexivity |].
    cbn [bind RouteService.gmaps].
    rewrite create_basic_route_raises. reflexivity.
Qed.

(** The service of app.py does what C1 says: without a client,
    [calculate_route] returns, for every mode string and all coordinates at
    which the Haversine arithmetic returns an angle, a route that is not
    realistic and carries the estimated-route warning. *)
Lemma app_fallback_returns_estimate
    (central_angle : Provider.coords -> Provider.coords -> py Q)
    (start_coords end_coords : Provider.coords) (mode priority : string)
    (c : Q) :
  central_angle start_coords end_coords = inr c ->
  exists r,
    App.calculate_route_without_client central_angle start_coords end_coords
      mode priority = inr (Some r)
    /\ App.r_is_realistic r = false
    /\ App.r_warnings r
       = ["Using estimated route (Google Maps API not available)"].
Proof.
  intro Hangle.
  unfold App.calculate_route_without_client, App._create_basic_route.
  rewrite Hangle. cbn [bind].
  assert (Hcfg : exists cfg, App.mode_config_of mode = inr cfg
                             /\ ~ App.speed_kmh cfg == 0).
  { unfold App.mode_config_of. cbn [getitem App.TRANSPORT_MODES].
    change (String.eqb "car" "car") with true. cbn [bind ret].
    eexists. split; [reflexivity |].
    unfold App.TRANSPORT_MODES. cbn [get].
    repeat match goal with
    | |- context [String.eqb ?a mode] => destruct (String.eqb a mode)
    end; cbn; discriminate. }
  destruct Hcfg as [cfg [-> Hs]]. cbn [bind].
  rewrite (truediv_nonzero _ _ Hs). cbn [bind ret].
  eexists. split; [reflexivity |]. split; reflexivity.
Qed.

(** C10: in api/route_service.py, [_calculate_route_metrics] raises
    [TypeError] for every route summary, mode and priority; so with a client
    configured [calculate_route] returns [None] for every input, and when the
    mode is a member, the provider answers with at least one route and that
    route has a leg, the exception behind the [None] is that [TypeError]. *)
Theorem provider_path_returns_None
    (polyline_decode : string -> py (list Provider.coords))
    (central_angle : Provider.coords -> Provider.coords -> Q)
    (repr_coords : Provider.coords -> string) :
  (forall self summary mode priority,
     RouteService._calculate_route_metrics self summary mode priority
     = inl TypeError)
  /\ (forall client scorer calc mapping start_coords end_coords mode priority,
        RouteService.calculate_route polyline_decode central_angle
          repr_coords
          {| RouteService.gmaps := Some client;
             RouteService.eco_scorer := scorer;
             RouteService.emission_calc := calc;
             RouteService.mode_mapping := mapping |}
          start_coords end_coords mode priority
        = inr None)
  /\ (forall (client : RouteService.Client) scorer calc mapping start_coords
        end_coords mode priority tm route_data others,
        TransportMode_of_value mode = inr tm ->
        (forall google_mode transit_mode,
           client start_coords end_coords google_mode transit_mode
           = inr (route_data :: others)) ->
        Provider.legs route_data <> [] ->
        RouteService.calculate_route_body polyline_decode central_angle
          repr_coords
          {| RouteService.gmaps := Some client;
             RouteService.eco_scorer := scorer;
             RouteService.emission_calc := calc;
             RouteService.mode_mapping := mapping |}
          start_coords end_coords mode priority
        = inl TypeError).
Proof.
  split; [| split].
  - apply calculate_route_metrics_raises.
  - intros client scorer calc mapping s e mode priority.
    unfold RouteService.calculate_route, RouteService.calculate_route_body.
    destruct (TransportMode_of_value mode) as [x | tm]; [reflexivity |].
    cbn [bind RouteService.gmaps].
    destruct (client s e _ _) as [x | [| route_data others]];
      [reflexivity | reflexivity |].
    cbn [bind].
    destruct (RouteService._extract_route_info _ _ _) as [x | summary];
      [reflexivity |].
    cbn [bind]. rewrite calculate_route_metrics_raises. reflexivity.
  - intros client scorer calc mapping s e mode priority tm route_data others
      Hmode Hclient Hlegs.
    unfold RouteService.calculate_route_body.
    rewrite Hmode. cbn [bind RouteService.gmaps]. rewrite Hclient.
    cbn [bind]. unfold RouteService._extract_route_info.
    destruct (Provider.legs route_data) as [| leg legs]; [congruence |].
    cbn [bind ret]. rewrite calculate_route_metrics_raises. reflexivity.
Qed.

Lemma provider_path_returns_None_witness :
  RouteService.calculate_route_body (fun _ => inr []) (fun _ _ => 0)
    (fun _ => EmptyString)
    {| RouteService.gmaps := Some Samples.sample_client;
       RouteService.eco_scorer := EcoScorer.init;
       RouteService.emission_calc := EmissionCalculator.init;
       RouteService.mode_mapping := [] |}
    (12.9716, 77.5946) (12.9784, 77.6408) "metro" BALANCED
  = inl TypeError.
Proof.
  apply (proj2 (proj2 (provider_path_returns_None (fun _ => inr [])
                         (fun _ _ => 0) (fun _ => EmptyString)))
           Samples.sample_client EcoScorer.init EmissionCalculator.init []
           (12.9716, 77.5946) (12.9784, 77.6408) "metro" BALANCED METRO
           Samples.one_route []).
  - reflexivity.
  - intros google_mode transit_mode. reflexivity.
  - discriminate.
Defined.

(** * Further properties of the code *)

(** ** utils/constants.py: members and values *)

(** X1: [TransportMode(m.value)] gives back [m]; [TransportMode(s)] returns
    exactly on the five values, with a member whose value is [s], and raises
    [ValueError] on every other string. *)
Theorem transport_mode_value_roundtrip :
  (forall m, TransportMode_of_value (value m) = inr m)
  /\ (forall s,
        match TransportMode_of_value s with
        | inr m => value m = s
        | inl e => e = ValueError /\ forall m, value m <> s
        end).
Proof.
  split.
  - intros []; reflexivity.
  - intro s. unfold TransportMode_of_value.
    repeat match goal with
    | |- context [String.eqb s ?lit] =>
        let E := fresh "E" in
        destruct (String.eqb s lit) eqn:E;
        [apply String.eqb_eq in E; subst s; reflexivity
        | apply String.eqb_neq in E]
    end.
    split; [reflexivity |]. intros []; simpl; congruence.
Qed.

(** ** calculators/emission_calculator.py *)

Lemma car_emissions_rate (vt : option string) (d : Q) :
  let e := EmissionCalculator._calculate_car_emissions
             EmissionCalculator.init d vt in
  EmissionCalculator.co2_kg e == EmissionCalculator.co2_per_km e * d
  /\ 0 < EmissionCalculator.co2_per_km e.
Proof.
  unfold EmissionCalculator._calculate_car_emissions.
  repeat match goal with
  | |- context [EmissionCalculator.vehicle_is ?v ?s] =>
      destruct (EmissionCalculator.vehicle_is v s)
  end; cbn; split; qarith.
Qed.

(** X2: for every mode and vehicle type the per-km rate returned is
    positive and is the same at every distance; the emissions of a distance
    >= 0 are >= 0, and those of the distance 0 are 0. *)
Theorem co2_emissions_never_negative (m : TransportMode) (vt : option string)
    (d : Q) :
  0 <= d ->
  let co2 x :=
    EmissionCalculator.calculate_co2_emissions EmissionCalculator.init m x
      vt in
  0 <= EmissionCalculator.co2_kg (co2 d)
  /\ EmissionCalculator.co2_kg (co2 0) == 0
  /\ 0 < EmissionCalculator.co2_per_km (co2 d)
  /\ forall d',
       EmissionCalculator.co2_per_km (co2 d')
       = EmissionCalculator.co2_per_km (co2 d).
Proof.
  intros Hd co2.
  assert (H : forall x,
            EmissionCalculator.co2_kg (co2 x)
            == EmissionCalculator.co2_per_km (co2 x) * x
            /\ 0 < EmissionCalculator.co2_per_km (co2 x)).
  { intro x. subst co2.
    destruct m; cbn [EmissionCalculator.calculate_co2_emissions];
      [apply car_emissions_rate | | | |]; cbn; split; qarith. }
  split; [| split; [| split]].
  - destruct (H d) as [H1 H2]. rewrite H1.
    apply Qmult_le_0_compat; [apply Qlt_le_weak; exact H2 | exact Hd].
  - destruct (H 0) as [H1 _]. rewrite H1. ring.
  - apply H.
  - intro d'. subst co2.
    destruct m; cbn [EmissionCalculator.calculate_co2_emissions];
      try reflexivity.
    unfold EmissionCalculator._calculate_car_emissions.
    repeat match goal with
    | |- context [EmissionCalculator.vehicle_is ?v ?s] =>
        destruct (EmissionCalculator.vehicle_is v s)
    end; reflexivity.
Qed.

Lemma co2_emissions_never_negative_witness :
  0 <= 12
  /\ 0 <= EmissionCalculator.co2_kg
            (EmissionCalculator.calculate_co2_emissions
               EmissionCalculator.init BUS 12 None).
Proof.
  split; [lra |].
  apply (co2_emissions_never_negative BUS None 12). lra.
Defined.

(** X3: at every distance > 0 the modes are ordered by their emissions as
    bus < bike < walk < metro < car (petrol), and an electric car emits
    exactly what the metro does. *)
Theorem emission_order_of_modes (d : Q) :
  0 < d ->
  let co2 m vt :=
    EmissionCalculator.co2_kg
      (EmissionCalculator.calculate_co2_emissions EmissionCalculator.init m d
         vt) in
  co2 BUS None < co2 BIKE None
  /\ co2 BIKE None < co2 WALK None
  /\ co2 WALK None < co2 METRO None
  /\ co2 METRO None < co2 CAR None
  /\ co2 CAR (Some "electric") == co2 METRO None.
Proof.
  intros Hd co2. subst co2. cbn. repeat split; qarith.
Qed.

Lemma emission_order_of_modes_witness :
  0 < 7
  /\ EmissionCalculator.co2_kg
       (EmissionCalculator.calculate_co2_emissions EmissionCalculator.init
          BUS 7 None)
     < EmissionCalculator.co2_kg
         (EmissionCalculator.calculate_co2_emissions EmissionCalculator.init
            BIKE 7 None).
Proof.
  split; [lra |].
  apply (emission_order_of_modes 7). lra.
Defined.

(** X4: a vehicle type other than diesel, cng, electric and hybrid gets the
    petrol figures, tagged with the name given; at every distance > 0 the
    car types are ordered hybrid < electric < cng < diesel < petrol. *)
Theorem car_vehicle_types (d : Q) (s : string) :
  0 < d ->
  ~ In s ["diesel"; "cng"; "electric"; "hybrid"; EmptyString] ->
  let car vt :=
    EmissionCalculator._calculate_car_emissions EmissionCalculator.init d vt in
  EmissionCalculator.co2_kg (car (Some s))
  = EmissionCalculator.co2_kg (car None)
  /\ EmissionCalculator.method (car (Some s)) = s
  /\ EmissionCalculator.method (car None) = "petrol"
  /\ EmissionCalculator.co2_kg (car (Some "hybrid"))
     < EmissionCalculator.co2_kg (car (Some "electric"))
  /\ EmissionCalculator.co2_kg (car (Some "electric"))
     < EmissionCalculator.co2_kg (car (Some "cng"))
  /\ EmissionCalculator.co2_kg (car (Some "cng"))
     < EmissionCalculator.co2_kg (car (Some "diesel"))
  /\ EmissionCalculator.co2_kg (car (Some "diesel"))
     < EmissionCalculator.co2_kg (car None).
Proof.
  intros Hd Hs car. subst car.
  assert (Hne : forall lit,
            In lit ["diesel"; "cng"; "electric"; "hybrid"; EmptyString] ->
            String.eqb s lit = false).
  { intros lit Hin. apply String.eqb_neq. intros ->. contradiction. }
  split; [| split].
  - unfold EmissionCalculator._calculate_car_emissions,
      EmissionCalculator.vehicle_is.
    cbn [opt_str_eqb].
    rewrite (Hne "diesel"), (Hne "cng"), (Hne "electric"), (Hne "hybrid")
      by (simpl; auto 6).
    reflexivity.
  - unfold EmissionCalculator._calculate_car_emissions,
      EmissionCalculator.vehicle_is.
    cbn [opt_str_eqb].
    rewrite (Hne "diesel"), (Hne "cng"), (Hne "electric"), (Hne "hybrid")
      by (simpl; auto 6).
    cbn [EmissionCalculator.method].
    rewrite (Hne EmptyString) by (simpl; auto 6). reflexivity.
  - cbn. repeat split; qarith.
Qed.

Lemma car_vehicle_types_witness :
  (0 < 10
   /\ ~ In "lpg" ["diesel"; "cng"; "electric"; "hybrid"; EmptyString])
  /\ EmissionCalculator.method
       (EmissionCalculator._calculate_car_emissions EmissionCalculator.init
          10 (Some "lpg")) = "lpg".
Proof.
  assert (H : ~ In "lpg" ["diesel"; "cng"; "electric"; "hybrid"; EmptyString]).
  { simpl. intros [H | [H | [H | [H | [H | []]]]]]; discriminate H. }
  split; [split; [lra | exact H] |].
  apply (car_vehicle_types 10 "lpg"); [lra | exact H].
Defined.

(** ** calculators/cost_calculator.py *)

(** X6: for distance >= 0 and duration >= 0 the total cost is never
    negative; the metro fare lies between 10 and 60, the bus fare between 15
    and 45, and a car trip costs at least 20 (an hour of parking). *)
Theorem total_cost_bounds (m : TransportMode) (d t : Q)
    (tod : option string) :
  0 <= d -> 0 <= t ->
  exists c,
    CostCalculator.calculate_cost m d t tod = inr c
    /\ 0 <= CostCalculator.total_cost c
    /\ match m with
       | METRO => 10 <= CostCalculator.total_cost c <= 60
       | BUS => 15 <= CostCalculator.total_cost c <= 45
       | CAR => 20 <= CostCalculator.total_cost c
       | _ => True
       end.
Proof.
  intros Hd Ht.
  destruct m; unfold CostCalculator.calculate_cost,
    CostCalculator._calculate_car_cost, CostCalculator._calculate_metro_cost,
    CostCalculator._calculate_bus_cost, CostCalculator._calculate_bike_cost,
    CostCalculator._calculate_walk_cost;
  try rewrite per_km_total; eexists; (split; [reflexivity |]);
  cbn [CostCalculator.total_cost].
  - pose proof (parking_at_least_one_hour t tod) as Hp.
    assert (Htoll : 0 <= CostCalculator._estimate_toll_charges d).
    { unfold CostCalculator._estimate_toll_charges. cmp_cases; lra. }
    generalize dependent (CostCalculator._estimate_parking_cost t tod).
    generalize dependent (CostCalculator._estimate_toll_charges d).
    intros toll Htoll p Hp. split; qarith.
  - unfold Settings.METRO_BASE_FARE, Settings.METRO_PER_KM_FARE, min.
    cmp_cases; repeat split; lra.
  - cmp_cases; repeat split; lra.
  - unfold min. cmp_cases; split; trivial; lra.
  - split; [lra | trivial].
Qed.

Lemma total_cost_bounds_witness :
  (0 <= 30 /\ 0 <= 50)
  /\ exists c,
       CostCalculator.calculate_cost METRO 30 50 None = inr c
       /\ 0 <= CostCalculator.total_cost c.
Proof.
  split; [split; lra |].
  destruct (total_cost_bounds METRO 30 50 None) as [c [H [Hc _]]];
    [lra | lra |].
  exists c. split; [exact H | exact Hc].
Defined.

(** X7: the ownership cost of a bike does not depend on the distance.  The
    variable part is computed for a duration of 0 minutes, for which the
    rental option costs nothing, so it is 0 for every monthly distance >= 0
    and the monthly cost is depreciation plus fixed costs, 2000/3. *)
Theorem bike_ownership_ignores_distance (d : Q) :
  0 <= d ->
  exists o,
    CostCalculator.get_total_cost_of_ownership BIKE d = inr o
    /\ CostCalculator.monthly_cost o == 2000 / 3
    /\ CostCalculator.annual_cost o == 8000
    /\ exists v, In ("variable_costs", v) (CostCalculator.own_breakdown o)
                 /\ v == 0.
Proof.
  intro Hd.
  unfold CostCalculator.get_total_cost_of_ownership,
    CostCalculator._get_bike_ownership_cost, CostCalculator.calculate_cost,
    CostCalculator._calculate_bike_cost.
  rewrite per_km_total. cbn [bind ret CostCalculator.total_cost].
  rewrite per_km_total. cbn [bind ret].
  eexists. split; [reflexivity |].
  cbn [CostCalculator.monthly_cost CostCalculator.annual_cost
       CostCalculator.own_breakdown].
  assert (Hv : min (d * 0.5) (0 * 1.0) == 0).
  { unfold min. cmp_cases; lra. }
  split; [| split].
  - rewrite Hv. reflexivity.
  - rewrite Hv. reflexivity.
  - eexists. split; [simpl; auto |]. exact Hv.
Qed.

Lemma bike_ownership_ignores_distance_witness :
  0 <= 500
  /\ exists o,
       CostCalculator.get_total_cost_of_ownership BIKE 500 = inr o
       /\ CostCalculator.monthly_cost o == 2000 / 3.
Proof.
  split; [lra |].
  destruct (bike_ownership_ignores_distance 500) as [o [H [Hm _]]]; [lra |].
  exists o. split; [exact H | exact Hm].
Defined.

(** ** Dicts, [max] and [min] *)

Lemma max_by_spec {A} (key : A -> Q) (rest : list A) (best : A) :
  let r := max_by key best rest in
  In r (best :: rest) /\ forall a, In a (best :: rest) -> key a <= key r.
Proof.
  revert best. induction rest as [| b rest IH]; intro best; cbn [max_by].
  - split; [left; reflexivity |]. intros a [<- | []]. lra.
  - destruct (IH (if gtb (key b) (key best) then b else best)) as [Hin Hmax].
    split.
    + destruct Hin as [Hin | Hin]; [| right; right; exact Hin].
      rewrite <- Hin. destruct (gtb (key b) (key best)); simpl; auto.
    + intros a Ha.
      assert (Hb : key b <= key (max_by key
                      (if gtb (key b) (key best) then b else best) rest)
                   /\ key best <= key (max_by key
                      (if gtb (key b) (key best) then b else best) rest)).
      { pose proof (Hmax _ (or_introl eq_refl)) as H0.
        destruct (gtb (key b) (key best)) eqn:E.
        - apply gtb_true in E. split; lra.
        - apply gtb_false in E. split; lra. }
      destruct Ha as [<- | [<- | Ha]]; [apply Hb | apply Hb |].
      apply Hmax. right. exact Ha.
Qed.

Lemma min_by_spec {A} (key : A -> Q) (rest : list A) (best : A) :
  let r := min_by key best rest in
  In r (best :: rest) /\ forall a, In a (best :: rest) -> key r <= key a.
Proof.
  revert best. induction rest as [| b rest IH]; intro best; cbn [min_by].
  - split; [left; reflexivity |]. intros a [<- | []]. lra.
  - destruct (IH (if ltb (key b) (key best) then b else best)) as [Hin Hmin].
    split.
    + destruct Hin as [Hin | Hin]; [| right; right; exact Hin].
      rewrite <- Hin. destruct (ltb (key b) (key best)); simpl; auto.
    + intros a Ha.
      assert (Hb : key (min_by key
                      (if ltb (key b) (key best) then b else best) rest)
                   <= key b
                   /\ key (min_by key
                      (if ltb (key b) (key best) then b else best) rest)
                      <= key best).
      { pose proof (Hmin _ (or_introl eq_refl)) as H0.
        destruct (ltb (key b) (key best)) eqn:E.
        - apply ltb_true in E. split; lra.
        - apply ltb_false in E. split; lra. }
      destruct Ha as [<- | [<- | Ha]]; [apply Hb | apply Hb |].
      apply Hmin. right. exact Ha.
Qed.

(** [max] returns the first of the greatest elements: everything before it
    is strictly smaller, nothing after it is greater. *)
Lemma max_by_split {A} (key : A -> Q) (rest : list A) (best : A) :
  exists before after,
    best :: rest = (before ++ max_by key best rest :: after)%list
    /\ (forall a, In a before -> key a < key (max_by key best rest))
    /\ (forall a, In a after -> key a <= key (max_by key best rest)).
Proof.
  revert best. induction rest as [| b rest IH]; intro best; cbn [max_by].
  - exists [], []. split; [reflexivity |]. split; intros a [].
  - pose proof (max_by_spec key rest
                  (if gtb (key b) (key best) then b else best)) as [_ Hmax].
    destruct (IH (if gtb (key b) (key best) then b else best))
      as [before [after [E [Hb Ha]]]].
    set (M := max_by key (if gtb (key b) (key best) then b else best) rest)
      in *.
    destruct (gtb (key b) (key best)) eqn:G.
    + apply gtb_true in G.
      exists (best :: before), after. split; [simpl; rewrite <- E; reflexivity |].
      split; [| exact Ha].
      intros a [<- | Hin]; [| apply Hb; exact Hin].
      pose proof (Hmax b (or_introl eq_refl)). lra.
    + apply gtb_false in G.
      destruct before as [| x before].
      * simpl in E. injection E as E1 E2.
        exists [], (b :: after). split; [simpl; rewrite <- E1, E2; reflexivity |].
        split; [intros a [] |].
        intros a [<- | Hin]; [rewrite <- E1; exact G | apply Ha; exact Hin].
      * simpl in E. injection E as E1 E2.
        exists (x :: b :: before), after.
        split; [simpl; rewrite <- E1, E2; reflexivity |].
        split; [| exact Ha].
        intros a [<- | [<- | Hin]].
        -- apply Hb. left. reflexivity.
        -- pose proof (Hb x (or_introl eq_refl)) as Hx. rewrite <- E1 in Hx.
           lra.
        -- apply Hb. right. exact Hin.
Qed.

Lemma min_by_split {A} (key : A -> Q) (rest : list A) (best : A) :
  exists before after,
    best :: rest = (before ++ min_by key best rest :: after)%list
    /\ (forall a, In a before -> key (min_by key best rest) < key a)
    /\ (forall a, In a after -> key (min_by key best rest) <= key a).
Proof.
  revert best. induction rest as [| b rest IH]; intro best; cbn [min_by].
  - exists [], []. split; [reflexivity |]. split; intros a [].
  - pose proof (min_by_spec key rest
                  (if ltb (key b) (key best) then b else best)) as [_ Hmin].
    destruct (IH (if ltb (key b) (key best) then b else best))
      as [before [after [E [Hb Ha]]]].
    set (M := min_by key (if ltb (key b) (key best) then b else best) rest)
      in *.
    destruct (ltb (key b) (key best)) eqn:G.
    + apply ltb_true in G.
      exists (best :: before), after. split; [simpl; rewrite <- E; reflexivity |].
      split; [| exact Ha].
      intros a [<- | Hin]; [| apply Hb; exact Hin].
      pose proof (Hmin b (or_introl eq_refl)). lra.
    + apply ltb_false in G.
      destruct before as [| x before].
      * simpl in E. injection E as E1 E2.
        exists [], (b :: after). split; [simpl; rewrite <- E1, E2; reflexivity |].
        split; [intros a [] |].
        intros a [<- | Hin]; [rewrite <- E1; exact G | apply Ha; exact Hin].
      * simpl in E. injection E as E1 E2.
        exists (x :: b :: before), after.
        split; [simpl; rewrite <- E1, E2; reflexivity |].
        split; [| exact Ha].
        intros a [<- | [<- | Hin]].
        -- apply Hb. left. reflexivity.
        -- pose proof (Hb x (or_introl eq_refl)) as Hx. rewrite <- E1 in Hx.
           lra.
        -- apply Hb. right. exact Hin.
Qed.

Lemma setitem_keys_fresh {V} (d : list (string * V)) (k : string) (v : V) :
  ~ In k (map fst d) -> setitem d k v = (d ++ [(k, v)])%list.
Proof.
  induction d as [| [k' v'] d IH]; simpl; intro H; [reflexivity |].
  destruct (String.eqb k' k) eqn:E.
  - apply String.eqb_eq in E. exfalso. apply H. left. exact E.
  - rewrite IH; [reflexivity |]. intro Hin. apply H. right. exact Hin.
Qed.

Lemma setitem_keys {V} (d : list (string * V)) (k : string) (v : V) :
  map fst (setitem d k v)
  = if existsb (String.eqb k) (map fst d) then map fst d
    else (map fst d ++ [k])%list.
Proof.
  induction d as [| [k' v'] d IH]; simpl; [reflexivity |].
  rewrite (String.eqb_sym k k').
  destruct (String.eqb k' k) eqn:E; simpl; [reflexivity |].
  rewrite IH. destruct (existsb (String.eqb k) (map fst d)); reflexivity.
Qed.

Lemma existsb_eqb_In (k : string) (l : list string) :
  existsb (String.eqb k) l = true <-> In k l.
Proof.
  rewrite existsb_exists. split.
  - intros [x [Hx E]]. apply String.eqb_eq in E. subst x. exact Hx.
  - intro H. exists k. split; [exact H | apply String.eqb_refl].
Qed.

Lemma setitem_NoDup {V} (d : list (string * V)) (k : string) (v : V) :
  NoDup (map fst d) -> NoDup (map fst (setitem d k v)).
Proof.
  intro H. rewrite setitem_keys.
  destruct (existsb (String.eqb k) (map fst d)) eqn:E; [exact H |].
  apply NoDup_app; [exact H | constructor; [intros [] | constructor] |].
  intros x Hx [<- | []].
  apply existsb_eqb_In in Hx. congruence.
Qed.

Lemma setitem_In_key {V} (d : list (string * V)) (k : string) (v : V)
    (x : string) :
  In x (map fst (setitem d k v)) <-> x = k \/ In x (map fst d).
Proof.
  rewrite setitem_keys.
  destruct (existsb (String.eqb k) (map fst d)) eqn:E.
  - apply existsb_eqb_In in E. intuition congruence.
  - rewrite in_app_iff. simpl. intuition congruence.
Qed.

(** [dict(pairs)] of pairs with distinct keys is the list of the pairs. *)
Lemma dict_of_distinct {V} (pairs : list (string * V)) :
  NoDup (map fst pairs) -> EcoScorer.dict pairs = pairs.
Proof.
  unfold EcoScorer.dict.
  assert (G : forall acc,
            NoDup (map fst (acc ++ pairs)%list) ->
            fold_left (fun d kv => setitem d (fst kv) (snd kv)) pairs acc
            = (acc ++ pairs)%list).
  { induction pairs as [| [k v] pairs IH]; intros acc H; simpl.
    - rewrite app_nil_r. reflexivity.
    - rewrite setitem_keys_fresh.
      + rewrite IH; rewrite <- app_assoc; [reflexivity | exact H].
      + rewrite map_app in H. apply NoDup_remove_2 in H.
        intro Hin. apply H. apply in_or_app. left. exact Hin. }
  intro H. apply (G [] H).
Qed.

(** Over distinct keys the loop of [compare_routes] keeps the routes'
    order, one entry for each. *)
Lemma comparison_table_distinct (routes : list (string * RouteService.Totals)) :
  NoDup (map fst routes) ->
  RouteService.comparison_table routes
  = map (fun item =>
           (fst item,
            {| RouteService.cmp_distance_km :=
                 RouteService.total_distance_km (snd item);
               RouteService.cmp_duration_min :=
                 RouteService.total_duration_min (snd item);
               RouteService.cmp_cost_inr := RouteService.cost_inr (snd item);
               RouteService.cmp_co2_kg :=
                 RouteService.co2_emissions_kg (snd item);
               RouteService.cmp_eco_score :=
                 RouteService.eco_score (snd item) |})) routes.
Proof.
  unfold RouteService.comparison_table.
  set (entry := fun item : string * RouteService.Totals => _).
  assert (G : forall acc,
            NoDup (map fst acc ++ map fst routes)%list ->
            fold_left
              (fun table item =>
                 let route := snd item in
                 setitem table (fst item)
                   {| RouteService.cmp_distance_km :=
                        RouteService.total_distance_km route;
                      RouteService.cmp_duration_min :=
                        RouteService.total_duration_min route;
                      RouteService.cmp_cost_inr := RouteService.cost_inr route;
                      RouteService.cmp_co2_kg :=
                        RouteService.co2_emissions_kg route;
                      RouteService.cmp_eco_score :=
                        RouteService.eco_score route |}) routes acc
            = (acc ++ map entry routes)%list).
  { induction routes as [| [k v] routes IH]; intros acc H; simpl.
    - rewrite app_nil_r. reflexivity.
    - rewrite setitem_keys_fresh.
      + rewrite IH.
        * rewrite <- app_assoc. reflexivity.
        * rewrite map_app. simpl. rewrite <- app_assoc. exact H.
      + simpl in H. apply NoDup_remove_2 in H.
        intro Hin. apply H. apply in_or_app. left. exact Hin. }
  intro H. apply (G [] H).
Qed.

Lemma insert_desc_in {A} (key : A -> Q) (a : A) (l : list A) (x : A) :
  In x (EcoScorer.insert_desc key a l) <-> x = a \/ In x l.
Proof.
  induction l as [| b l IH]; simpl.
  - intuition congruence.
  - destruct (ltb (key b) (key a)); simpl; [intuition congruence |].
    rewrite IH. intuition congruence.
Qed.

Lemma insert_desc_perm {A} (key : A -> Q) (a : A) (l : list A) :
  Permutation (a :: l) (EcoScorer.insert_desc key a l).
Proof.
  induction l as [| b l IH]; simpl; [apply Permutation_refl |].
  destruct (ltb (key b) (key a)); [apply Permutation_refl |].
  eapply perm_trans; [apply perm_swap |].
  apply perm_skip. exact IH.
Qed.

Lemma insert_desc_sorted {A} (key : A -> Q) (a : A) (l : list A) :
  StronglySorted (fun x y => key y <= key x) l ->
  StronglySorted (fun x y => key y <= key x) (EcoScorer.insert_desc key a l).
Proof.
  induction 1 as [| b l Hs IH Hall]; simpl.
  - constructor; constructor.
  - destruct (ltb (key b) (key a)) eqn:E.
    + apply ltb_true in E. constructor.
      * constructor; assumption.
      * constructor; [lra |].
        eapply Forall_impl; [| exact Hall]. cbv beta. intros y Hy. lra.
    + apply ltb_false in E. constructor; [exact IH |].
      apply Forall_forall. intros y Hy.
      apply insert_desc_in in Hy. destruct Hy as [-> | Hy].
      * exact E.
      * rewrite Forall_forall in Hall. apply Hall. exact Hy.
Qed.

Lemma sorted_desc_spec {A} (key : A -> Q) (l : list A) :
  StronglySorted (fun x y => key y <= key x) (EcoScorer.sorted_desc key l)
  /\ Permutation l (EcoScorer.sorted_desc key l).
Proof.
  unfold EcoScorer.sorted_desc.
  assert (G : forall acc,
            StronglySorted (fun x y => key y <= key x) acc ->
            StronglySorted (fun x y => key y <= key x)
              (fold_left (fun acc a => EcoScorer.insert_desc key a acc) l acc)
            /\ Permutation (acc ++ l)%list
                 (fold_left (fun acc a => EcoScorer.insert_desc key a acc)
                    l acc)).
  { induction l as [| a l IH]; simpl; intros acc Hacc.
    - split; [exact Hacc |]. rewrite app_nil_r.
      apply Permutation_refl.
    - destruct (IH _ (insert_desc_sorted key a acc Hacc)) as [Hs Hp].
      split; [exact Hs |].
      eapply perm_trans; [| exact Hp].
      eapply perm_trans; [apply Permutation_sym, Permutation_middle |].
      change (Permutation ((a :: acc) ++ l)%list
                (EcoScorer.insert_desc key a acc ++ l)%list).
      apply Permutation_app_tail. apply insert_desc_perm. }
  destruct (G [] (SSorted_nil _)) as [Hs Hp]. split; assumption.
Qed.

(** ** calculators/eco_scorer.py: the parts of a result *)

Lemma co2_score_band (co2 d s : Q) :
  EcoScorer._calculate_co2_score co2 d = inr s -> 10 <= s <= 100.
Proof.
  unfold EcoScorer._calculate_co2_score. rewrite guarded_div. cbn [bind ret].
  intro H. injection H as <-.
  repeat match goal with
  | |- context [leb ?a ?b] => destruct (leb a b)
  end; lra.
Qed.

Lemma cost_score_band (cost d s : Q) :
  EcoScorer._calculate_cost_score cost d = inr s -> 15 <= s <= 100.
Proof.
  unfold EcoScorer._calculate_cost_score. rewrite guarded_div. cbn [bind ret].
  intro H. injection H as <-.
  repeat match goal with
  | |- context [leb ?a ?b] => destruct (leb a b)
  end; lra.
Qed.

Lemma time_score_band (t d s : Q) :
  EcoScorer._calculate_time_score t d = inr s -> 40 <= s <= 90.
Proof.
  unfold EcoScorer._calculate_time_score.
  destruct (if gtb t 0 then truediv d (t / 60) else ret 0) as [e | v];
    cbn [bind ret]; [discriminate |].
  intro H. injection H as <-.
  repeat match goal with
  | |- context [leb ?a ?b] => destruct (leb a b)
  | |- context [ltb ?a ?b] => destruct (ltb a b)
  | |- context [gtb ?a ?b] => destruct (gtb a b)
  end; cbn [andb]; lra.
Qed.

Lemma health_score_band (m : TransportMode) (d : Q) :
  0 <= d -> 0 <= EcoScorer._calculate_health_score m d <= 100.
Proof.
  intro Hd. destruct m; unfold EcoScorer._calculate_health_score, min;
    cmp_cases; lra.
Qed.

Lemma congestion_score_band (m : TransportMode) (t : Q) :
  0 <= t -> -20 <= EcoScorer._calculate_congestion_score m t <= 100.
Proof.
  intro Ht. destruct m; unfold EcoScorer._calculate_congestion_score, min;
    cmp_cases; lra.
Qed.

Lemma category_band (s : Q) :
  match EcoScorer._get_eco_score_category s with
  | EXCELLENT => 80 <= s
  | GOOD => 60 <= s < 80
  | MODERATE => 40 <= s < 60
  | POOR => 20 <= s < 40
  | VERY_POOR => s < 20
  end.
Proof.
  unfold EcoScorer._get_eco_score_category, geb, ECO_SCORE_THRESHOLDS.
  cmp_cases; lra.
Qed.

(** X9: in every result of [calculate_eco_score] the category is the band
    of the score (Excellent from 80, Good from 60, Moderate from 40, Poor
    from 20, Very Poor below, never negative) and the color is the color of
    that category. *)
Theorem eco_score_category_matches_score (m : TransportMode) (d t : Q) :
  exists r,
    @EcoScorer.calculate_eco_score unit EcoScorer.init m d t None = inr r
    /\ match EcoScorer.category r with
       | EXCELLENT => 80 <= EcoScorer.score r <= 100
       | GOOD => 60 <= EcoScorer.score r < 80
       | MODERATE => 40 <= EcoScorer.score r < 60
       | POOR => 20 <= EcoScorer.score r < 40
       | VERY_POOR => 0 <= EcoScorer.score r < 20
       end
    /\ EcoScorer.color r = ECO_SCORE_COLORS (EcoScorer.category r).
Proof.
  destruct (calculate_eco_score_shape m d t)
    as [r [c [Hr [_ [_ [_ [_ [_ [_ [_ [_ [_ [Hcat [Hcol Hs]]]]]]]]]]]]]].
  exists r. split; [exact Hr |]. split; [| exact Hcol].
  pose proof (category_band (EcoScorer.score r)) as Hb.
  rewrite <- Hcat in Hb.
  assert (Hrange : 0 <= EcoScorer.score r <= 100)
    by (rewrite Hs; apply clamp_bounds).
  destruct (EcoScorer.category r); lra.
Qed.

(** X10: for distance >= 0 and duration >= 0 every component of a result
    lies in its range: CO2 score in [10, 100], cost score in [15, 100], time
    score in [40, 90], mode score in [30, 100], health score in [0, 100],
    congestion score in [-20, 100]. *)
Theorem eco_score_component_ranges (m : TransportMode) (d t : Q) :
  0 <= d -> 0 <= t ->
  exists r,
    @EcoScorer.calculate_eco_score unit EcoScorer.init m d t None = inr r
    /\ 10 <= EcoScorer.co2_score (EcoScorer.components r) <= 100
    /\ 15 <= EcoScorer.cost_score (EcoScorer.components r) <= 100
    /\ 40 <= EcoScorer.time_score (EcoScorer.components r) <= 90
    /\ 30 <= EcoScorer.mode_score (EcoScorer.components r) <= 100
    /\ 0 <= EcoScorer.health_score (EcoScorer.components r) <= 100
    /\ -20 <= EcoScorer.congestion_score (EcoScorer.components r) <= 100.
Proof.
  intros Hd Ht.
  destruct (calculate_eco_score_shape m d t)
    as [r [c [Hr [_ [_ [_ [H1 [H2 [H3 [H4 [H5 [H6 _]]]]]]]]]]]].
  exists r. split; [exact Hr |].
  split; [exact (co2_score_band _ _ _ H1) |].
  split; [exact (cost_score_band _ _ _ H2) |].
  split; [exact (time_score_band _ _ _ H3) |].
  split; [rewrite H4; destruct m; cbn; lra |].
  split; [rewrite H5; apply health_score_band; exact Hd |].
  rewrite H6. apply congestion_score_band. exact Ht.
Qed.

Lemma eco_score_component_ranges_witness :
  (0 <= 4 /\ 0 <= 50)
  /\ exists r,
       @EcoScorer.calculate_eco_score unit EcoScorer.init WALK 4 50 None
       = inr r
       /\ 0 <= EcoScorer.health_score (EcoScorer.components r) <= 100.
Proof.
  split; [split; lra |].
  destruct (eco_score_component_ranges WALK 4 50)
    as [r [H [_ [_ [_ [_ [Hh _]]]]]]]; [lra | lra |].
  exists r. split; [exact H | exact Hh].
Defined.

(** The CO2 score of a trip whose emissions are a fixed rate per km. *)
Lemma co2_score_of_rate (co2 d k s : Q) :
  0 < d -> co2 == k * d ->
  EcoScorer._calculate_co2_score co2 d = inr s ->
  (0.15 < k -> s = 10)
  /\ (0.05 < k <= 0.08 -> s = 75)
  /\ (0.02 < k <= 0.05 -> s = 90).
Proof.
  intros Hd Hk. unfold EcoScorer._calculate_co2_score.
  rewrite guarded_div.
  assert (Hg : gtb d 0 = true) by (apply gtb_true; exact Hd).
  rewrite Hg. cbn [bind ret].
  assert (Hq : co2 / d == k) by (rewrite Hk; field; lra).
  set (q := co2 / d) in *.
  intro H. injection H as <-.
  repeat split; intro Hr; cmp_cases; try reflexivity; exfalso; lra.
Qed.

Lemma cost_score_of_low_rate (cost d s : Q) :
  0 <= d -> cost <= d ->
  EcoScorer._calculate_cost_score cost d = inr s -> s = 100.
Proof.
  intros Hd Hc. unfold EcoScorer._calculate_cost_score.
  rewrite guarded_div. cbn [bind ret].
  destruct (gtb d 0) eqn:Hg.
  - apply gtb_true in Hg.
    assert (Hq : cost / d <= 1).
    { apply Qle_shift_div_r; [exact Hg | lra]. }
    set (q := cost / d) in *.
    intro H. injection H as <-. cmp_cases; try reflexivity; exfalso; lra.
  - intro H. injection H as <-. reflexivity.
Qed.

(** X11: a car trip over a distance > 0 (duration >= 0) never scores above
    51.5, while walking never scores below 79 and cycling never below 85
    (distance >= 0, any duration): whatever the trips, walking and cycling
    are rated above driving. *)
Theorem active_modes_outscore_car (d t d' t' : Q) :
  0 < d -> 0 <= t -> 0 <= d' ->
  exists car walk bike,
    @EcoScorer.calculate_eco_score unit EcoScorer.init CAR d t None = inr car
    /\ @EcoScorer.calculate_eco_score unit EcoScorer.init WALK d' t' None
       = inr walk
    /\ @EcoScorer.calculate_eco_score unit EcoScorer.init BIKE d' t' None
       = inr bike
    /\ EcoScorer.score car <= 51.5
    /\ 79 <= EcoScorer.score walk
    /\ 85 <= EcoScorer.score bike.
Proof.
  intros Hd Ht Hd'.
  destruct (calculate_eco_score_shape CAR d t)
    as [car [cc [Hcar [Hcc [Hci [Hco [C1 [C2 [C3 [C4 [C5 [C6 [_ [_ Cs]]]]]]]]]]]]]].
  destruct (calculate_eco_score_shape WALK d' t')
    as [walk [wc [Hwalk [Hwc [Hwi [Hwo [W1 [W2 [W3 [W4 [W5 [W6 [_ [_ Ws]]]]]]]]]]]]]].
  destruct (calculate_eco_score_shape BIKE d' t')
    as [bike [bc [Hbike [Hbc [Hbi [Hbo [B1 [B2 [B3 [B4 [B5 [B6 [_ [_ Bs]]]]]]]]]]]]]].
  exists car, walk, bike.
  split; [exact Hcar |]. split; [exact Hwalk |]. split; [exact Hbike |].
  split; [| split].
  - (* car *)
    assert (E1 : EcoScorer.co2_score (EcoScorer.components car) = 10).
    { apply (co2_score_of_rate _ d (2.31 / 15) _ Hd) in C1.
      - apply C1. inv_literals. lra.
      - rewrite Hco. cbn. qarith. }
    pose proof (cost_score_band _ _ _ C2) as E2.
    pose proof (time_score_band _ _ _ C3) as E3.
    pose proof (congestion_score_band CAR t Ht) as E6. rewrite <- C6 in E6.
    assert (E6' : 0 <= EcoScorer.congestion_score (EcoScorer.components car)).
    { rewrite C6. unfold EcoScorer._calculate_congestion_score, min.
      cmp_cases; lra. }
    rewrite Cs. cbv zeta. cbn [EmissionCalculator.is_active mode_eqb orb].
    rewrite E1, C4. cbn [value get Settings.TRANSPORT_MODES String.eqb].
    change (Settings.eco_weight _) with 0.3 at 1.
    unfold max, min. cmp_cases; lra.
  - (* walk *)
    assert (E1 : 75 <= EcoScorer.co2_score (EcoScorer.components walk)).
    { destruct (Qlt_le_dec 0 d') as [Hpos | Hz].
      - apply (co2_score_of_rate _ d' 0.07 _ Hpos) in W1.
        + destruct W1 as [_ [W1 _]]. rewrite W1; lra.
        + rewrite Hwo. cbn. lra.
      - revert W1. unfold EcoScorer._calculate_co2_score.
        rewrite guarded_div.
        assert (Hg : gtb d' 0 = false) by (apply gtb_false; exact Hz).
        rewrite Hg. cbn. intro H. injection H as <-. lra. }
    assert (E2 : EcoScorer.cost_score (EcoScorer.components walk) = 100).
    { apply (cost_score_of_low_rate _ d' _ Hd') in W2; [exact W2 |].
      rewrite Hwi. revert Hwc. cbn. intro H. injection H as <-. cbn. lra. }
    pose proof (time_score_band _ _ _ W3) as E3.
    pose proof (health_score_band WALK d' Hd') as E5. rewrite <- W5 in E5.
    rewrite Ws. cbv zeta. cbn [EmissionCalculator.is_active mode_eqb orb].
    rewrite E2, W4, W6.
    change (Settings.eco_weight _) with 1.0 at 1.
    cbn [EcoScorer._calculate_congestion_score].
    unfold max, min. cmp_cases; lra.
  - (* bike *)
    assert (E1 : 90 <= EcoScorer.co2_score (EcoScorer.components bike)).
    { destruct (Qlt_le_dec 0 d') as [Hpos | Hz].
      - apply (co2_score_of_rate _ d' 0.035 _ Hpos) in B1.
        + destruct B1 as [_ [_ B1]]. rewrite B1; lra.
        + rewrite Hbo. cbn. lra.
      - revert B1. unfold EcoScorer._calculate_co2_score.
        rewrite guarded_div.
        assert (Hg : gtb d' 0 = false) by (apply gtb_false; exact Hz).
        rewrite Hg. cbn. intro H. injection H as <-. lra. }
    assert (E2 : EcoScorer.cost_score (EcoScorer.components bike) = 100).
    { apply (cost_score_of_low_rate _ d' _ Hd') in B2; [exact B2 |].
      rewrite Hbi. revert Hbc.
      unfold CostCalculator.calculate_cost,
        CostCalculator._calculate_bike_cost.
      rewrite per_km_total. cbn [bind ret]. intro H. injection H as <-.
      cbn [CostCalculator.total_cost]. unfold min. cmp_cases; lra. }
    pose proof (time_score_band _ _ _ B3) as E3.
    pose proof (health_score_band BIKE d' Hd') as E5. rewrite <- B5 in E5.
    rewrite Bs. cbv zeta. cbn [EmissionCalculator.is_active mode_eqb orb].
    rewrite E2, B4, B6.
    change (Settings.eco_weight _) with 1.0 at 1.
    cbn [EcoScorer._calculate_congestion_score].
    unfold max, min. cmp_cases; lra.
Qed.

Lemma active_modes_outscore_car_witness :
  (0 < 12 /\ 0 <= 35 /\ 0 <= 3)
  /\ exists car walk,
       @EcoScorer.calculate_eco_score unit EcoScorer.init CAR 12 35 None
       = inr car
       /\ @EcoScorer.calculate_eco_score unit EcoScorer.init WALK 3 40 None
          = inr walk
       /\ EcoScorer.score car < EcoScorer.score walk.
Proof.
  split; [repeat split; lra |].
  destruct (active_modes_outscore_car 12 35 3 40)
    as [car [walk [bike [H1 [H2 [_ [Hc [Hw _]]]]]]]]; [lra | lra | lra |].
  exists car, walk. split; [exact H1 |]. split; [exact H2 |]. lra.
Defined.

(** ** calculators/eco_scorer.py: recommendations and comparisons *)

(** X12: [get_recommendations] always gives between 2 and 5 messages; the
    first is the message of the score tier, whatever the mode, the emissions
    and the cost; for car, metro and bus the last is the tip of the mode, and
    for bike and walk there are at most 3 messages. *)
Theorem recommendations_shape (s : Q) (m : TransportMode) (co2 cost : Q) :
  let recs := EcoScorer.get_recommendations s m co2 cost in
  (2 <= List.length recs <= 5)%nat
  /\ hd EmptyString recs
     = (if geb s 80 then
          "🎉 Excellent choice! You're making a significant positive impact."
        else if geb s 60 then
          "👍 Good choice! You're being environmentally conscious."
        else if geb s 40 then "💡 There's room for improvement."
        else "🌍 Consider more eco-friendly alternatives.")
  /\ match m with
     | CAR =>
         last recs EmptyString
         = "🚗💨 Consider carpooling to reduce emissions and costs."
     | METRO =>
         last recs EmptyString
         = "🚇👍 Metro is one of the most efficient ways to travel in Bangalore."
     | BUS =>
         last recs EmptyString
         = "🚌 BMTC buses are affordable and reduce road congestion."
     | BIKE | WALK => (List.length recs <= 3)%nat
     end.
Proof.
  unfold EcoScorer.get_recommendations, append.
  destruct (geb s 80); [| destruct (geb s 60); [| destruct (geb s 40)]];
  destruct (gtb co2 5); destruct (gtb cost 200); destruct m;
  cbn [andb mode_eqb app List.length hd last];
  (split; [lia | split; [reflexivity | try reflexivity; lia]]).
Qed.

Lemma of_value_value (m : TransportMode) :
  TransportMode_of_value (value m) = inr m.
Proof. destruct m; reflexivity. Qed.

Lemma compare_modes_loop_spec (d : Q) (items : list (TransportMode * Q)) :
  forall acc,
    NoDup (map fst acc) ->
    exists comparison,
      EcoScorer.compare_modes_loop EcoScorer.init d items acc
      = inr comparison
      /\ NoDup (map fst comparison)
      /\ forall k,
           In k (map fst comparison)
           <-> In k (map fst acc)
               \/ exists m, In m (map fst items) /\ k = value m.
Proof.
  induction items as [| [m t] items IH]; intros acc Hacc;
    cbn [EcoScorer.compare_modes_loop].
  - exists acc. split; [reflexivity |]. split; [exact Hacc |].
    intro k. split; [auto |]. intros [H | [m [[] _]]]. exact H.
  - destruct (@calculate_eco_score_returns unit m d t None) as [r [Hr _]].
    rewrite Hr. cbn [bind].
    match goal with
    | |- context [EcoScorer.compare_modes_loop _ _ _ ?acc'] =>
        destruct (IH acc') as [comparison [Hc [Hnd Hk]]]
    end.
    { apply setitem_NoDup. exact Hacc. }
    exists comparison. split; [exact Hc |]. split; [exact Hnd |].
    intro k. rewrite Hk, setitem_In_key. cbn [map fst In]. split.
    + intros [[-> | H] | [m' [H1 H2]]]; eauto 6.
    + intros [H | [m' [[<- | H1] H2]]]; eauto 6.
Qed.

(** X13: [compare_modes] returns for every distance and every table of
    durations; the entries come back in descending order of their score, one
    entry per mode of the table and no other. *)
Theorem compare_modes_descending (d : Q) (items : list (TransportMode * Q)) :
  exists out,
    EcoScorer.compare_modes EcoScorer.init d items = inr out
    /\ StronglySorted
         (fun a b => EcoScorer.me_score (snd b) <= EcoScorer.me_score (snd a))
         out
    /\ NoDup (map fst out)
    /\ forall k,
         In k (map fst out)
         <-> exists m, In m (map fst items) /\ k = value m.
Proof.
  unfold EcoScorer.compare_modes.
  destruct (compare_modes_loop_spec d items [] (NoDup_nil _))
    as [comparison [Hc [Hnd Hk]]].
  rewrite Hc. cbn [bind ret].
  destruct (sorted_desc_spec (fun x => EcoScorer.me_score (snd x)) comparison)
    as [Hs Hp].
  set (sorted := EcoScorer.sorted_desc _ comparison) in *.
  assert (Hnd' : NoDup (map fst sorted)).
  { eapply Permutation_NoDup; [apply Permutation_map; exact Hp | exact Hnd]. }
  rewrite (dict_of_distinct sorted Hnd').
  eexists. split; [reflexivity |]. split; [exact Hs |]. split; [exact Hnd' |].
  intro k. split.
  - intro H.
    assert (H' : In k (map fst comparison)).
    { eapply Permutation_in;
        [apply Permutation_sym, Permutation_map; exact Hp | exact H]. }
    apply Hk in H'. destruct H' as [[] | H']. exact H'.
  - intro H.
    eapply Permutation_in; [apply Permutation_map; exact Hp |].
    apply Hk. right. exact H.
Qed.

Lemma transport_mode_value_roundtrip_aux :
  (forall m, TransportMode_of_value (value m) = inr m)
  /\ (forall s,
        match TransportMode_of_value s with
        | inr m => value m = s
        | inl e => e = ValueError /\ forall m, value m <> s
        end).
Proof.
  split.
  - intros []; reflexivity.
  - intro s. unfold TransportMode_of_value.
    repeat match goal with
    | |- context [String.eqb s ?lit] =>
        let E := fresh "E" in
        destruct (String.eqb s lit) eqn:E;
        [apply String.eqb_eq in E; subst s; reflexivity
        | apply String.eqb_neq in E]
    end.
    split; [reflexivity |]. intros []; simpl; congruence.
Qed.

Lemma most_common_returns (counts : list (string * Z)) :
  (forall k, In k (map fst counts) -> exists m, k = value m) ->
  exists m, EcoScorer._get_most_common_mode counts = inr m.
Proof.
  intro Hkeys. destruct counts as [| first rest].
  - exists WALK. reflexivity.
  - cbn [EcoScorer._get_most_common_mode].
    destruct (max_by_spec (fun x : string * Z => inject_Z (snd x)) rest first)
      as [Hin _].
    destruct (Hkeys (fst (max_by (fun x : string * Z => inject_Z (snd x))
                            first rest))) as [m Hm].
    { apply in_map. exact Hin. }
    exists m. rewrite Hm. apply of_value_value.
Qed.

(** X14: on a table of counts whose keys are mode values,
    [_get_most_common_mode] returns a mode of the table whose count no other
    count exceeds; on the empty table it returns WALK. *)
Theorem most_common_mode_is_maximal (counts : list (string * Z)) :
  (forall k, In k (map fst counts) -> exists m, k = value m) ->
  exists m,
    EcoScorer._get_most_common_mode counts = inr m
    /\ match counts with
       | [] => m = WALK
       | _ =>
           exists c, In (value m, c) counts
                     /\ forall k c', In (k, c') counts -> (c' <= c)%Z
       end.
Proof.
  intro Hkeys. destruct counts as [| first rest].
  - exists WALK. split; reflexivity.
  - cbn [EcoScorer._get_most_common_mode].
    destruct (max_by_spec (fun x : string * Z => inject_Z (snd x)) rest first)
      as [Hin Hmax].
    set (r := max_by _ first rest) in *.
    destruct (Hkeys (fst r)) as [m Hm].
    { apply in_map. exact Hin. }
    exists m. rewrite Hm, of_value_value. split; [reflexivity |].
    exists (snd r). split.
    + rewrite <- Hm. destruct r; exact Hin.
    + intros k c' Hk. apply Hmax in Hk. cbn [snd] in Hk.
      rewrite Zle_Qle. exact Hk.
Qed.

Lemma most_common_mode_is_maximal_witness :
  exists m,
    EcoScorer._get_most_common_mode [("bus", 2%Z); ("metro", 5%Z); ("car", 5%Z)]
    = inr m
    /\ exists c, In (value m, c) [("bus", 2%Z); ("metro", 5%Z); ("car", 5%Z)]
                 /\ forall k c',
                      In (k, c') [("bus", 2%Z); ("metro", 5%Z); ("car", 5%Z)] ->
                      (c' <= c)%Z.
Proof.
  apply (most_common_mode_is_maximal
           [("bus", 2%Z); ("metro", 5%Z); ("car", 5%Z)]).
  intros k [<- | [<- | [<- | []]]];
    [exists BUS | exists METRO | exists CAR]; reflexivity.
Defined.

(** ** calculators/eco_scorer.py: the aggregate impact *)

Lemma guarded_speed (dist dur : Q) :
  exists v,
    (if gtb dur 0 then truediv dist (dur / 60) else ret 0) = inr v.
Proof.
  destruct (gtb dur 0) eqn:E.
  - apply gtb_true in E. rewrite truediv_nonzero; [eexists; reflexivity |].
    intro Hz. assert (dur == 0) by (revert Hz; inv_literals; lra). lra.
  - eexists; reflexivity.
Qed.

Lemma setitem_count_sum (counts : list (string * Z)) (k : string) :
  fold_right Z.add 0%Z (map snd (setitem counts k (get counts k 0 + 1)%Z))
  = (fold_right Z.add 0 (map snd counts) + 1)%Z.
Proof.
  induction counts as [| [k' c] counts IH]; cbn [setitem get map snd fold_right].
  - lia.
  - destruct (String.eqb k' k); cbn [map snd fold_right]; [lia |].
    rewrite IH. lia.
Qed.

(** The emissions [calculate_aggregate_impact] adds for one trip. *)
Lemma aggregate_loop_spec (trips : list EcoScorer.Trip) :
  (forall tr, In tr trips -> exists m, EcoScorer.trip_mode tr = value m) ->
  forall acc,
    exists tot,
      EcoScorer.aggregate_loop EcoScorer.init trips acc = inr tot
      /\ EcoScorer.total_distance tot
         == EcoScorer.total_distance acc
            + fold_right Qplus 0 (map EcoScorer.trip_distance trips)
      /\ EcoScorer.total_duration tot
         == EcoScorer.total_duration acc
            + fold_right Qplus 0 (map EcoScorer.trip_duration trips)
      /\ EcoScorer.total_co2 tot
         == EcoScorer.total_co2 acc
            + fold_right Qplus 0
                (map (fun tr =>
                        match TransportMode_of_value (EcoScorer.trip_mode tr)
                        with
                        | inr m =>
                            EmissionCalculator.co2_kg
                              (EmissionCalculator.calculate_co2_emissions
                                 EmissionCalculator.init m
                                 (EcoScorer.trip_distance tr) None)
                        | inl _ => 0
                        end) trips)
      /\ fold_right Z.add 0%Z (map snd (EcoScorer.mode_counts tot))
         = (fold_right Z.add 0 (map snd (EcoScorer.mode_counts acc))
            + Z.of_nat (List.length trips))%Z
      /\ forall k,
           In k (map fst (EcoScorer.mode_counts tot)) ->
           In k (map fst (EcoScorer.mode_counts acc))
           \/ exists m, k = value m.
Proof.
  induction trips as [| tr trips IH]; intros Hvalid acc;
    cbn [EcoScorer.aggregate_loop].
  - exists acc. split; [reflexivity |]. cbn [map fold_right List.length].
    repeat split; try lra; try lia. auto.
  - destruct (Hvalid tr (or_introl eq_refl)) as [m Hm].
    rewrite Hm, of_value_value. cbn [bind].
    destruct (calculate_eco_score_shape m (EcoScorer.trip_distance tr)
                (EcoScorer.trip_duration tr))
      as [r [c [Hr [_ [_ [Hco _]]]]]].
    rewrite Hr. cbn [bind].
    match goal with
    | |- context [EcoScorer.aggregate_loop _ _ ?acc'] =>
        destruct (IH (fun x Hx => Hvalid x (or_intror Hx)) acc')
          as [tot [Ht [Hd [Hu [Hc [Hn Hk]]]]]]
    end.
    exists tot. split; [exact Ht |].
    cbn [EcoScorer.total_distance EcoScorer.total_duration
         EcoScorer.total_co2 EcoScorer.mode_counts] in Hd, Hu, Hc, Hn, Hk.
    cbn [map fold_right List.length].
    rewrite Hm, of_value_value.
    split; [rewrite Hd; lra |]. split; [rewrite Hu; lra |].
    split; [rewrite Hc, Hco; lra |].
    split.
    + rewrite Hn, setitem_count_sum. lia.
    + intros k Hin. apply Hk in Hin. destruct Hin as [Hin | Hin]; [| auto].
      apply setitem_In_key in Hin. destruct Hin as [-> | Hin]; eauto.
Qed.

(** X15: when every trip names a mode of the enumeration,
    [calculate_aggregate_impact] returns; its total distance, duration and
    emissions are the sums over the trips, and the counts of its mode
    distribution add up to the number of trips. *)
Theorem aggregate_impact_totals (trips : list EcoScorer.Trip) :
  (forall tr, In tr trips -> exists m, EcoScorer.trip_mode tr = value m) ->
  exists a,
    EcoScorer.calculate_aggregate_impact EcoScorer.init trips = inr a
    /\ EcoScorer.ai_total_distance_km a
       == fold_right Qplus 0 (map EcoScorer.trip_distance trips)
    /\ EcoScorer.ai_total_duration_min a
       == fold_right Qplus 0 (map EcoScorer.trip_duration trips)
    /\ EcoScorer.ai_total_co2_kg a
       == fold_right Qplus 0
            (map (fun tr =>
                    match TransportMode_of_value (EcoScorer.trip_mode tr) with
                    | inr m =>
                        EmissionCalculator.co2_kg
                          (EmissionCalculator.calculate_co2_emissions
                             EmissionCalculator.init m
                             (EcoScorer.trip_distance tr) None)
                    | inl _ => 0
                    end) trips)
    /\ fold_right Z.add 0%Z (map snd (EcoScorer.ai_mode_distribution a))
       = Z.of_nat (List.length trips).
Proof.
  intro Hvalid. unfold EcoScorer.calculate_aggregate_impact.
  destruct (aggregate_loop_spec trips Hvalid EcoScorer.no_totals)
    as [tot [Ht [Hd [Hu [Hc [Hn Hk]]]]]].
  rewrite Ht. cbn [bind]. rewrite !guarded_div. cbn [bind].
  destruct (guarded_speed (EcoScorer.total_distance tot)
              (EcoScorer.total_duration tot)) as [v Hv].
  rewrite Hv. cbn [bind].
  destruct (most_common_returns (EcoScorer.mode_counts tot)) as [m Hm].
  { intros k Hin. destruct (Hk k Hin) as [[] | H]. exact H. }
  rewrite Hm. cbn [bind].
  destruct (@calculate_eco_score_returns unit m
              (EcoScorer.total_distance tot) (EcoScorer.total_duration tot)
              None) as [r [Hr _]].
  rewrite Hr. cbn [bind ret].
  eexists. split; [reflexivity |].
  cbn [EcoScorer.ai_total_distance_km EcoScorer.ai_total_duration_min
       EcoScorer.ai_total_co2_kg EcoScorer.ai_mode_distribution].
  cbn [EcoScorer.no_totals EcoScorer.total_distance EcoScorer.total_duration
       EcoScorer.total_co2 EcoScorer.mode_counts map fold_right] in Hd, Hu,
    Hc, Hn.
  split; [rewrite Hd; lra |]. split; [rewrite Hu; lra |].
  split; [rewrite Hc; lra |]. rewrite Hn. lia.
Qed.

Lemma aggregate_impact_totals_witness :
  exists a,
    EcoScorer.calculate_aggregate_impact EcoScorer.init
      [ {| EcoScorer.trip_mode := "metro"; EcoScorer.trip_distance := 12;
           EcoScorer.trip_duration := 30 |};
        {| EcoScorer.trip_mode := "walk"; EcoScorer.trip_distance := 1;
           EcoScorer.trip_duration := 12 |} ] = inr a
    /\ EcoScorer.ai_total_distance_km a == 13.
Proof.
  destruct (aggregate_impact_totals
              [ {| EcoScorer.trip_mode := "metro";
                   EcoScorer.trip_distance := 12;
                   EcoScorer.trip_duration := 30 |};
                {| EcoScorer.trip_mode := "walk";
                   EcoScorer.trip_distance := 1;
                   EcoScorer.trip_duration := 12 |} ])
    as [a [Ha [Hd _]]].
  - intros tr [<- | [<- | []]]; [exists METRO | exists WALK]; reflexivity.
  - exists a. split; [exact Ha |]. rewrite Hd. reflexivity.
Defined.

(** X16: a trip whose mode is no value of the enumeration makes
    [calculate_aggregate_impact] raise [ValueError], whatever the trips
    before it (with modes of the enumeration) and after it are; an empty list
    of trips gives zero totals, an empty distribution and the score of a walk
    of no length, 99. *)
Theorem aggregate_impact_edges :
  (forall before tr after,
     (forall x, In x before -> exists m, EcoScorer.trip_mode x = value m) ->
     (forall m, EcoScorer.trip_mode tr <> value m) ->
     EcoScorer.calculate_aggregate_impact EcoScorer.init
       (before ++ tr :: after)%list = inl ValueError)
  /\ exists a,
       EcoScorer.calculate_aggregate_impact EcoScorer.init [] = inr a
       /\ EcoScorer.ai_total_co2_kg a = 0
       /\ EcoScorer.ai_total_cost_inr a = 0
       /\ EcoScorer.ai_mode_distribution a = []
       /\ EcoScorer.ai_overall_eco_score a == 99.
Proof.
  split.
  - intros before tr after Hvalid Hbad.
    unfold EcoScorer.calculate_aggregate_impact.
    assert (G : forall acc,
              EcoScorer.aggregate_loop EcoScorer.init
                (before ++ tr :: after)%list acc = inl ValueError).
    { induction before as [| x before IH]; intro acc;
        cbn [app EcoScorer.aggregate_loop].
      - assert (E : TransportMode_of_value (EcoScorer.trip_mode tr)
                    = inl ValueError).
        { pose proof (proj2 transport_mode_value_roundtrip_aux
                        (EcoScorer.trip_mode tr)) as H.
          destruct (TransportMode_of_value (EcoScorer.trip_mode tr))
            as [e | m].
          - destruct H as [-> _]. reflexivity.
          - exfalso. apply (Hbad m). symmetry. exact H. }
        rewrite E. reflexivity.
      - destruct (Hvalid x (or_introl eq_refl)) as [m Hm].
        rewrite Hm, of_value_value. cbn [bind].
        destruct (@calculate_eco_score_returns unit m
                    (EcoScorer.trip_distance x) (EcoScorer.trip_duration x)
                    None) as [r [Hr _]].
        rewrite Hr. cbn [bind].
        apply IH. intros y Hy. apply Hvalid. right. exact Hy. }
    rewrite G. reflexivity.
  - eexists. split; [reflexivity |]. repeat split; reflexivity.
Qed.

Lemma aggregate_impact_edges_witness :
  EcoScorer.calculate_aggregate_impact EcoScorer.init
    [ {| EcoScorer.trip_mode := "bus"; EcoScorer.trip_distance := 5;
         EcoScorer.trip_duration := 20 |};
      {| EcoScorer.trip_mode := "walking"; EcoScorer.trip_distance := 1;
         EcoScorer.trip_duration := 12 |} ] = inl ValueError.
Proof.
  apply (proj1 aggregate_impact_edges
           [ {| EcoScorer.trip_mode := "bus"; EcoScorer.trip_distance := 5;
                EcoScorer.trip_duration := 20 |} ]
           {| EcoScorer.trip_mode := "walking"; EcoScorer.trip_distance := 1;
              EcoScorer.trip_duration := 12 |} []).
  - intros x [<- | []]. exists BUS. reflexivity.
  - intros []; discriminate.
Defined.

(** ** utils/route_processor.py: the routes returned *)

Lemma mapM_ext {A B} (f g : A -> py B) (l : list A) :
  (forall a, In a l -> f a = g a) -> mapM f l = mapM g l.
Proof.
  induction l as [| a l IH]; intro H; cbn [mapM]; [reflexivity |].
  rewrite (H a (or_introl eq_refl)), IH; [reflexivity |].
  intros x Hx. apply H. right. exact Hx.
Qed.

Lemma sort_by_ext {A} (f g : A -> py Q) (l : list A) :
  (forall a, In a l -> f a = g a) ->
  RouteProcessor.sort_by f l = RouteProcessor.sort_by g l.
Proof.
  intro H. unfold RouteProcessor.sort_by.
  rewrite (mapM_ext (fun a => k <- f a ;; ret (k, a))
             (fun a => k <- g a ;; ret (k, a)) l); [reflexivity |].
  intros a Ha. cbv beta. rewrite (H a Ha). reflexivity.
Qed.

(** The configuration chosen for a preference is one of the four. *)
Lemma criteria_of_preference (preference : string) :
  let c := get RouteProcessor.criteria_table preference
             RouteProcessor.balanced_criteria in
  In c [RouteProcessor.fastest_criteria; RouteProcessor.cheapest_criteria;
        RouteProcessor.greenest_criteria; RouteProcessor.balanced_criteria].
Proof.
  unfold RouteProcessor.criteria_table. cbn [get].
  repeat match goal with
  | |- context [String.eqb ?a preference] => destruct (String.eqb a preference)
  end; simpl; auto.
Qed.

(** X17: a preference other than "fastest", "cheapest" and "greenest" is
    treated as "balanced": the same filter and the same order, hence the
    same result or the same exception. *)
Theorem unknown_preference_is_balanced (py_float : string -> option Q)
    (routes_dict : list (string * option RouteProcessor.route))
    (preference : string) :
  ~ In preference ["fastest"; "cheapest"; "greenest"] ->
  RouteProcessor.get_practical_routes py_float routes_dict preference
  = RouteProcessor.get_practical_routes py_float routes_dict "balanced".
Proof.
  intro H.
  assert (E1 : String.eqb "fastest" preference = false)
    by (apply String.eqb_neq; intros <-; apply H; simpl; auto).
  assert (E2 : String.eqb "cheapest" preference = false)
    by (apply String.eqb_neq; intros <-; apply H; simpl; auto).
  assert (E3 : String.eqb "greenest" preference = false)
    by (apply String.eqb_neq; intros <-; apply H; simpl; auto).
  unfold RouteProcessor.get_practical_routes.
  assert (Ec : get RouteProcessor.criteria_table preference
                 RouteProcessor.balanced_criteria
               = RouteProcessor.balanced_criteria).
  { unfold RouteProcessor.criteria_table. cbn [get].
    rewrite E1, E2, E3. destruct (String.eqb "balanced" preference);
      reflexivity. }
  rewrite Ec.
  change (get RouteProcessor.criteria_table "balanced"
            RouteProcessor.balanced_criteria)
    with RouteProcessor.balanced_criteria.
  rewrite (sort_by_ext (RouteProcessor.sort_key preference)
             (RouteProcessor.sort_key "balanced")); [reflexivity |].
  intros a _. unfold RouteProcessor.sort_key.
  rewrite (String.eqb_sym preference "fastest"), E1.
  rewrite (String.eqb_sym preference "cheapest"), E2.
  rewrite (String.eqb_sym preference "greenest"), E3.
  reflexivity.
Qed.

Lemma unknown_preference_is_balanced_witness :
  RouteProcessor.get_practical_routes Samples.sample_float
    [("bus", Some Samples.bus_route_20); ("car", Some Samples.car_route)]
    "scenic"
  = RouteProcessor.get_practical_routes Samples.sample_float
      [("bus", Some Samples.bus_route_20); ("car", Some Samples.car_route)]
      "balanced".
Proof.
  apply (unknown_preference_is_balanced Samples.sample_float).
  simpl. intros [H | [H | [H | []]]]; discriminate H.
Defined.

Lemma practical_route_within_caps (py_float : string -> option Q)
    (r : RouteProcessor.route) (c : RouteProcessor.criteria) :
  RouteProcessor._is_practical_route py_float r c = true ->
  match RouteProcessor.segments r with
  | Some segs => RouteProcessor.walk_distance py_float segs
  | None => 0
  end <= RouteProcessor.max_walk_distance c
  /\ (RouteProcessor.mode_in (RouteProcessor.actual_mode r) ["metro"; "bus"]
      = true ->
      (RouteProcessor._count_transfers r <= RouteProcessor.max_transfers c)%Z).
Proof.
  unfold RouteProcessor._is_practical_route.
  destruct (gtb _ (RouteProcessor.max_walk_distance c)) eqn:E1;
    [discriminate |].
  apply gtb_false in E1.
  destruct (RouteProcessor.mode_in (RouteProcessor.actual_mode r)
              ["metro"; "bus"]) eqn:E2; cbn [andb].
  - destruct (RouteProcessor.max_transfers c
              <? RouteProcessor._count_transfers r)%Z eqn:E3;
      [discriminate |].
    apply Z.ltb_ge in E3. intros _. split; [exact E1 | intros _; exact E3].
  - intros _. split; [exact E1 | discriminate].
Qed.

(** X18: whatever the preference, a route that [get_practical_routes]
    returns is an entry of the input under the same key, and it respects the
    caps of the configuration chosen: its walking distance is at most the
    walking cap, itself at most 2 km, and when it is a metro or bus route its
    transfers are at most the transfer cap, itself at most 3. *)
Theorem returned_routes_are_practical (py_float : string -> option Q)
    (routes_dict : list (string * option RouteProcessor.route))
    (preference : string) (out : list (string * RouteProcessor.route))
    (mode : string) (r : RouteProcessor.route) :
  RouteProcessor.get_practical_routes py_float routes_dict preference
  = inr out ->
  In (mode, r) out ->
  let c := get RouteProcessor.criteria_table preference
             RouteProcessor.balanced_criteria in
  In (mode, Some r) routes_dict
  /\ match RouteProcessor.segments r with
     | Some segs => RouteProcessor.walk_distance py_float segs
     | None => 0
     end <= RouteProcessor.max_walk_distance c
  /\ RouteProcessor.max_walk_distance c <= 2
  /\ (RouteProcessor.mode_in (RouteProcessor.actual_mode r) ["metro"; "bus"]
      = true ->
      (RouteProcessor._count_transfers r <= RouteProcessor.max_transfers c
       <= 3)%Z).
Proof.
  intros Hout Hin c.
  unfold RouteProcessor.get_practical_routes in Hout.
  destruct (RouteProcessor.sort_by _ _) as [e | sorted] eqn:Es;
    [discriminate Hout |].
  cbn [bind] in Hout. injection Hout as <-.
  apply dict_of_pairs_in in Hin.
  apply (sort_by_in _ _ _ _ Es) in Hin.
  apply practical_in in Hin. destruct Hin as [Hmem Hp].
  fold c in Hp.
  destruct (practical_route_within_caps py_float r c Hp) as [Hw Ht].
  pose proof (criteria_of_preference preference) as Hc. cbv zeta in Hc.
  fold c in Hc.
  split; [exact Hmem |]. split; [exact Hw |].
  split.
  - destruct Hc as [<- | [<- | [<- | [<- | []]]]]; cbn; lra.
  - intro Hm. specialize (Ht Hm). split; [exact Ht |].
    destruct Hc as [<- | [<- | [<- | [<- | []]]]]; cbn; lia.
Qed.

Lemma returned_routes_are_practical_witness :
  In ("bus", Some Samples.bus_route_20)
    [("car", Some Samples.car_route); ("bus", Some Samples.bus_route_20)]
  /\ RouteProcessor.walk_distance Samples.sample_float
       [ {| RouteProcessor.seg_mode := Some "walk";
            RouteProcessor.seg_distance := Some "0.3 km" |};
         {| RouteProcessor.seg_mode := Some "bus";
            RouteProcessor.seg_distance := Some "11.0 km" |};
         {| RouteProcessor.seg_mode := Some "walk";
            RouteProcessor.seg_distance := Some "0.2 km" |} ] <= 1.0.
Proof.
  destruct (returned_routes_are_practical Samples.sample_float
              [("car", Some Samples.car_route);
               ("bus", Some Samples.bus_route_20)]
              "fastest"
              [("bus", Samples.bus_route_20); ("car", Samples.car_route)]
              "bus" Samples.bus_route_20)
    as [H1 [H2 _]].
  - reflexivity.
  - simpl. auto.
  - split; [exact H1 | exact H2].
Defined.

Lemma insert_by_key_perm {A} (k : Q) (a : A) (l : list (Q * A)) :
  Permutation ((k, a) :: l) (RouteProcessor.insert_by_key k a l).
Proof.
  induction l as [| [k' a'] l IH]; simpl; [apply Permutation_refl |].
  destruct (ltb k k'); [apply Permutation_refl |].
  eapply perm_trans; [apply perm_swap |]. apply perm_skip. exact IH.
Qed.

Lemma sort_keyed_perm {A} (l : list (Q * A)) :
  Permutation l (RouteProcessor.sort_keyed l).
Proof.
  unfold RouteProcessor.sort_keyed.
  assert (G : forall acc,
            Permutation (acc ++ l)%list
              (fold_left
                 (fun acc ka =>
                    RouteProcessor.insert_by_key (fst ka) (snd ka) acc)
                 l acc)).
  { induction l as [| [k a] l IH]; simpl; intro acc.
    - rewrite app_nil_r. apply Permutation_refl.
    - eapply perm_trans; [| apply IH].
      eapply perm_trans; [apply Permutation_sym, Permutation_middle |].
      change (Permutation (((k, a) :: acc) ++ l)%list
                (RouteProcessor.insert_by_key k a acc ++ l)%list).
      apply Permutation_app_tail. apply insert_by_key_perm. }
  apply (G []).
Qed.

Lemma mapM_keyed_snd {A} (f : A -> py Q) (l : list A)
    (keyed : list (Q * A)) :
  mapM (fun a => k <- f a ;; ret (k, a)) l = inr keyed -> map snd keyed = l.
Proof.
  revert keyed. induction l as [| a l IH]; simpl; intros keyed H.
  - injection H as <-. reflexivity.
  - destruct (f a) as [e | k]; [discriminate H |]. simpl in H.
    destruct (mapM _ l) as [e | ks]; [discriminate H |]. simpl in H.
    injection H as <-. simpl. rewrite (IH ks eq_refl). reflexivity.
Qed.

Lemma sort_by_perm {A} (f : A -> py Q) (l l' : list A) :
  RouteProcessor.sort_by f l = inr l' -> Permutation l l'.
Proof.
  unfold RouteProcessor.sort_by. intro H.
  destruct (mapM _ l) as [e | keyed] eqn:El; [discriminate H |].
  cbn [bind ret] in H. injection H as <-.
  rewrite <- (mapM_keyed_snd f l keyed El).
  apply Permutation_map. apply sort_keyed_perm.
Qed.

Lemma dict_set_setitem {V} (d : list (string * V)) (k : string) (v : V) :
  RouteProcessor.dict_set d k v = setitem d k v.
Proof.
  induction d as [| [k' v'] d IH]; simpl; [reflexivity |].
  rewrite IH. reflexivity.
Qed.

Lemma dict_of_pairs_distinct {V} (pairs : list (string * V)) :
  NoDup (map fst pairs) -> RouteProcessor.dict_of_pairs pairs = pairs.
Proof.
  intro H. rewrite <- (dict_of_distinct pairs H) at 2.
  unfold RouteProcessor.dict_of_pairs, EcoScorer.dict.
  generalize (@nil (string * V)).
  induction pairs as [| [k v] pairs IH]; simpl; intro acc; [reflexivity |].
  rewrite dict_set_setitem. apply IH.
  inversion H; assumption.
Qed.

Lemma practical_keys (py_float : string -> option Q)
    (routes_dict : list (string * option RouteProcessor.route))
    (c : RouteProcessor.criteria) :
  NoDup (map fst routes_dict) ->
  NoDup (map fst (RouteProcessor.practical py_float routes_dict c)).
Proof.
  unfold RouteProcessor.practical.
  induction routes_dict as [| [k v] routes IH]; simpl; intro H;
    [constructor |].
  inversion H as [| x xs Hnotin Hnd]; subst.
  specialize (IH Hnd).
  assert (Hsub : forall x,
            In x (map fst
                    (flat_map
                       (fun entry : string * option RouteProcessor.route =>
                          match snd entry with
                          | Some r =>
                              if RouteProcessor.truthy_route (Some r)
                                 && RouteProcessor._is_practical_route
                                      py_float r c
                              then [(fst entry, r)] else []
                          | None => []
                          end) routes)) ->
            In x (map fst routes)).
  { intros x Hx. apply in_map_iff in Hx. destruct Hx as [[k' r'] [<- Hx]].
    apply in_flat_map in Hx. destruct Hx as [[k2 v2] [Hin Hx]].
    cbn [snd fst] in Hx. destruct v2 as [r2 |]; [| destruct Hx].
    destruct (_ && _); [| destruct Hx].
    destruct Hx as [Hx | []]. injection Hx as -> ->.
    apply in_map_iff. exists (k', Some r'). split; [reflexivity | exact Hin]. }
  destruct v as [r |]; [| exact IH].
  destruct (_ && _); [| exact IH].
  simpl. constructor; [| exact IH].
  intro Hin. apply Hnotin. apply Hsub. exact Hin.
Qed.

Lemma StronglySorted_map_in {A B} (R : A -> A -> Prop) (R' : B -> B -> Prop)
    (g : A -> B) (l : list A) :
  StronglySorted R l ->
  (forall x y, In x l -> In y l -> R x y -> R' (g x) (g y)) ->
  StronglySorted R' (map g l).
Proof.
  induction 1 as [| a l Hs IH Hall]; intro H; simpl; constructor.
  - apply IH. intros x y Hx Hy. apply H; right; assumption.
  - apply Forall_forall. intros b Hb. apply in_map_iff in Hb.
    destruct Hb as [y [<- Hy]]. apply H.
    + left. reflexivity.
    + right. exact Hy.
    + rewrite Forall_forall in Hall. apply Hall. exact Hy.
Qed.

(** X19: when the keys of the input are distinct (it is a dict),
    [get_practical_routes] returns exactly the routes that pass the filter,
    in ascending order of the key of the preference: the duration for
    "fastest", the estimated cost for "cheapest", the estimated emissions for
    "greenest". *)
Theorem routes_in_ascending_key_order (py_float : string -> option Q)
    (routes_dict : list (string * option RouteProcessor.route))
    (preference : string) (out : list (string * RouteProcessor.route)) :
  NoDup (map fst routes_dict) ->
  RouteProcessor.get_practical_routes py_float routes_dict preference
  = inr out ->
  Permutation
    (RouteProcessor.practical py_float routes_dict
       (get RouteProcessor.criteria_table preference
          RouteProcessor.balanced_criteria))
    out
  /\ StronglySorted
       (fun a b =>
          forall ka kb,
            RouteProcessor.sort_key preference a = inr ka ->
            RouteProcessor.sort_key preference b = inr kb -> ka <= kb)
       out
  /\ (preference = "fastest" ->
      StronglySorted
        (fun a b =>
           forall da db,
             RouteProcessor.duration_min (snd a) = Some da ->
             RouteProcessor.duration_min (snd b) = Some db -> da <= db)
        out)
  /\ (preference = "cheapest" ->
      StronglySorted
        (fun a b =>
           RouteProcessor._estimate_cost (snd a)
           <= RouteProcessor._estimate_cost (snd b))
        out)
  /\ (preference = "greenest" ->
      StronglySorted
        (fun a b =>
           RouteProcessor._estimate_emissions (snd a)
           <= RouteProcessor._estimate_emissions (snd b))
        out).
Proof.
  intros Hnd Hout.
  unfold RouteProcessor.get_practical_routes in Hout.
  set (pr := RouteProcessor.practical py_float routes_dict _) in *.
  destruct (RouteProcessor.sort_by _ pr) as [e | sorted] eqn:Es;
    [discriminate Hout |].
  cbn [bind ret] in Hout. injection Hout as <-.
  pose proof (sort_by_perm _ _ _ Es) as Hperm.
  assert (Hnd' : NoDup (map fst sorted)).
  { eapply Permutation_NoDup; [apply Permutation_map; exact Hperm |].
    apply practical_keys. exact Hnd. }
  rewrite (dict_of_pairs_distinct sorted Hnd').
  split; [exact Hperm |].
  destruct (sort_by_ascending _ _ _ Es) as [keyed [Hk [Hs Hf]]].
  assert (Hgen : StronglySorted
                   (fun a b =>
                      forall ka kb,
                        RouteProcessor.sort_key preference a = inr ka ->
                        RouteProcessor.sort_key preference b = inr kb ->
                        ka <= kb) sorted).
  { rewrite <- Hk. apply (StronglySorted_map_in RouteProcessor.key_le).
    - exact Hs.
    - intros x y Hx Hy Hle ka kb Ha Hb.
      rewrite Forall_forall in Hf.
      rewrite (Hf x Hx) in Ha. rewrite (Hf y Hy) in Hb.
      injection Ha as <-. injection Hb as <-. exact Hle. }
  split; [exact Hgen |].
  split; [| split]; intros ->.
  - eapply StronglySorted_map_in with (g := fun x => x) in Hgen.
    + rewrite map_id in Hgen. exact Hgen.
    + cbv beta. intros x y _ _ H da db Ha Hb. apply H.
      * unfold RouteProcessor.sort_key. cbn. rewrite Ha. reflexivity.
      * unfold RouteProcessor.sort_key. cbn. rewrite Hb. reflexivity.
  - eapply StronglySorted_map_in with (g := fun x => x) in Hgen.
    + rewrite map_id in Hgen. exact Hgen.
    + cbv beta. intros x y _ _ H. apply H; reflexivity.
  - eapply StronglySorted_map_in with (g := fun x => x) in Hgen.
    + rewrite map_id in Hgen. exact Hgen.
    + cbv beta. intros x y _ _ H. apply H; reflexivity.
Qed.

Lemma routes_in_ascending_key_order_witness :
  StronglySorted
    (fun a b =>
       forall da db,
         RouteProcessor.duration_min (snd a) = Some da ->
         RouteProcessor.duration_min (snd b) = Some db -> da <= db)
    [("walking", Samples.walking_route); ("bus", Samples.bus_route_20);
     ("car", Samples.car_route)].
Proof.
  destruct (routes_in_ascending_key_order Samples.sample_float
              [("car", Some Samples.car_route);
               ("bus", Some Samples.bus_route_20);
               ("walking", Some Samples.walking_route)]
              "fastest"
              [("walking", Samples.walking_route);
               ("bus", Samples.bus_route_20); ("car", Samples.car_route)])
    as [_ [_ [H _]]].
  - repeat constructor; simpl; intuition discriminate.
  - reflexivity.
  - apply H. reflexivity.
Defined.

Lemma mapM_raises {A B} (f : A -> py B) (l : list A) (e : exn) (a : A) :
  In a l -> f a = inl e ->
  (forall x e', In x l -> f x = inl e' -> e' = e) ->
  mapM f l = inl e.
Proof.
  induction l as [| x l IH]; intros Hin Ha Honly; [destruct Hin |].
  cbn [mapM]. destruct (f x) as [e' | b] eqn:Ex.
  - rewrite (Honly x e' (or_introl eq_refl) Ex). reflexivity.
  - cbn [bind]. destruct Hin as [-> | Hin]; [congruence |].
    rewrite IH; [reflexivity | exact Hin | exact Ha |].
    intros y e' Hy. apply Honly. right. exact Hy.
Qed.

(** X20: under "fastest", a route that passes the filter but carries no
    duration makes [get_practical_routes] raise [KeyError]: the sort key
    reads [duration_min] without a default, while the filter reads it with
    one. *)
Theorem fastest_needs_durations (py_float : string -> option Q)
    (routes_dict : list (string * option RouteProcessor.route))
    (mode : string) (r : RouteProcessor.route) :
  In (mode, Some r) routes_dict ->
  RouteProcessor.truthy_route (Some r) = true ->
  RouteProcessor._is_practical_route py_float r
    RouteProcessor.fastest_criteria = true ->
  RouteProcessor.duration_min r = None ->
  RouteProcessor.get_practical_routes py_float routes_dict "fastest"
  = inl KeyError.
Proof.
  intros Hin Ht Hp Hd.
  unfold RouteProcessor.get_practical_routes, RouteProcessor.sort_by.
  change (get RouteProcessor.criteria_table "fastest"
            RouteProcessor.balanced_criteria)
    with RouteProcessor.fastest_criteria.
  rewrite (mapM_raises _ _ KeyError (mode, r)); [reflexivity | | |].
  - unfold RouteProcessor.practical. apply in_flat_map.
    exists (mode, Some r). split; [exact Hin |].
    cbn [snd fst]. rewrite Ht, Hp. left. reflexivity.
  - unfold RouteProcessor.sort_key. cbn. rewrite Hd. reflexivity.
  - intros x e' _. unfold RouteProcessor.sort_key. cbn.
    destruct (RouteProcessor.duration_min (snd x)); cbv [bind raise ret];
      intro H; congruence.
Qed.

Lemma fastest_needs_durations_witness :
  RouteProcessor.get_practical_routes Samples.no_float
    [("walking", Some Samples.walking_route);
     ("car",
      Some {| RouteProcessor.segments := None;
              RouteProcessor.actual_mode := Some "driving";
              RouteProcessor.duration_min := None;
              RouteProcessor.distance_km := Some 20;
              RouteProcessor.other_keys := false |})]
    "fastest"
  = inl KeyError.
Proof.
  apply (fastest_needs_durations Samples.no_float _ "car"
           {| RouteProcessor.segments := None;
              RouteProcessor.actual_mode := Some "driving";
              RouteProcessor.duration_min := None;
              RouteProcessor.distance_km := Some 20;
              RouteProcessor.other_keys := false |}).
  - simpl. auto.
  - reflexivity.
  - reflexivity.
  - reflexivity.
Defined.

(** ** utils/route_processor.py: transfers and the balance score *)

Lemma count_step_bound (segs : list RouteProcessor.segment) :
  forall transfers prev,
    let n := fst (fold_left RouteProcessor.count_step segs (transfers, prev)) in
    (transfers <= n <= transfers + Z.of_nat (List.length segs))%Z
    /\ (truthy_str prev = false ->
        (n <= transfers + Z.max 0 (Z.of_nat (List.length segs) - 1))%Z).
Proof.
  induction segs as [| seg segs IH]; intros transfers prev; cbn zeta.
  - cbn [fold_left fst List.length]. lia.
  - cbn [fold_left List.length].
    assert (Hstep : exists t',
              RouteProcessor.count_step (transfers, prev) seg
              = (t', RouteProcessor.seg_mode seg)
              /\ (transfers <= t' <= transfers + 1)%Z
              /\ (truthy_str prev = false -> t' = transfers)).
    { unfold RouteProcessor.count_step.
      destruct (truthy_str prev); cbn [andb].
      - destruct (negb _ && _); eexists;
          (split; [reflexivity | split; [lia | discriminate]]).
      - eexists. split; [reflexivity |]. split; [lia | reflexivity]. }
    destruct Hstep as [t' [-> [Hb Hf]]].
    destruct (IH t' (RouteProcessor.seg_mode seg)) as [H1 _].
    cbv zeta in H1. split; [lia |].
    intro Hp. specialize (Hf Hp). subst t'. lia.
Qed.

Lemma count_transfers_range (r : RouteProcessor.route) :
  let n :=
    match RouteProcessor.segments r with
    | Some segs => Z.of_nat (List.length segs)
    | None => 0%Z
    end in
  (0 <= RouteProcessor._count_transfers r <= Z.max 0 (n - 2))%Z.
Proof.
  unfold RouteProcessor._count_transfers.
  destruct (RouteProcessor.segments r) as [segs |]; cbv zeta; [| lia].
  destruct (count_step_bound segs 0%Z None) as [_ H].
  cbv zeta in H. specialize (H eq_refl). lia.
Qed.

(** X21: the number of transfers is never negative and is at most the
    number of segments less two: the first segment never counts and one
    change is taken to be the boarding.  A route without segments, or with
    one or two, has no transfer. *)
Theorem count_transfers_bounds (r : RouteProcessor.route) :
  let n :=
    match RouteProcessor.segments r with
    | Some segs => Z.of_nat (List.length segs)
    | None => 0%Z
    end in
  (0 <= RouteProcessor._count_transfers r <= Z.max 0 (n - 2))%Z
  /\ ((n <= 2)%Z -> RouteProcessor._count_transfers r = 0%Z).
Proof.
  pose proof (count_transfers_range r) as H. cbv zeta in *.
  split; [exact H | intro Hn; lia].
Qed.

Lemma unit_fraction (x : Q) :
  0 < x ->
  truediv 1 x = inr (1 / x) /\ 0 < 1 / x /\ (1 <= x -> 1 / x <= 1).
Proof.
  intro Hx. split; [apply truediv_nonzero; lra |]. split.
  - apply Qlt_shift_div_l; [exact Hx | lra].
  - intro H1. apply Qle_shift_div_r; [exact Hx | lra].
Qed.

Lemma estimate_cost_nonneg (r : RouteProcessor.route) (d : Q) :
  RouteProcessor.distance_km r = Some d -> 0 <= d ->
  0 <= RouteProcessor._estimate_cost r.
Proof.
  intros Hd Hpos. unfold RouteProcessor._estimate_cost. rewrite Hd.
  cbn [RouteProcessor.opt_default get].
  apply Qmult_le_0_compat; [exact Hpos |].
  repeat match goal with
  | |- context [String.eqb ?a ?b] => destruct (String.eqb a b)
  end; lra.
Qed.

Lemma estimate_emissions_nonneg (r : RouteProcessor.route) (d : Q) :
  RouteProcessor.distance_km r = Some d -> 0 <= d ->
  0 <= RouteProcessor._estimate_emissions r.
Proof.
  intros Hd Hpos. unfold RouteProcessor._estimate_emissions. rewrite Hd.
  cbn [RouteProcessor.opt_default get].
  apply Qmult_le_0_compat; [exact Hpos |].
  repeat match goal with
  | |- context [String.eqb ?a ?b] => destruct (String.eqb a b)
  end; lra.
Qed.

(** X22: for a route with a duration >= 0 and a distance >= 0 the balance
    score is computed without error and lies strictly between 0 and 3; a
    duration of -1 makes it raise [ZeroDivisionError]. *)
Theorem balance_score_range (r : RouteProcessor.route) (t d : Q) :
  RouteProcessor.duration_min r = Some t ->
  RouteProcessor.distance_km r = Some d ->
  (0 <= t /\ 0 <= d -> 
   exists b, RouteProcessor._calculate_balance_score r = inr b
             /\ 0 < b < 3)
  /\ (t == -1 ->
      RouteProcessor._calculate_balance_score r = inl ZeroDivisionError).
Proof.
  intros Ht Hd. split.
  - intros [Htpos Hdpos].
    pose proof (estimate_cost_nonneg r d Hd Hdpos) as Hc.
    pose proof (estimate_emissions_nonneg r d Hd Hdpos) as He.
    unfold RouteProcessor._calculate_balance_score.
    rewrite Ht. cbn [RouteProcessor.opt_default].
    destruct (unit_fraction (t + 1)) as [E1 [P1 B1]]; [lra |].
    destruct (unit_fraction (RouteProcessor._estimate_cost r + 1))
      as [E2 [P2 B2]]; [lra |].
    destruct (unit_fraction (RouteProcessor._estimate_emissions r + 0.1))
      as [E3 [P3 _]]; [lra |].
    assert (B3 : 1 / (RouteProcessor._estimate_emissions r + 0.1) <= 10).
    { apply Qle_shift_div_r; lra. }
    rewrite E1, E2, E3. cbn [bind].
    specialize (B1 ltac:(lra)). specialize (B2 ltac:(lra)).
    set (ts := 1 / (t + 1)) in *.
    set (cs := 1 / (RouteProcessor._estimate_cost r + 1)) in *.
    set (es := 1 / (RouteProcessor._estimate_emissions r + 0.1)) in *.
    destruct (RouteProcessor.segments r) as [segs |] eqn:Es.
    + pose proof (count_transfers_range r) as Hn. cbv zeta in Hn.
      assert (Hx : 1 <= inject_Z (RouteProcessor._count_transfers r + 1)).
      { change 1 with (inject_Z 1). rewrite <- Zle_Qle. lia. }
      assert (Hy : 1 <= inject_Z (RouteProcessor.count_walk segs + 1)).
      { change 1 with (inject_Z 1). rewrite <- Zle_Qle.
        unfold RouteProcessor.count_walk. lia. }
      destruct (unit_fraction
                  (inject_Z (RouteProcessor._count_transfers r + 1)))
        as [E4 [P4 B4]]; [lra |].
      destruct (unit_fraction (inject_Z (RouteProcessor.count_walk segs + 1)))
        as [E5 [P5 B5]]; [lra |].
      rewrite E4, E5. cbn [bind ret].
      specialize (B4 Hx). specialize (B5 Hy).
      set (a := 1 / inject_Z (RouteProcessor._count_transfers r + 1)) in *.
      set (b := 1 / inject_Z (RouteProcessor.count_walk segs + 1)) in *.
      eexists. split; [reflexivity |].
      assert (0 < a * b) by (apply Qmult_lt_0_compat; assumption).
      assert (a * b <= 1) by nra.
      split; nra.
    + cbn [bind ret]. eexists. split; [reflexivity |]. split; lra.
  - intro Hm. unfold RouteProcessor._calculate_balance_score.
    rewrite Ht. cbn [RouteProcessor.opt_default].
    unfold truediv at 1.
    assert (E : Qeq_bool (t + 1) 0 = true)
      by (apply Qeq_bool_iff; rewrite Hm; reflexivity).
    rewrite E. reflexivity.
Qed.

Lemma balance_score_range_witness :
  exists b, RouteProcessor._calculate_balance_score Samples.bus_route_20
            = inr b
            /\ 0 < b < 3.
Proof.
  apply (proj1 (balance_score_range Samples.bus_route_20 20 11.5
                  eq_refl eq_refl)).
  split; lra.
Defined.

(** ** api/route_service.py: comparison and extraction *)

(** X23: [compare_routes] returns the empty dict exactly on no route;
    otherwise its best-eco entry is the first route, in iteration order,
    whose eco-score is the greatest (every route before it has a strictly
    smaller eco-score, no route after it a greater one), its fastest entry
    the first route whose duration is the least and its cheapest entry the
    first route whose cost is the least; over distinct keys the comparison
    table lists the routes in their order, each with its five figures. *)
Theorem compare_routes_extremes
    (routes : list (string * RouteService.Totals)) :
  match RouteService.compare_routes routes with
  | None => routes = []
  | Some c =>
      (exists before r after,
         routes
         = (before ++ (fst (RouteService.best_eco c), r) :: after)%list
         /\ snd (RouteService.best_eco c) = RouteService.eco_score r
         /\ (forall x, In x before ->
               RouteService.eco_score (snd x) < RouteService.eco_score r)
         /\ (forall x, In x after ->
               RouteService.eco_score (snd x) <= RouteService.eco_score r))
      /\ (exists before r after,
            routes
            = (before ++ (fst (RouteService.fastest c), r) :: after)%list
            /\ snd (RouteService.fastest c)
               = RouteService.total_duration_min r
            /\ (forall x, In x before ->
                  RouteService.total_duration_min r
                  < RouteService.total_duration_min (snd x))
            /\ (forall x, In x after ->
                  RouteService.total_duration_min r
                  <= RouteService.total_duration_min (snd x)))
      /\ (exists before r after,
            routes
            = (before ++ (fst (RouteService.cheapest c), r) :: after)%list
            /\ snd (RouteService.cheapest c) = RouteService.cost_inr r
            /\ (forall x, In x before ->
                  RouteService.cost_inr r < RouteService.cost_inr (snd x))
            /\ (forall x, In x after ->
                  RouteService.cost_inr r <= RouteService.cost_inr (snd x)))
      /\ (NoDup (map fst routes) ->
          RouteService.comparison c
          = map (fun item =>
                   (fst item,
                    {| RouteService.cmp_distance_km :=
                         RouteService.total_distance_km (snd item);
                       RouteService.cmp_duration_min :=
                         RouteService.total_duration_min (snd item);
                       RouteService.cmp_cost_inr :=
                         RouteService.cost_inr (snd item);
                       RouteService.cmp_co2_kg :=
                         RouteService.co2_emissions_kg (snd item);
                       RouteService.cmp_eco_score :=
                         RouteService.eco_score (snd item) |})) routes)
  end.
Proof.
  destruct routes as [| first rest]; cbn [RouteService.compare_routes];
    [reflexivity |].
  cbn [RouteService.best_eco RouteService.fastest RouteService.cheapest
       RouteService.comparison fst snd].
  destruct (max_by_split (fun x : string * RouteService.Totals =>
                            RouteService.eco_score (snd x)) rest first)
    as [b1 [a1 [E1 [B1 A1]]]].
  destruct (min_by_split (fun x : string * RouteService.Totals =>
                            RouteService.total_duration_min (snd x))
              rest first)
    as [b2 [a2 [E2 [B2 A2]]]].
  destruct (min_by_split (fun x : string * RouteService.Totals =>
                            RouteService.cost_inr (snd x)) rest first)
    as [b3 [a3 [E3 [B3 A3]]]].
  split; [| split; [| split; [| apply comparison_table_distinct]]].
  - exists b1. eexists. exists a1.
    rewrite <- surjective_pairing.
    split; [exact E1 |]. split; [reflexivity |]. split; assumption.
  - exists b2. eexists. exists a2.
    rewrite <- surjective_pairing.
    split; [exact E2 |]. split; [reflexivity |]. split; assumption.
  - exists b3. eexists. exists a3.
    rewrite <- surjective_pairing.
    split; [exact E3 |]. split; [reflexivity |]. split; assumption.
Qed.

Local Notation "'tied_routes'" :=
  [ ("metro", {| RouteService.total_distance_km := 10;
                 RouteService.total_duration_min := 40;
                 RouteService.cost_inr := 35;
                 RouteService.co2_emissions_kg := 1.23;
                 RouteService.eco_score := 60 |});
    ("bus", {| RouteService.total_distance_km := 11;
               RouteService.total_duration_min := 40;
               RouteService.cost_inr := 35;
               RouteService.co2_emissions_kg := 0.2;
               RouteService.eco_score := 60 |}) ].

Lemma compare_routes_extremes_witness :
  exists c,
    RouteService.compare_routes tied_routes = Some c
    /\ fst (RouteService.best_eco c) = "metro"
    /\ fst (RouteService.fastest c) = "metro"
    /\ fst (RouteService.cheapest c) = "metro"
    /\ map fst (RouteService.comparison c) = ["metro"; "bus"].
Proof.
  pose proof (compare_routes_extremes tied_routes) as H.
  destruct (RouteService.compare_routes _) as [c |] eqn:E; [| discriminate H].
  exists c. split; [reflexivity |].
  destruct H as [[b1 [r1 [a1 [E1 [_ [B1 _]]]]]]
                 [[b2 [r2 [a2 [E2 [_ [B2 _]]]]]]
                  [[b3 [r3 [a3 [E3 [_ [B3 _]]]]]] Hc]]].
  split; [| split; [| split]].
  - destruct b1 as [| x [| y b1]]; simpl in E1.
    + injection E1 as E1 _ _. symmetry. exact E1.
    + injection E1 as Ex _ Er _. exfalso.
      pose proof (B1 x (or_introl eq_refl)) as Hlt.
      rewrite <- Ex, <- Er in Hlt. cbn in Hlt. lra.
    + injection E1 as _ _ E1. destruct b1; discriminate E1.
  - destruct b2 as [| x [| y b2]]; simpl in E2.
    + injection E2 as E2 _ _. symmetry. exact E2.
    + injection E2 as Ex _ Er _. exfalso.
      pose proof (B2 x (or_introl eq_refl)) as Hlt.
      rewrite <- Ex, <- Er in Hlt. cbn in Hlt. lra.
    + injection E2 as _ _ E2. destruct b2; discriminate E2.
  - destruct b3 as [| x [| y b3]]; simpl in E3.
    + injection E3 as E3 _ _. symmetry. exact E3.
    + injection E3 as Ex _ Er _. exfalso.
      pose proof (B3 x (or_introl eq_refl)) as Hlt.
      rewrite <- Ex, <- Er in Hlt. cbn in Hlt. lra.
    + injection E3 as _ _ E3. destruct b3; discriminate E3.
  - rewrite Hc; [reflexivity |].
    repeat constructor; simpl; intuition discriminate.
Defined.

Lemma extract_steps_spec
    (polyline_decode : string -> py (list Provider.coords))
    (l : list Provider.Step) :
  forall i,
    map RouteService.si_step (RouteService.extract_steps polyline_decode i l)
    = map (fun j => (Z.of_nat j + 1)%Z) (seq i (List.length l))
    /\ map RouteService.si_mode
         (RouteService.extract_steps polyline_decode i l)
       = map (fun st => RouteService.lower (Provider.travel_mode st)) l
    /\ (RouteService.collect_transit
          (RouteService.extract_steps polyline_decode i l) = []
        <-> forall st, In st l ->
              Provider.travel_mode st <> "TRANSIT"
              \/ Provider.transit_details st = None).
Proof.
  induction l as [| st l IH]; intro i;
    cbn [RouteService.extract_steps List.length seq map].
  - split; [reflexivity |]. split; [reflexivity |].
    split; [intros _ st [] | reflexivity].
  - destruct (IH (S i)) as [H1 [H2 H3]]. rewrite H1, H2.
    split; [reflexivity |]. split; [reflexivity |].
    unfold RouteService.collect_transit in *. cbn [flat_map].
    cbn [RouteService.extract_step RouteService.si_transit].
    destruct (String.eqb (Provider.travel_mode st) "TRANSIT") eqn:E.
    + destruct (Provider.transit_details st) as [td |] eqn:Etd;
        cbn [option_map app].
      * split; [discriminate |]. intro H.
        destruct (H st (or_introl eq_refl)) as [Hn | Hn];
          [apply String.eqb_eq in E; contradiction | congruence].
      * rewrite H3. split.
        -- intros H x [<- | Hx]; [right; exact Etd | apply H; exact Hx].
        -- intros H x Hx. apply H. right. exact Hx.
    + cbn [app]. rewrite H3. apply String.eqb_neq in E. split.
      * intros H x [<- | Hx]; [left; exact E | apply H; exact Hx].
      * intros H x Hx. apply H. right. exact Hx.
Qed.

(** X24: [_extract_route_info] raises (IndexError) exactly when the route
    has no leg; otherwise it reads the first leg only: the summary is marked
    realistic, takes its totals from that leg, numbers the steps 1, 2, ...
    in order with their travel mode in lower case, and has no transit
    segments (None, never an empty list) exactly when no step is a TRANSIT
    step with transit details. *)
Theorem extract_route_info_summary
    (polyline_decode : string -> py (list Provider.coords))
    (route_data : Provider.RouteData) (mode : TransportMode) :
  match RouteService._extract_route_info polyline_decode route_data mode with
  | inl e => e = IndexError /\ Provider.legs route_data = []
  | inr s =>
      exists leg rest,
        Provider.legs route_data = leg :: rest
        /\ RouteService.rs_is_realistic s = true
        /\ RouteService.rs_mode s = value mode
        /\ RouteService.rs_total_distance_meters s
           = Provider.distance_value leg
        /\ RouteService.rs_total_duration_seconds s
           = Provider.duration_value leg
        /\ map RouteService.si_step (RouteService.rs_steps s)
           = map (fun j => (Z.of_nat j + 1)%Z)
               (seq 0 (List.length (Provider.steps leg)))
        /\ map RouteService.si_mode (RouteService.rs_steps s)
           = map (fun st => RouteService.lower (Provider.travel_mode st))
               (Provider.steps leg)
        /\ RouteService.rs_transit_segments s <> Some []
        /\ (RouteService.rs_transit_segments s = None
            <-> forall st, In st (Provider.steps leg) ->
                  Provider.travel_mode st <> "TRANSIT"
                  \/ Provider.transit_details st = None)
  end.
Proof.
  unfold RouteService._extract_route_info.
  destruct (Provider.legs route_data) as [| leg rest]; cbn [bind ret raise].
  - split; reflexivity.
  - exists leg, rest. split; [reflexivity |].
    cbn [RouteService.rs_is_realistic RouteService.rs_mode
         RouteService.rs_total_distance_meters
         RouteService.rs_total_duration_seconds RouteService.rs_steps
         RouteService.rs_transit_segments].
    destruct (extract_steps_spec polyline_decode (Provider.steps leg) 0)
      as [H1 [H2 H3]].
    repeat (split; [first [reflexivity | exact H1 | exact H2] |]).
    destruct (RouteService.collect_transit _) as [| tr trs] eqn:Ec.
    + split; [discriminate |]. rewrite <- H3. split; reflexivity.
    + split; [discriminate |]. rewrite <- H3. split; discriminate.
Qed.

(** ** app.py: scores, the estimated route and the two cost paths *)

(** X25: both scores of app.py stay in range for every input: the score of
    [RouteService._calculate_eco_score] lies in [14.4, 100] and the
    simplified score of [EcoScorer.calculate_eco_score] in [20, 100]. *)
Theorem app_eco_scores_in_range (mode : string)
    (distance_km duration_min co2_kg cost_inr : Q) (priority : string) :
  14.4 <= App._calculate_eco_score mode distance_km duration_min co2_kg
            cost_inr priority <= 100
  /\ 20 <= App.simple_eco_score mode distance_km duration_min cost_inr co2_kg
             priority <= 100.
Proof.
  unfold App._calculate_eco_score, App.simple_eco_score, App.base_scores.
  cbn [get]. inv_literals.
  repeat match goal with
  | |- context [String.eqb ?a ?b] => destruct (String.eqb a b)
  end;
  cmp_cases; unfold max; cmp_cases; unfold min; cmp_cases;
  repeat split; lra.
Qed.

Lemma round_of_zero (x : Q) (n : nat) : x == 0 -> round x n == 0.
Proof.
  intro H. unfold round.
  set (s := inject_Z (10 ^ Z.of_nat n)).
  assert (Hy : x * s == 0) by (rewrite H; ring).
  assert (Hr : round_half_even (x * s) = 0%Z).
  { unfold round_half_even.
    rewrite (Qfloor_comp _ _ Hy). change (Qfloor 0) with 0%Z.
    assert (E : ltb (x * s - inject_Z 0) (1 # 2) = true).
    { apply ltb_true. rewrite Hy. change (inject_Z 0) with 0. lra. }
    rewrite E. reflexivity. }
  rewrite Hr. unfold Qdiv. change (inject_Z 0) with 0. ring.
Qed.

Lemma app_mode_config_cases (mode : string) :
  exists cfg,
    App.mode_config_of mode = inr cfg
    /\ ~ App.speed_kmh cfg == 0
    /\ (~ In mode ["car"; "metro"; "bus"; "walking"; "bicycle"] ->
        cfg = App.car_config)
    /\ (mode = "walking" \/ mode = "bicycle" ->
        App.cost_per_km cfg = 0 /\ App.co2_per_km cfg = 0).
Proof.
  unfold App.mode_config_of.
  change (getitem App.TRANSPORT_MODES "car")
    with (@inr exn App.ModeConfig App.car_config).
  cbn [bind ret]. unfold App.TRANSPORT_MODES. cbn [get].
  destruct (String.eqb "car" mode) eqn:E1;
  [| destruct (String.eqb "metro" mode) eqn:E2;
  [| destruct (String.eqb "bus" mode) eqn:E3;
  [| destruct (String.eqb "walking" mode) eqn:E4;
  [| destruct (String.eqb "bicycle" mode) eqn:E5]]]];
  repeat match goal with
  | H : String.eqb _ mode = true |- _ => apply String.eqb_eq in H; subst mode
  | H : String.eqb _ mode = false |- _ => apply String.eqb_neq in H
  end;
  eexists; (split; [reflexivity |]);
  (split; [cbn; discriminate |]);
  (split; [intro Hn; try reflexivity; exfalso; apply Hn; simpl; auto 10 |]);
  (intros [Hm | Hm]; try discriminate Hm; try (split; reflexivity);
   congruence).
Qed.

(** X26: the estimated route of app.py.  Where the Haversine arithmetic
    returns an angle, the route is built for every mode string: it carries
    the mode given, is marked not realistic, has the straight line as its
    path and the Earth radius times the angle, rounded to two places, as its
    distance; a mode that is not in the table silently gets the car
    configuration and the eco-score 50; walking and bicycle routes cost
    nothing and emit nothing.  Where the Haversine arithmetic raises (the
    square root of a negative number, between nearly antipodal points), no
    route is built: [_create_basic_route] raises that exception, and so does
    [calculate_route] on a service without a client. *)
Theorem app_basic_route_defaults
    (central_angle : Provider.coords -> Provider.coords -> py Q)
    (start_coords end_coords : Provider.coords) (mode : string) :
  match central_angle start_coords end_coords with
  | inl err =>
      App._create_basic_route central_angle start_coords end_coords mode
      = inl err
      /\ forall priority,
           App.calculate_route_without_client central_angle start_coords
             end_coords mode priority = inl err
  | inr c =>
      exists r,
        App._create_basic_route central_angle start_coords end_coords mode
        = inr r
        /\ (forall priority,
              App.calculate_route_without_client central_angle start_coords
                end_coords mode priority = inr (Some r))
        /\ App.r_mode r = mode
        /\ App.r_is_realistic r = false
        /\ App.r_decoded_path r = [start_coords; end_coords]
        /\ App.r_total_distance_km r = round (6371 * c) 2
        /\ (~ In mode ["car"; "metro"; "bus"; "walking"; "bicycle"] ->
            App.r_mode_config r = App.car_config /\ App.r_eco_score r == 50)
        /\ (mode = "walking" \/ mode = "bicycle" ->
            App.r_cost_inr r == 0 /\ App.r_co2_emissions_kg r == 0)
  end.
Proof.
  unfold App.calculate_route_without_client, App._create_basic_route.
  destruct (central_angle start_coords end_coords) as [err | c];
    cbn [bind]; [split; reflexivity |].
  destruct (app_mode_config_cases mode) as [cfg [Hc [Hs [Hu Hz]]]].
  rewrite Hc. cbn [bind]. rewrite (truediv_nonzero _ _ Hs). cbn [bind ret].
  eexists. split; [reflexivity |].
  cbn [App.r_mode App.r_is_realistic App.r_decoded_path App.r_mode_config
       App.r_eco_score App.r_cost_inr App.r_co2_emissions_kg
       App.r_total_distance_km].
  split; [reflexivity |].
  split; [reflexivity |]. split; [reflexivity |]. split; [reflexivity |].
  split; [reflexivity |].
  split.
  - intro Hn. split; [exact (Hu Hn) |].
    assert (Hb : get App.base_scores mode 50 = 50).
    { unfold App.base_scores. cbn [get].
      repeat match goal with
      | |- context [String.eqb ?a mode] =>
          let E := fresh "E" in
          destruct (String.eqb a mode) eqn:E;
          [apply String.eqb_eq in E; exfalso; apply Hn; rewrite <- E;
           simpl; auto 10 |]
      end. reflexivity. }
    rewrite Hb. reflexivity.
  - intro Hm. destruct (Hz Hm) as [Z1 Z2]. rewrite Z1, Z2.
    split; apply round_of_zero; ring.
Qed.

Lemma app_basic_route_defaults_witness :
  (exists r,
     App._create_basic_route (fun _ _ => ret 0.001) (12.9716, 77.5946)
       (12.9784, 77.6408) "tram" = inr r
     /\ App.r_mode_config r = App.car_config
     /\ App.r_total_distance_km r == 6.37)
  /\ App._create_basic_route (fun _ _ => raise ValueError) (0.08, 0)
       (-0.08, 180) "car" = inl ValueError.
Proof.
  split.
  - destruct (app_basic_route_defaults (fun _ _ => ret 0.001)
                (12.9716, 77.5946) (12.9784, 77.6408) "tram")
      as [r [H [_ [_ [_ [_ [Hd [Hu _]]]]]]]].
    exists r. split; [exact H |]. split.
    + apply Hu. simpl.
      intros [E | [E | [E | [E | [E | []]]]]]; discriminate E.
    + rewrite Hd. reflexivity.
  - apply (app_basic_route_defaults (fun _ _ => raise ValueError) (0.08, 0)
             (-0.08, 180) "car").
Defined.

Lemma round_2_close (x : Q) :
  x * 100 - (1 # 2) <= round x 2 * 100 <= x * 100 + (1 # 2).
Proof.
  unfold round. change (inject_Z (10 ^ Z.of_nat 2)) with 100.
  pose proof (round_half_even_close (x * 100)) as H.
  set (n := inject_Z (round_half_even (x * 100))) in *.
  qarith.
Qed.

(** X27: inside app.py the emissions of [_calculate_metrics] and of
    [EmissionCalculator.calculate_co2_emissions] agree, but the costs of a
    car trip do not: the metrics price an hour at 50 and
    [CostCalculator.calculate_cost] at 20, so for every car trip of at least
    a minute the cost of the metrics is the higher one. *)
Theorem app_car_cost_paths_differ (dm s : Q) (priority : string) :
  60 <= s ->
  exists metrics cost emissions,
    App._calculate_metrics
      {| App.total_distance_m := dm; App.total_duration_s := s |} "car"
      priority = inr metrics
    /\ App.calculate_cost "car" (dm / 1000) (s / 60) = inr cost
    /\ App.calculate_co2_emissions "car" (dm / 1000) = inr emissions
    /\ App.c_total_cost cost < App.m_cost_inr metrics
    /\ App.e_co2_kg emissions = App.m_co2_emissions_kg metrics.
Proof.
  intro Hs. eexists. eexists. eexists.
  split; [reflexivity |]. split; [reflexivity |]. split; [reflexivity |].
  cbn [App.c_total_cost App.m_cost_inr App.e_co2_kg App.m_co2_emissions_kg
       App.total_distance_m App.total_duration_s].
  split; [| reflexivity].
  change (App.cost_per_km (get App.TRANSPORT_MODES "car" App.car_config))
    with 8.
  change (String.eqb "car" "car") with true. cbv iota.
  inv_literals.
  match goal with
  | |- round ?b 2 < round ?a 2 =>
      pose proof (round_2_close a) as Ha;
      pose proof (round_2_close b) as Hb;
      set (ra := round a 2) in *; set (rb := round b 2) in *
  end.
  lra.
Qed.

Lemma app_car_cost_paths_differ_witness :
  60 <= 1800
  /\ exists metrics cost,
       App._calculate_metrics
         {| App.total_distance_m := 12000; App.total_duration_s := 1800 |}
         "car" "balanced" = inr metrics
       /\ App.calculate_cost "car" (12000 / 1000) (1800 / 60) = inr cost
       /\ App.c_total_cost cost < App.m_cost_inr metrics.
Proof.
  split; [lra |].
  destruct (app_car_cost_paths_differ 12000 1800 "balanced")
    as [metrics [cost [emissions [H1 [H2 [_ [H3 _]]]]]]]; [lra |].
  exists metrics, cost. split; [exact H1 |]. split; [exact H2 | exact H3].
Defined.

(** ** api/route.py: the route record and its dict *)

Section RouteRecordProperties.

Variables Step Details Time : Type.
Variable now : Time.
Variable decode_polyline : string -> py (list Provider.coords).

Local Notation "'Route'" := (@RouteRecord.Route Step Details Time).
Local Notation "'from_dict'" :=
  (@RouteRecord.from_dict Step Details Time now decode_polyline).
Local Notation "'post_init'" :=
  (@RouteRecord.__post_init__ Step Details Time decode_polyline).

Ltac route_fields :=
  cbn [RouteRecord.mode RouteRecord.start_address RouteRecord.end_address
       RouteRecord.start_location RouteRecord.end_location
       RouteRecord.total_distance_km RouteRecord.total_duration_min
       RouteRecord.cost_inr RouteRecord.co2_emissions_kg
       RouteRecord.eco_score RouteRecord.polyline RouteRecord.decoded_path
       RouteRecord.steps RouteRecord.transit_details RouteRecord.warnings
       RouteRecord.calculation_time RouteRecord.is_realistic].


(** X29: [__post_init__] changes nothing but the decoded path, and only for
    a route that has a polyline and no path yet: then the path is the decoded
    polyline, or the straight line from start to end when decoding raises.
    Applying it twice is applying it once. *)
Theorem post_init_fills_path (r : Route) :
  RouteRecord.to_dict (post_init r) = RouteRecord.to_dict r
  /\ RouteRecord.polyline (post_init r) = RouteRecord.polyline r
  /\ RouteRecord.is_realistic (post_init r) = RouteRecord.is_realistic r
  /\ RouteRecord.transit_details (post_init r)
     = RouteRecord.transit_details r
  /\ RouteRecord.calculation_time (post_init r)
     = RouteRecord.calculation_time r
  /\ RouteRecord.decoded_path (post_init r)
     = match RouteRecord.decoded_path r with
       | [] =>
           if truthy_str (RouteRecord.polyline r) then
             match decode_polyline
                     (opt_default_str (RouteRecord.polyline r) EmptyString)
             with
             | inr decoded => decoded
             | inl _ =>
                 [RouteRecord.start_location r; RouteRecord.end_location r]
             end
           else []
       | path => path
       end
  /\ post_init (post_init r) = post_init r.
Proof.
  unfold RouteRecord.__post_init__.
  destruct (RouteRecord.decoded_path r) as [| p path] eqn:Ep.
  - destruct (truthy_str (RouteRecord.polyline r)) eqn:Et.
    + destruct (decode_polyline _) as [e | decoded] eqn:Ed.
      * unfold RouteRecord.to_dict. route_fields.
        repeat split; reflexivity.
      * unfold RouteRecord.to_dict. route_fields.
        repeat split; try reflexivity.
        destruct decoded as [| q decoded]; [| reflexivity].
        rewrite Et. reflexivity.
    + rewrite Ep, Et. repeat split; try reflexivity; exact Ep.
  - rewrite Ep. repeat split; try reflexivity; exact Ep.
Qed.

End RouteRecordProperties.

(** ** calculators: ownership and the comparisons across modes *)

(** X8: [get_total_cost_of_ownership] returns for every mode and every
    monthly distance; the annual cost is twelve times the monthly cost, and
    the monthly cost does not decrease when the monthly distance grows. *)
Theorem ownership_cost_monotone (m : TransportMode) (d1 d2 : Q) :
  d1 <= d2 ->
  exists o1 o2,
    CostCalculator.get_total_cost_of_ownership m d1 = inr o1
    /\ CostCalculator.get_total_cost_of_ownership m d2 = inr o2
    /\ CostCalculator.monthly_cost o1 <= CostCalculator.monthly_cost o2
    /\ CostCalculator.annual_cost o1 == 12 * CostCalculator.monthly_cost o1
    /\ CostCalculator.annual_cost o2 == 12 * CostCalculator.monthly_cost o2.
Proof.
  intro H.
  destruct (total_cost_monotone m 0 None d1 d2 H) as [c1 [c2 [E1 [E2 Hle]]]].
  destruct m; unfold CostCalculator.get_total_cost_of_ownership,
    CostCalculator._get_car_ownership_cost,
    CostCalculator._get_bike_ownership_cost;
  rewrite E1, E2; cbn [bind]; rewrite !per_km_total; cbn [bind ret];
  do 2 eexists; (split; [reflexivity |]); (split; [reflexivity |]);
  cbn [CostCalculator.monthly_cost CostCalculator.annual_cost];
  (split; [| split; ring]);
  first [exact Hle | apply (proj2 (Qplus_le_r _ _ _)); exact Hle].
Qed.

Lemma ownership_cost_monotone_witness :
  300 <= 500
  /\ exists o1 o2,
       CostCalculator.get_total_cost_of_ownership CAR 300 = inr o1
       /\ CostCalculator.get_total_cost_of_ownership CAR 500 = inr o2
       /\ CostCalculator.monthly_cost o1 <= CostCalculator.monthly_cost o2.
Proof.
  split; [lra |].
  destruct (ownership_cost_monotone CAR 300 500) as [o1 [o2 [H1 [H2 [H _]]]]];
    [lra |].
  exists o1, o2. split; [exact H1 |]. split; [exact H2 | exact H].
Defined.

(** X30: [compare_costs] and [get_emission_comparison] return one entry per
    mode, in the order car, metro, bus, bike, walk, and the entry of a mode
    holds what [calculate_cost] and [calculate_co2_emissions] return for that
    mode alone. *)
Theorem comparisons_cover_all_modes (d t : Q) :
  (exists costs,
     CostCalculator.compare_costs d t = inr costs
     /\ map fst costs = ["car"; "metro"; "bus"; "bike"; "walk"]
     /\ forall m,
          exists c,
            CostCalculator.calculate_cost m d t None = inr c
            /\ In (value m,
                   {| CostCalculator.ce_total_cost :=
                        CostCalculator.total_cost c;
                      CostCalculator.ce_cost_per_km :=
                        CostCalculator.cost_per_km c;
                      CostCalculator.ce_method := CostCalculator.method c |})
                 costs)
  /\ map fst
       (EmissionCalculator.get_emission_comparison EmissionCalculator.init d)
     = ["car"; "metro"; "bus"; "bike"; "walk"]
  /\ forall m,
       let e :=
         EmissionCalculator.calculate_co2_emissions EmissionCalculator.init m
           d None in
       In (value m,
           {| EmissionCalculator.ce_co2_kg := EmissionCalculator.co2_kg e;
              EmissionCalculator.ce_co2_per_km :=
                EmissionCalculator.co2_per_km e;
              EmissionCalculator.ce_method := EmissionCalculator.method e |})
         (EmissionCalculator.get_emission_comparison EmissionCalculator.init
            d).
Proof.
  split; [| split].
  - unfold CostCalculator.compare_costs.
    destruct (calculate_cost_returns CAR d t None) as [c1 E1].
    destruct (calculate_cost_returns METRO d t None) as [c2 E2].
    destruct (calculate_cost_returns BUS d t None) as [c3 E3].
    destruct (calculate_cost_returns BIKE d t None) as [c4 E4].
    destruct (calculate_cost_returns WALK d t None) as [c5 E5].
    cbn [CostCalculator.compare_costs_loop].
    rewrite E1. cbn [bind]. rewrite E2. cbn [bind]. rewrite E3. cbn [bind].
    rewrite E4. cbn [bind]. rewrite E5. cbn [bind ret].
    eexists. split; [reflexivity |]. split; [reflexivity |].
    intros []; eexists; (split; [eassumption |]); simpl; auto 10.
  - reflexivity.
  - intros [] e; subst e; simpl; auto 10.
Qed.
